(** * Advanced RAG notebooks: a shallow embedding of their Python logic

    The notebooks of the repository assemble request dictionaries, call
    managed services (Bedrock, SageMaker, FloTorch) and post-process the
    answers.  This development embeds the Python code of the notebooks:

    - Python values ([pyval]): str as a sequence of code points, dict as an
      insertion-ordered association list, exceptions as class and message;
    - effects: a state-and-exception monad; every notebook threads the
      opaque state of the outside world and a log of the service calls;
    - one module per notebook. *)

From Stdlib Require Import Ascii String.
From stdpp Require Import base strings list gmap pretty.

#[local] Set Warnings "-register-all".

(** ** Python strings *)

(** A Python [str] is a sequence of Unicode code points. *)
Abbreviation pystr := (list N).

(** String literals of the source (all of them ASCII). *)
Definition lit (s : string) : pystr :=
  (λ a, N_of_ascii a) <$> list_ascii_of_string s.

Definition dquote : N := 34.
Definition newline : N := 10.

(** [sep.join(parts)] *)
Fixpoint str_join (sep : pystr) (parts : list pystr) : pystr :=
  match parts with
  | [] => []
  | [p] => p
  | p :: rest => p ++ sep ++ str_join sep rest
  end.

(** [str.isspace] on one code point (the Unicode White_Space and
    bidirectional-separator characters Python strips). *)
Definition is_space (c : N) : bool :=
  bool_decide (c ∈ [9; 10; 11; 12; 13; 28; 29; 30; 31; 32; 133; 160; 5760;
                    8192; 8193; 8194; 8195; 8196; 8197; 8198; 8199; 8200;
                    8201; 8202; 8232; 8233; 8239; 8287; 12288]%N).

Fixpoint str_lstrip (s : pystr) : pystr :=
  match s with
  | c :: s' => if is_space c then str_lstrip s' else s
  | [] => []
  end.

Definition str_rstrip (s : pystr) : pystr := reverse (str_lstrip (reverse s)).

(** [s.strip()] *)
Definition str_strip (s : pystr) : pystr := str_rstrip (str_lstrip s).

Fixpoint starts_with (p s : pystr) : bool :=
  match p, s with
  | [], _ => true
  | a :: p', b :: s' => bool_decide (a = b) && starts_with p' s'
  | _ :: _, [] => false
  end.

(** [p in s] for two strings: substring test. *)
Fixpoint has_substring (p s : pystr) : bool :=
  starts_with p s || match s with [] => false | _ :: s' => has_substring p s' end.

(** ** Python values *)

Inductive pyval :=
  | PyNone
  | PyBool (b : bool)
  | PyInt (z : Z)
  | PyFloat (repr : pystr)   (* a float, kept as its [repr] text *)
  | PyStr (s : pystr)
  | PyList (items : list pyval)
  | PyDict (entries : list (pystr * pyval)).

(** ** Dictionaries: insertion-ordered, keys are strings *)

Section dict.
Context {V : Type}.

Fixpoint dict_get (k : pystr) (d : list (pystr * V)) : option V :=
  match d with
  | [] => None
  | (k', v) :: d' => if decide (k' = k) then Some v else dict_get k d'
  end.

Definition dict_in (k : pystr) (d : list (pystr * V)) : bool :=
  bool_decide (is_Some (dict_get k d)).

(** [d[k] = v]: an existing key keeps its position, a new key goes last. *)
Fixpoint dict_set (k : pystr) (v : V) (d : list (pystr * V)) : list (pystr * V) :=
  match d with
  | [] => [(k, v)]
  | (k', v') :: d' =>
      if decide (k' = k) then (k', v) :: d' else (k', v') :: dict_set k v d'
  end.

Fixpoint dict_del (k : pystr) (d : list (pystr * V)) : list (pystr * V) :=
  match d with
  | [] => []
  | (k', v') :: d' => if decide (k' = k) then d' else (k', v') :: dict_del k d'
  end.

Definition dict_keys (d : list (pystr * V)) : list pystr := d.*1.
End dict.

(** ** Exceptions and results *)

(** An instance of [Exception]: its class name and [str(e)]. *)
Record exn := Exn { exn_class : pystr; exn_str : pystr }.

Inductive result (A : Type) :=
  | Ok (a : A)
  | Raise (e : exn).
Arguments Ok {A} a.
Arguments Raise {A} e.

Definition result_bind {A B} (r : result A) (f : A → result B) : result B :=
  match r with Ok a => f a | Raise e => Raise e end.

Definition result_map {A B} (f : A → B) (r : result A) : result B :=
  match r with Ok a => Ok (f a) | Raise e => Raise e end.

(** [repr] of a [str], after [unicode_repr] of CPython: the text between
    single quotes, or between double quotes when it holds a single quote and
    no double quote; the quote and the backslash are escaped, and so is every
    character that is not printable. *)
Module Repr.

Definition hex_digit (n : N) : N := if (n <? 10)%N then (48 + n)%N else (87 + n)%N.

(** The [digits] lowest hexadecimal digits of [n]. *)
Fixpoint hex (digits : nat) (n : N) : pystr :=
  match digits with
  | O => []
  | S digits' => hex digits' (n / 16)%N ++ [hex_digit (N.modulo n 16)]
  end.

(** The code points from 128 on that [str.isprintable] refuses: the
    controls, separators, format characters, surrogates, private-use
    characters and noncharacters of Unicode.  Python refuses the unassigned
    code points as well; these depend on the Unicode version of the
    interpreter and are not listed. *)
Definition not_printable_ranges : list (N * N) :=
  [(0x80, 0xA0); (0xAD, 0xAD); (0x600, 0x605); (0x61C, 0x61C); (0x6DD, 0x6DD);
   (0x70F, 0x70F); (0x890, 0x891); (0x8E2, 0x8E2); (0x1680, 0x1680);
   (0x180E, 0x180E); (0x2000, 0x200F); (0x2028, 0x202F); (0x205F, 0x206F);
   (0x3000, 0x3000); (0xD800, 0xF8FF); (0xFDD0, 0xFDEF); (0xFEFF, 0xFEFF);
   (0xFFF9, 0xFFFB); (0xFFFE, 0xFFFF); (0x110BD, 0x110BD); (0x110CD, 0x110CD);
   (0x13430, 0x1343F); (0x1BCA0, 0x1BCA3); (0x1D173, 0x1D17A);
   (0xE0001, 0xE0001); (0xE0020, 0xE007F); (0xF0000, 0xFFFFF);
   (0x100000, 0x10FFFF)]%N.

Definition is_printable (c : N) : bool :=
  negb (existsb (λ range, (range.1 <=? c)%N && (c <=? range.2)%N) not_printable_ranges).

Definition quote_of (s : pystr) : N :=
  if existsb (N.eqb 39) s && negb (existsb (N.eqb 34) s) then 34%N else 39%N.

Definition repr_char (quote c : N) : pystr :=
  if (c =? quote)%N || (c =? 92)%N then [92%N; c]
  else if (c =? 9)%N then lit "\t"
  else if (c =? 10)%N then lit "\n"
  else if (c =? 13)%N then lit "\r"
  else if (c <? 32)%N || (c =? 127)%N then lit "\x" ++ hex 2 c
  else if (c <? 127)%N then [c]
  else if is_printable c then [c]
  else if (c <? 256)%N then lit "\x" ++ hex 2 c
  else if (c <? 65536)%N then lit "\u" ++ hex 4 c
  else lit "\U" ++ hex 8 c.

Definition repr (s : pystr) : pystr :=
  let quote := quote_of s in
  [quote] ++ concat (repr_char quote <$> s) ++ [quote].

End Repr.

(** [str(KeyError(k))] is [repr(k)]. *)
Definition KeyError (k : pystr) : exn := Exn (lit "KeyError") (Repr.repr k).
Definition IndexError (msg : pystr) : exn := Exn (lit "IndexError") msg.
Definition TypeError (msg : pystr) : exn := Exn (lit "TypeError") msg.
Definition ValueError (msg : pystr) : exn := Exn (lit "ValueError") msg.
Definition RuntimeError (msg : pystr) : exn := Exn (lit "RuntimeError") msg.
Definition NameError (name : pystr) : exn :=
  Exn (lit "NameError") (lit "name '" ++ name ++ lit "' is not defined").

(** ** Operations of the Python data model *)

Definition type_name (v : pyval) : pystr :=
  match v with
  | PyNone => lit "NoneType"
  | PyBool _ => lit "bool"
  | PyInt _ => lit "int"
  | PyFloat _ => lit "float"
  | PyStr _ => lit "str"
  | PyList _ => lit "list"
  | PyDict _ => lit "dict"
  end.

(** Truth value testing: [if v:]. *)
Definition truthy (v : pyval) : bool :=
  match v with
  | PyNone => false
  | PyBool b => b
  | PyInt z => negb (bool_decide (z = 0%Z))
  | PyFloat r => negb (bool_decide (r = lit "0.0" ∨ r = lit "-0.0"))
  | PyStr s => negb (bool_decide (s = []))
  | PyList l => match l with [] => false | _ => true end
  | PyDict d => match d with [] => false | _ => true end
  end.

(** [obj[k]] for a string key [k]. *)
Definition getitem_str (obj : pyval) (k : pystr) : result pyval :=
  match obj with
  | PyDict d =>
      match dict_get k d with
      | Some v => Ok v
      | None => Raise (KeyError k)
      end
  | PyList _ => Raise (TypeError (lit "list indices must be integers or slices, not str"))
  | PyStr _ => Raise (TypeError (lit "string indices must be integers, not 'str'"))
  | _ => Raise (TypeError (lit "'" ++ type_name obj ++ lit "' object is not subscriptable"))
  end.

(** [l[0]] for a list [l]. *)
Definition list_first (l : list pyval) : result pyval :=
  match l with
  | v :: _ => Ok v
  | [] => Raise (IndexError (lit "list index out of range"))
  end.

(** [obj[k] = v] for a string key [k]. *)
Definition setitem_str (obj : pyval) (k : pystr) (v : pyval) : result pyval :=
  match obj with
  | PyDict d => Ok (PyDict (dict_set k v d))
  | PyList _ => Raise (TypeError (lit "list indices must be integers or slices, not str"))
  | _ => Raise (TypeError (lit "'" ++ type_name obj ++ lit "' object does not support item assignment"))
  end.

(** [k in obj] for a string [k]. *)
Definition contains_str (k : pystr) (obj : pyval) : result bool :=
  match obj with
  | PyDict d => Ok (dict_in k d)
  | PyList l => Ok (existsb (λ x, match x with PyStr s => bool_decide (s = k) | _ => false end) l)
  | PyStr s => Ok (has_substring k s)
  | _ => Raise (TypeError (lit "argument of type '" ++ type_name obj ++ lit "' is not iterable"))
  end.

(** [for x in obj]: the items the loop visits. *)
Definition iter_items (obj : pyval) : result (list pyval) :=
  match obj with
  | PyList l => Ok l
  | PyDict d => Ok (PyStr <$> dict_keys d)
  | PyStr s => Ok ((λ c, PyStr [c]) <$> s)
  | _ => Raise (TypeError (lit "'" ++ type_name obj ++ lit "' object is not iterable"))
  end.

(** [obj[p1][p2]...[pn][k] = v]: the inner dictionaries are reached by
    reference, so the assignment is seen through [obj]. *)
Fixpoint setitem_path (obj : pyval) (path : list pystr) (k : pystr) (v : pyval)
  : result pyval :=
  match path with
  | [] => setitem_str obj k v
  | p :: path' =>
      result_bind (getitem_str obj p) (λ inner,
      result_bind (setitem_path inner path' k v) (λ inner',
      setitem_str obj p inner'))
  end.

Fixpoint getitem_path (obj : pyval) (path : list pystr) : result pyval :=
  match path with
  | [] => Ok obj
  | p :: path' => result_bind (getitem_str obj p) (λ inner, getitem_path inner path')
  end.

(** ** Effects: state and exceptions *)

(** A computation reads and updates a state and returns or raises; a raised
    exception keeps the state changes made so far. *)
Definition M (S A : Type) : Type := S → S * result A.

Definition ret {S A} (a : A) : M S A := λ s, (s, Ok a).
Definition raise {S A} (e : exn) : M S A := λ s, (s, Raise e).
Definition bind {S A B} (m : M S A) (f : A → M S B) : M S B :=
  λ s, match m s with
       | (s', Ok a) => f a s'
       | (s', Raise e) => (s', Raise e)
       end.
Definition lift {S A} (r : result A) : M S A := λ s, (s, r).

(** [try: m  except Exception as e: h e] *)
Definition try_except {S A} (m : M S A) (h : exn → M S A) : M S A :=
  λ s, match m s with
       | (s', Ok a) => (s', Ok a)
       | (s', Raise e) => h e s'
       end.

Notation "'let*' x ':=' m 'in' k" := (bind m (λ x, k))
  (at level 10, x name, m at level 100, k at level 200).
Notation "'let?' x ':=' r 'in' k" := (result_bind r (λ x, k))
  (at level 10, x name, r at level 100, k at level 200).

(** ** The [json] module: encoding

    [json.dumps] and [json.dump] of the Python standard library, after
    [json.encoder]: [py_encode_basestring], [py_encode_basestring_ascii] and
    the generators of [_make_iterencode]. *)

Module Json.

Definition hex_digit (n : N) : N := if (n <? 10)%N then (48 + n)%N else (87 + n)%N.

(** ['\\u{0:04x}'.format(n)] *)
Definition u_escape (n : N) : pystr :=
  lit "\u" ++ [hex_digit ((n / 4096) `mod` 16); hex_digit ((n / 256) `mod` 16);
               hex_digit ((n / 16) `mod` 16); hex_digit (n `mod` 16)]%N.

(** [ESCAPE_DCT]: the two-character escapes and the control characters. *)
Definition escape_dct (c : N) : option pystr :=
  if bool_decide (c = 92%N) then Some [92; 92]%N
  else if bool_decide (c = 34%N) then Some [92; 34]%N
  else if bool_decide (c = 8%N) then Some (lit "\b")
  else if bool_decide (c = 12%N) then Some (lit "\f")
  else if bool_decide (c = 10%N) then Some (lit "\n")
  else if bool_decide (c = 13%N) then Some (lit "\r")
  else if bool_decide (c = 9%N) then Some (lit "\t")
  else if (c <? 32)%N then Some (u_escape c)
  else None.

(** The replacement of one character.  Without [ensure_ascii] only the
    characters of [ESCAPE] (controls, backslash, quote) are replaced; with it
    every character outside the printable ASCII range is, by a [\uXXXX]
    escape or a surrogate pair. *)
Definition escape_char (ensure_ascii : bool) (c : N) : pystr :=
  match escape_dct c with
  | Some e => e
  | None =>
      if ensure_ascii && (126 <? c)%N then
        if (c <? 65536)%N then u_escape c
        else
          let n := (c - 65536)%N in
          u_escape (N.lor 55296 (N.land (N.shiftr n 10) 1023)) ++
          u_escape (N.lor 56320 (N.land n 1023))
      else [c]
  end.

Definition encode_basestring (ensure_ascii : bool) (s : pystr) : pystr :=
  [dquote] ++ concat (escape_char ensure_ascii <$> s) ++ [dquote].

(** [int.__repr__] *)
Definition intstr (z : Z) : pystr := lit (pretty z).

(** [floatstr] with [allow_nan]: the float's [repr], except for the
    not-a-number and the infinities. *)
Definition floatstr (r : pystr) : pystr :=
  if bool_decide (r = lit "nan") then lit "NaN"
  else if bool_decide (r = lit "inf") then lit "Infinity"
  else if bool_decide (r = lit "-inf") then lit "-Infinity"
  else r.

Section encoder.
(** [indent]: [None], or the number of spaces per level. *)
Variable indent : option nat.
Variable ensure_ascii : bool.

Definition item_separator : pystr :=
  match indent with None => lit ", " | Some _ => lit "," end.
Definition key_separator : pystr := lit ": ".

(** ['\n' + _indent * _current_indent_level] *)
Definition newline_indent (level : nat) : pystr :=
  match indent with
  | None => []
  | Some n => newline :: replicate (n * level) 32%N
  end.

Definition separator (level : nat) : pystr := item_separator ++ newline_indent level.

Fixpoint iterencode (o : pyval) (level : nat) : pystr :=
  match o with
  | PyStr s => encode_basestring ensure_ascii s
  | PyNone => lit "null"
  | PyBool true => lit "true"
  | PyBool false => lit "false"
  | PyInt z => intstr z
  | PyFloat r => floatstr r
  | PyList [] => lit "[]"
  | PyList lst =>
      lit "[" ++ newline_indent (S level) ++
      str_join (separator (S level)) ((λ value, iterencode value (S level)) <$> lst) ++
      newline_indent level ++ lit "]"
  | PyDict [] => lit "{}"
  | PyDict dct =>
      lit "{" ++ newline_indent (S level) ++
      str_join (separator (S level))
        ((λ item, match item with
                  | (key, value) =>
                      encode_basestring ensure_ascii key ++ key_separator ++
                      iterencode value (S level)
                  end) <$> dct) ++
      newline_indent level ++ lit "}"
  end.

(** [json.dumps(obj, indent=indent, ensure_ascii=ensure_ascii)]; [json.dump]
    writes the same text to the file, chunk by chunk. *)
Definition dumps (obj : pyval) : pystr := iterencode obj 0.
End encoder.
End Json.

(** ** The metadata filter of the notebooks *)

(** The filter grammar of the retrieval service, as far as the notebooks use
    it: an equality clause and a conjunction of clauses. *)
Definition equals_clause (key : pystr) (value : pyval) : pyval :=
  PyDict [(lit "equals", PyDict [(lit "key", PyStr key); (lit "value", value)])].

Definition and_all (clauses : list pyval) : pyval :=
  PyDict [(lit "andAll", PyList clauses)].

(** The metadata filter in the words of the specification: the AND of one
    equality clause per (key, value) constraint. *)
Definition spec_filter_of (constraints : list (pystr * pyval)) : pyval :=
  and_all ((λ kv, equals_clause kv.1 kv.2) <$> constraints).

(** Reading a filter back: the (key, value) pair of an equality clause, and the
    pairs of a conjunction whose clauses are all equality clauses. *)
Definition clause_constraint (clause : pyval) : option (pystr * pyval) :=
  match clause with
  | PyDict [(op, PyDict [(k, PyStr key); (v, value)])] =>
      if bool_decide (op = lit "equals" ∧ k = lit "key" ∧ v = lit "value")
      then Some (key, value) else None
  | _ => None
  end.

Definition filter_constraints (f : pyval) : option (list (pystr * pyval)) :=
  match f with
  | PyDict [(op, PyList clauses)] =>
      if bool_decide (op = lit "andAll") then mapM clause_constraint clauses else None
  | _ => None
  end.

(** * Lab 2.3: Bedrock inference with guardrails *)

Module Guardrails.

(** Cell 5: the metadata filter. *)
Definition one_group_filter : pyval :=
  PyDict [(lit "andAll", PyList [
    PyDict [(lit "equals", PyDict [(lit "key", PyStr (lit "docType"));
                                   (lit "value", PyStr (lit "10K Report"))])];
    PyDict [(lit "equals", PyDict [(lit "key", PyStr (lit "year"));
                                   (lit "value", PyInt 2023)])]])].

Definition text_prompt_template : pystr :=
  lit "Answer the following question based on the context:" ++ [newline] ++
  lit "$search_results$" ++ [newline; newline] ++ lit "Question: {question}".

(** The body of [retrieve_and_generate_with_conditional_guardrails] up to the
    API call: the construction of [kb_config]. *)
Definition kb_config_of
    (knowledge_base_id model_arn metadata_filter use_guardrails
     guardrail_id guardrail_version : pyval) : result pyval :=
  (* Start with base configuration *)
  let kb_config :=
    PyDict [(lit "knowledgeBaseId", knowledge_base_id);
            (lit "modelArn", model_arn);
            (lit "retrievalConfiguration",
              PyDict [(lit "vectorSearchConfiguration",
                        PyDict [(lit "numberOfResults", PyInt 5)])])] in
  (* Add metadata filter if provided *)
  let? kb_config :=
    (if truthy metadata_filter
     then setitem_path kb_config
            [lit "retrievalConfiguration"; lit "vectorSearchConfiguration"]
            (lit "filter") metadata_filter
     else Ok kb_config) in
  (* Add generation configuration with prompt template *)
  let? kb_config :=
    setitem_str kb_config (lit "generationConfiguration")
      (PyDict [(lit "promptTemplate",
                 PyDict [(lit "textPromptTemplate", PyStr text_prompt_template)])]) in
  (* Add guardrail configuration only if requested *)
  if truthy use_guardrails then
    (* Validate required parameters *)
    if negb (truthy guardrail_id) then
      Raise (ValueError (lit "guardrail_id is required when use_guardrails is True"))
    else
      let guardrail_config := PyDict [(lit "guardrailId", guardrail_id)] in
      (* Add version if provided *)
      let? guardrail_config :=
        (if truthy guardrail_version
         then setitem_str guardrail_config (lit "guardrailVersion") guardrail_version
         else Ok guardrail_config) in
      (* Add to generation configuration *)
      setitem_path kb_config [lit "generationConfiguration"]
        (lit "guardrailConfiguration") guardrail_config
  else Ok kb_config.

(** The keyword arguments of the API call. *)
Definition request_of (query kb_config : pyval) : pyval :=
  PyDict [(lit "input", PyDict [(lit "text", query)]);
          (lit "retrieveAndGenerateConfiguration",
            PyDict [(lit "type", PyStr (lit "KNOWLEDGE_BASE"));
                    (lit "knowledgeBaseConfiguration", kb_config)])].

Section notebook.
Context {World : Type}.

(** [bedrock_agent_runtime.retrieve_and_generate]: the managed service,
    from the keyword arguments to a response or an exception. *)
Variable retrieve_and_generate : pyval → World → World * result pyval.

(** The outside world and the requests issued so far. *)
Record state := State { world : World; requests : list pyval }.

Definition call_retrieve_and_generate (kwargs : pyval) : M state pyval :=
  λ s, let '(w', r) := retrieve_and_generate kwargs (world s) in
       (State w' (requests s ++ [kwargs]), r).

Definition retrieve_and_generate_with_conditional_guardrails
    (query knowledge_base_id model_arn metadata_filter use_guardrails
     guardrail_id guardrail_version : pyval) : M state pyval :=
  let* kb_config :=
    lift (kb_config_of knowledge_base_id model_arn metadata_filter
            use_guardrails guardrail_id guardrail_version) in
  (* Make the API call *)
  let* response := call_retrieve_and_generate (request_of query kb_config) in
  ret response.
End notebook.

Arguments state : clear implicits.
Arguments State {World} world requests.
End Guardrails.

Fixpoint result_mapM {A B} (f : A → result B) (l : list A) : result (list B) :=
  match l with
  | [] => Ok []
  | a :: l' =>
      let? b := f a in
      let? bs := result_mapM f l' in
      Ok (b :: bs)
  end.

(** * Lab 2: retrieval and generation with SageMaker inference and metadata
      filtering *)

Module SageMakerRag.

(** Cell 2 *)
Definition number_of_results : pyval := PyInt 3.
Definition generation_configuration : pyval :=
  PyDict [(lit "temperature", PyInt 0);
          (lit "top_k", PyInt 10);
          (lit "max_new_tokens", PyInt 5000);
          (lit "stop", PyStr (lit "<|eot_id|>"))].

(** Cell 3: the metadata filter. *)
Definition one_group_filter : pyval :=
  PyDict [(lit "andAll", PyList [
    PyDict [(lit "equals", PyDict [(lit "key", PyStr (lit "docType"));
                                   (lit "value", PyStr (lit "10K Report"))])];
    PyDict [(lit "equals", PyDict [(lit "key", PyStr (lit "year"));
                                   (lit "value", PyInt 2023)])]])].

Definition NUM_RESULTS : pyval := number_of_results.

(** [format_prompt]: the f-string of the system prompt and the f-string of
    the whole prompt, stripped. *)
Definition system_prompt_of (context : list pystr) : pystr :=
  lit "Use the following context to answer the question. If you don't know the answer, say 'I don't know'."
  ++ [newline] ++
  lit "        Context:" ++ [newline] ++
  lit "        " ++ str_join (lit " ") context ++ [dquote] ++ [newline] ++
  lit "    ".

Definition format_prompt (query : pystr) (context : list pystr) : pystr :=
  let system_prompt := system_prompt_of context in
  str_strip (
    [newline] ++
    lit "        <|begin_of_text|>" ++ [newline] ++
    lit "        <|start_header_id|>system<|end_header_id|>" ++ [newline] ++
    lit "        " ++ system_prompt ++ [newline] ++
    lit "        <|start_header_id|>user<|end_header_id|>" ++ [newline] ++
    lit "        Question: " ++ query ++ [newline] ++
    lit "        <|start_header_id|>assistant<|end_header_id|>" ++ [newline] ++
    lit "        ").

(** The parsing step of [generate_response]: the branches on the shape of the
    decoded response. *)
Definition resolve_generated_text (response : pyval) : result pyval :=
  match response with
  | PyList items =>
      (* If the result is a list, extract the generated text from the first element *)
      let? first := list_first items in
      getitem_str first (lit "generated_text")
  | _ =>
      let? has_generated_text := contains_str (lit "generated_text") response in
      if has_generated_text then getitem_str response (lit "generated_text")
      else
        let? has_generation := contains_str (lit "generation") response in
        if has_generation then getitem_str response (lit "generation")
        else Raise (RuntimeError (lit "Unexpected response format"))
  end.

(** The [except Exception as e] clause of [generate_response]. *)
Definition generation_failed (e : exn) : exn :=
  RuntimeError (lit "Generation failed: " ++ exn_str e).

(** The [except Exception as e] clause of [retrieve_from_bedrock]. *)
Definition retrieval_failed (e : exn) : exn :=
  RuntimeError (lit "Bedrock retrieval failed: " ++ exn_str e).

(** The keyword arguments of the [retrieve] call. *)
Definition retrieve_request (KNOWLEDGE_BASE_ID query : pyval) : pyval :=
  PyDict [(lit "knowledgeBaseId", KNOWLEDGE_BASE_ID);
          (lit "retrievalQuery", PyDict [(lit "text", query)]);
          (lit "retrievalConfiguration",
            PyDict [(lit "vectorSearchConfiguration",
                      PyDict [(lit "numberOfResults", NUM_RESULTS);
                              (lit "filter", one_group_filter)])])].

(** The keyword arguments of the [invoke_endpoint] call: the payload of
    prompt and generation parameters, sent as JSON. *)
Definition invoke_request (ENDPOINT_NAME prompt : pyval) : pyval :=
  let payload :=
    PyDict [(lit "inputs", prompt); (lit "parameters", generation_configuration)] in
  PyDict [(lit "EndpointName", ENDPOINT_NAME);
          (lit "ContentType", PyStr (lit "application/json"));
          (lit "Body", PyStr (Json.dumps None true payload))].

(** [[result['content']['text'] for result in response['retrievalResults']]] *)
Definition context_texts (response : pyval) : result pyval :=
  let? results := getitem_str response (lit "retrievalResults") in
  let? items := iter_items results in
  let? texts :=
    result_mapM (λ item,
      let? content := getitem_str item (lit "content") in
      getitem_str content (lit "text")) items in
  Ok (PyList texts).

Inductive call :=
  | Retrieve (kwargs : pyval)
  | SageMakerClient
  | InvokeEndpoint (kwargs : pyval).

Section notebook.
Context {World : Type}.

(** Configuration read from [variables.json]. *)
Variable KNOWLEDGE_BASE_ID : pyval.
Variable ENDPOINT_NAME : pyval.

(** [bedrock_agent_runtime.retrieve] *)
Variable retrieve : pyval → World → World * result pyval.
(** [boto3.client('sagemaker-runtime')] *)
Variable sagemaker_client : World → World * result unit.
(** [runtime.invoke_endpoint] followed by
    [response['Body'].read().decode("utf-8")]: the text of the body. *)
Variable invoke_endpoint : pyval → World → World * result pystr.
(** [json.loads] *)
Variable json_loads : pystr → result pyval.

(** The outside world and the service calls made so far. *)
Record state := State { world : World; calls : list call }.

Definition call_service {A} (c : call) (op : World → World * result A)
  : M state A :=
  λ s, let '(w', r) := op (world s) in (State w' (calls s ++ [c]), r).

Definition retrieve_from_bedrock (query : pyval) : M state pyval :=
  try_except
    (let kwargs := retrieve_request KNOWLEDGE_BASE_ID query in
     let* response := call_service (Retrieve kwargs) (retrieve kwargs) in
     lift (context_texts response))
    (λ e, raise (retrieval_failed e)).

Definition generate_response (prompt : pyval) : M state pyval :=
  let* runtime := call_service SageMakerClient sagemaker_client in
  try_except
    (let kwargs := invoke_request ENDPOINT_NAME prompt in
     let* body := call_service (InvokeEndpoint kwargs) (invoke_endpoint kwargs) in
     let* parsed := lift (json_loads body) in
     lift (resolve_generated_text parsed))
    (λ e, raise (generation_failed e)).
End notebook.

Arguments state : clear implicits.
Arguments State {World} world calls.
End SageMakerRag.

(** [{**a, **b}] and [a.update(b)]: the entries of [b] are assigned into [a],
    one after the other. *)
Definition dict_update {V} (a b : list (pystr * V)) : list (pystr * V) :=
  foldl (λ d kv, dict_set kv.1 kv.2 d) a b.

(** * Lab 4.3: retrieval and generation across a single KB and multiple models *)

Module ModelSweep.

Definition filename : pystr :=
  lit "../results/ragas_evaluation_responses_for_different_models.json".

Section notebook.
Context {World Inferencer VectorStorage Reranker Questions : Type}.

(** Cells 1 to 7: the configuration and the objects built before the
    sweep. *)
Variable variables : list (pystr * pyval).
Variable prompt : pyval.
Variable bedrock_kb gt_data aws_region : pyval.
Variable vector_storage : VectorStorage.
Variable reranker : Reranker.

Definition exp_config_data : list (pystr * pyval) :=
  [(lit "bedrock_kb_id", bedrock_kb);
   (lit "temp_retrieval_llm", PyStr (lit "0.1"));
   (lit "gt_data", gt_data);
   (lit "rerank_model_id", PyStr (lit "amazon.rerank-v1:0"));
   (lit "retrieval_service", PyStr (lit "bedrock"));
   (lit "knn_num", PyStr (lit "5"));
   (lit "retrieval_model", PyStr (lit "us.amazon.nova-lite-v1:0"));
   (lit "aws_region", aws_region);
   (lit "n_shot_prompt_guide_obj", prompt);
   (lit "n_shot_prompts", PyInt 1)].

(** [InferencerProviderFactory.create_inferencer_provider], from its
    positional arguments. *)
Variable create_inferencer_provider : list pyval → World → World * result Inferencer.
(** [rag_with_flotorch(exp_config_data, vector_storage, reranker, inferencer,
    questions)]: the per-question responses of one model. *)
Variable rag_with_flotorch :
  list (pystr * pyval) → VectorStorage → Reranker → Inferencer → Questions →
  World → World * result pyval.
(** [open(filename, 'w', encoding='utf-8')]: whether the file can be
    opened for writing. *)
Variable open_for_writing : pystr → World → World * result unit.

(** A call of the FloTorch helpers, with what it returned or raised. *)
Inductive event :=
  | CreateInferencer (args : list pyval) (outcome : result Inferencer)
  | RagWithFlotorch (inferencer : Inferencer) (questions : Questions)
                    (outcome : result pyval).

(** The outside world, the helper calls so far, the global
    [rag_response_dict] and the text files written. *)
Record state := State {
  world : World;
  events : list event;
  rag_response_dict : list (pystr * pyval);
  files : gmap pystr pystr
}.

Definition call_create_inferencer_provider (args : list pyval) : M state Inferencer :=
  λ s, let '(w', r) := create_inferencer_provider args (world s) in
       (State w' (events s ++ [CreateInferencer args r])
              (rag_response_dict s) (files s), r).

Definition call_rag_with_flotorch (inferencer : Inferencer) (questions : Questions)
  : M state pyval :=
  λ s, let '(w', r) :=
         rag_with_flotorch exp_config_data vector_storage reranker
           inferencer questions (world s) in
       (State w' (events s ++ [RagWithFlotorch inferencer questions r])
              (rag_response_dict s) (files s), r).

Definition set_rag_response_dict (d : list (pystr * pyval)) : M state unit :=
  λ s, (State (world s) (events s) d (files s), Ok tt).

Definition get_rag_response_dict : M state (list (pystr * pyval)) :=
  λ s, (s, Ok (rag_response_dict s)).

(** The positional arguments of [create_inferencer_provider]; the values of
    [exp_config_data.get(...)] are those of the literal above, with
    [int(1)] and [float("0.1")] evaluated. *)
Definition inferencer_args (inference_model : pystr) : result (list pyval) :=
  let? role := getitem_str (PyDict variables) (lit "bedrockExecutionRoleArn") in
  Ok [PyBool false; PyStr []; PyStr [];
      PyStr (lit "bedrock");
      PyStr inference_model;
      aws_region;
      role;
      PyInt 1;
      PyFloat (lit "0.1");
      prompt].

(** The body of the [for inference_model in inference_models] loop. *)
Definition sweep_step (questions : Questions) (inference_model : pystr) : M state unit :=
  let* args := lift (inferencer_args inference_model) in
  let* inferencer := call_create_inferencer_provider args in
  let* responses := call_rag_with_flotorch inferencer questions in
  let* d := get_rag_response_dict in
  set_rag_response_dict (dict_set inference_model responses d).

Fixpoint sweep_loop (questions : Questions) (inference_models : list pystr)
  : M state unit :=
  match inference_models with
  | [] => ret tt
  | inference_model :: rest =>
      let* _ := sweep_step questions inference_model in
      sweep_loop questions rest
  end.

(** Cell 8: [rag_response_dict = {}] and the loop. *)
Definition sweep (inference_models : list pystr) (questions : Questions)
  : M state unit :=
  let* _ := set_rag_response_dict [] in
  sweep_loop questions inference_models.

(** Cell 9: the results file.  [open(..., 'w')] truncates the file, and
    [json.dump] writes the encoded text to it.  A file holds text: the utf-8
    codec is outside the model, and the text is taken to be encodable (it
    holds no lone surrogate). *)
Definition call_open_for_writing (path : pystr) : M state unit :=
  λ s, match open_for_writing path (world s) with
       | (w', Ok _) =>
           (State w' (events s) (rag_response_dict s) (<[path := []]> (files s)), Ok tt)
       | (w', Raise e) =>
           (State w' (events s) (rag_response_dict s) (files s), Raise e)
       end.

Definition file_write (path text : pystr) : M state unit :=
  λ s, (State (world s) (events s) (rag_response_dict s)
              (<[path := default [] (files s !! path) ++ text]> (files s)), Ok tt).

Definition write_results : M state unit :=
  let* _ := call_open_for_writing filename in
  let* d := get_rag_response_dict in
  file_write filename (Json.dumps (Some 4) false (PyDict d)).
End notebook.
End ModelSweep.

(** * Lab 4: evaluation of the responses (cost and latency merge) *)

Module Evaluation.

Definition inference_model : pyval := PyStr (lit "us.amazon.nova-lite-v1:0").

(** A record of metrics, and the global [final_evaluation]: a record per
    key.  The order of the entries plays no part in the merge.  Here a record
    is a value and the figures are a function of the data; [MergeCell] below
    has the records as objects and the helper as a call that may raise. *)
Abbreviation record := (gmap pystr pyval).
Abbreviation state := (gmap pystr (gmap pystr pyval)).

(** [{**a, **b}], and [a.update(b)]: the entries of [b], then those of [a]
    under the other keys. *)
Definition merged (a b : record) : record := b ∪ a.

Section notebook.
(** [variables['regionName']] *)
Variable aws_region : pyval.

(** [cost_compute_utils.calculate_cost_and_latency_metrics(inference_data,
    inference_model, aws_region)]: the cost and latency figures computed
    from one entry of the loaded responses. *)
Variable calculate_cost_and_latency_metrics : pyval → pyval → pyval → record.

(** The name [model] of the merge cell is bound in no cell of the
    notebook: it is whatever the kernel holds under that name, if
    anything. *)
Variable model : option pystr.

(** The responses loaded from the results file, per knowledge base. *)
Variable loaded_responses : list (pystr * pyval).

Definition read_model : M state pystr :=
  match model with
  | Some m => ret m
  | None => raise (NameError (lit "model"))
  end.

(** [final_evaluation[k]] *)
Definition get_record (k : pystr) : M state record :=
  λ final_evaluation,
    match final_evaluation !! k with
    | Some r => (final_evaluation, Ok r)
    | None => (final_evaluation, Raise (KeyError k))
    end.

(** [final_evaluation[k] = r] *)
Definition set_record (k : pystr) (r : record) : M state unit :=
  λ final_evaluation, (<[k := r]> final_evaluation, Ok tt).

(** [k in final_evaluation] *)
Definition has_record (k : pystr) : M state bool :=
  λ final_evaluation, (final_evaluation, Ok (bool_decide (is_Some (final_evaluation !! k)))).

(** The body of the [for kb_type in loaded_responses] loop. *)
Definition merge_step (kb_type : pystr) : M state unit :=
  let* inference_data := lift (getitem_str (PyDict loaded_responses) kb_type) in
  let cost_and_latency_metrics :=
    calculate_cost_and_latency_metrics inference_data inference_model aws_region in
  let* m := read_model in
  let* custom_eval_metrics := get_record m in
  let* present := has_record kb_type in
  if negb present then
    (* Insert - key doesn't exist yet *)
    let* m := read_model in
    set_record m (merged custom_eval_metrics cost_and_latency_metrics)
  else
    (* Update - key already exists *)
    let merged_metrics := merged custom_eval_metrics cost_and_latency_metrics in
    let* m := read_model in
    let* current := get_record m in
    set_record m (merged current merged_metrics).

Fixpoint merge_loop (keys : list pystr) : M state unit :=
  match keys with
  | [] => ret tt
  | kb_type :: rest =>
      let* _ := merge_step kb_type in
      merge_loop rest
  end.

(** The cell: the loop over the keys of [loaded_responses], in insertion
    order. *)
Definition merge_pass : M state unit := merge_loop (dict_keys loaded_responses).
End notebook.
End Evaluation.

(** * The vocabulary of the statements *)

Ltac flatten_app := repeat (rewrite <- app_assoc || rewrite <- app_comm_cons).

(** ** Lab 2.3: the configuration in closed form *)

Module GuardrailsSpec.
Import Guardrails.

Definition missing_guardrail_id : exn :=
  ValueError (lit "guardrail_id is required when use_guardrails is True").

(** The configuration in closed form: what the assignments of the function
    body add up to. *)
Definition guardrail_configuration (guardrail_id guardrail_version : pyval) : pyval :=
  PyDict ((lit "guardrailId", guardrail_id) ::
          if truthy guardrail_version
          then [(lit "guardrailVersion", guardrail_version)] else []).

Definition generation_configuration (use_guardrails gid gv : pyval) : pyval :=
  PyDict ((lit "promptTemplate",
            PyDict [(lit "textPromptTemplate", PyStr text_prompt_template)]) ::
          if truthy use_guardrails
          then [(lit "guardrailConfiguration", guardrail_configuration gid gv)]
          else []).

Definition vector_search_configuration (metadata_filter : pyval) : pyval :=
  PyDict ((lit "numberOfResults", PyInt 5) ::
          if truthy metadata_filter then [(lit "filter", metadata_filter)] else []).

(** A configuration without the key [k] of the dictionary reached by [path];
    everything else is kept as it is. *)
Fixpoint without_key (path : list pystr) (k : pystr) (obj : pyval) : pyval :=
  match obj with
  | PyDict d =>
      match path with
      | [] => PyDict (dict_del k d)
      | p :: path' =>
          PyDict ((λ entry, if decide (entry.1 = p)
                            then (entry.1, without_key path' k entry.2)
                            else entry) <$> d)
      end
  | _ => obj
  end.

Definition vector_search_path : list pystr :=
  [lit "retrievalConfiguration"; lit "vectorSearchConfiguration"].

End GuardrailsSpec.

(** ** Lab 2: the shapes of a response *)

Module ResolverShapes.

(** The three response shapes: [x] is a dictionary holding [v] under [k]; a
    list whose first element is such a dictionary. *)
Definition carries (k : pystr) (v : pyval) (x : pyval) : Prop :=
  ∃ d, x = PyDict d ∧ dict_get k d = Some v.

Definition list_carries (k : pystr) (v : pyval) (x : pyval) : Prop :=
  ∃ first rest, x = PyList (first :: rest) ∧ carries k v first.

End ResolverShapes.

(** ** Lab 2: the fixed text of the prompt *)

Module PromptText.

(** The fixed text before the context, between the context and the query,
    and after the query. *)
Definition prompt_head : pystr :=
  lit "<|begin_of_text|>" ++ [newline] ++
  lit "        <|start_header_id|>system<|end_header_id|>" ++ [newline] ++
  lit "        Use the following context to answer the question. If you don't know the answer, say 'I don't know'."
  ++ [newline] ++ lit "        Context:" ++ [newline] ++ lit "        ".

Definition prompt_middle : pystr :=
  [dquote] ++ [newline] ++ lit "    " ++ [newline] ++
  lit "        <|start_header_id|>user<|end_header_id|>" ++ [newline] ++
  lit "        Question: ".

Definition prompt_tail : pystr :=
  [newline] ++ lit "        <|start_header_id|>assistant<|end_header_id|>".

End PromptText.

(** ** Lab 4.3: the passes of the sweep *)

(** The keys of a dictionary filled by successive assignments: every key at
    the place of its first assignment. *)
Definition first_occurrences (keys : list pystr) : list pystr :=
  foldl (λ acc k, if decide (k ∈ acc) then acc else acc ++ [k]) [] keys.

Section SweepPasses.
Context {Inferencer Questions : Type}.
Context (variables : list (pystr * pyval)) (prompt aws_region : pyval).

(** One completed pass of the loop: the model, the arguments and the
    inferencer created from them, and the responses the helper returned. *)
Record pass := Pass {
  pass_model : pystr;
  pass_args : list pyval;
  pass_inferencer : Inferencer;
  pass_responses : pyval
}.

Definition pass_entry (p : pass) : pystr * pyval := (pass_model p, pass_responses p).

(** The two helper calls of a completed pass. *)
Definition pass_events (questions : Questions) (p : pass)
  : list (@ModelSweep.event Inferencer Questions) :=
  [ModelSweep.CreateInferencer (pass_args p) (Ok (pass_inferencer p));
   ModelSweep.RagWithFlotorch (pass_inferencer p) questions (Ok (pass_responses p))].

Definition pass_ok (p : pass) : Prop :=
  ModelSweep.inferencer_args variables prompt aws_region (pass_model p) = Ok (pass_args p).

(** The calls of a pass that raises [e]: none (the configuration lookup
    failed), the failed creation, or the creation and the failed helper
    call. *)
Definition failed_events (questions : Questions) (m : pystr) (e : exn)
    (tail : list (@ModelSweep.event Inferencer Questions)) : Prop :=
  (ModelSweep.inferencer_args variables prompt aws_region m = Raise e ∧ tail = []) ∨
  (∃ args, ModelSweep.inferencer_args variables prompt aws_region m = Ok args ∧
     (tail = [ModelSweep.CreateInferencer args (Raise e)] ∨
      ∃ i, tail = [ModelSweep.CreateInferencer args (Ok i);
                   ModelSweep.RagWithFlotorch i questions (Raise e)])).

End SweepPasses.

(** The passes as the helpers ran them, from one state of the outside world
    to the next. *)
Section SweepRuns.
Context {World Inferencer VectorStorage Reranker Questions : Type}.
Context (variables : list (pystr * pyval))
        (prompt bedrock_kb gt_data aws_region : pyval)
        (vector_storage : VectorStorage) (reranker : Reranker)
        (create_inferencer_provider : list pyval → World → World * result Inferencer)
        (rag_with_flotorch :
           list (pystr * pyval) → VectorStorage → Reranker → Inferencer → Questions →
           World → World * result pyval).

(** A completed pass that takes the world from [w] to [w']: the arguments
    are those of the model, [create_inferencer_provider] returned the
    inferencer, and [rag_with_flotorch], called with the experiment
    configuration, that inferencer and the questions, returned the
    responses. *)
Definition pass_run (questions : Questions) (w : World) (p : @pass Inferencer) (w' : World)
  : Prop :=
  ModelSweep.inferencer_args variables prompt aws_region (pass_model p) = Ok (pass_args p) ∧
  ∃ w1, create_inferencer_provider (pass_args p) w = (w1, Ok (pass_inferencer p)) ∧
        rag_with_flotorch (ModelSweep.exp_config_data prompt bedrock_kb gt_data aws_region)
          vector_storage reranker (pass_inferencer p) questions w1 =
        (w', Ok (pass_responses p)).

(** Completed passes one after the other. *)
Fixpoint passes_run (questions : Questions) (w : World) (passes : list (@pass Inferencer))
    (w' : World) : Prop :=
  match passes with
  | [] => w' = w
  | p :: rest => ∃ w1, pass_run questions w p w1 ∧ passes_run questions w1 rest w'
  end.

(** The pass of model [m] raises [e] and leaves the world [w']: the lookup in
    [variables] failed, or the creation of the inferencer raised, or the
    helper raised for the inferencer created. *)
Definition pass_fails (questions : Questions) (w : World) (m : pystr) (e : exn) (w' : World)
  : Prop :=
  (ModelSweep.inferencer_args variables prompt aws_region m = Raise e ∧ w' = w) ∨
  (∃ args, ModelSweep.inferencer_args variables prompt aws_region m = Ok args ∧
     (create_inferencer_provider args w = (w', Raise e) ∨
      ∃ w1 i, create_inferencer_provider args w = (w1, Ok i) ∧
              rag_with_flotorch (ModelSweep.exp_config_data prompt bedrock_kb gt_data aws_region)
                vector_storage reranker i questions w1 = (w', Raise e))).

End SweepRuns.

(** ** The text of a value *)

Module JsonText.
Import Json.

Definition non_ascii (c : N) : Prop := (127 < c)%N.
#[global] Instance non_ascii_dec c : Decision (non_ascii c) := _.

(** The text a value carries: its strings, its keys and the text of its
    floats, in the order of the encoding. *)
Fixpoint py_text (v : pyval) : pystr :=
  match v with
  | PyStr s => s
  | PyFloat r => floatstr r
  | PyList items => concat (py_text <$> items)
  | PyDict entries =>
      concat ((λ item, match item with (key, value) => key ++ py_text value end) <$> entries)
  | _ => []
  end.

Definition ascii_only (s : pystr) : Prop := Forall (λ c, (c < 128)%N) s.

End JsonText.

(** The line of one model in the results file. *)
Definition entry_line (entry : pystr * pyval) : pystr :=
  Json.encode_basestring false entry.1 ++ lit ": " ++
  Json.iterencode (Some 4) false entry.2 1.

(** ** Sample environments *)

(** A service that is throttled, and one that answers with one retrieved
    chunk. *)
Definition throttled : exn := Exn (lit "ClientError") (lit "ThrottlingException").

Definition throttled_service : pyval → unit → unit * result pyval :=
  λ _ w, (w, Raise throttled).

Definition one_chunk_response : pyval :=
  PyDict [(lit "retrievalResults",
            PyList [PyDict [(lit "content", PyDict [(lit "text", PyStr (lit "chunk"))]);
                            (lit "score", PyInt 1)]])].

Definition one_chunk_service : pyval → unit → unit * result pyval :=
  λ _ w, (w, Ok one_chunk_response).

(** A sample environment: the inferencer of a model is its name, the helper
    answers every question with the question, and fails for the models of a
    given list. *)
Module SweepSample.
Definition variables : list (pystr * pyval) :=
  [(lit "bedrockExecutionRoleArn", PyStr (lit "arn:aws:iam::1:role/rag"))].

Definition create_inferencer_provider (args : list pyval) (calls : nat)
  : nat * result pystr :=
  (S calls,
   match args !! 4%nat with
   | Some (PyStr inference_model) => Ok inference_model
   | _ => Raise (TypeError (lit "model id must be a string"))
   end).

Definition rag_with_flotorch (failing : list pystr)
    (config : list (pystr * pyval)) (vector_storage reranker : unit)
    (inferencer : pystr) (questions : list pystr) (calls : nat)
  : nat * result pyval :=
  (S calls,
   if bool_decide (inferencer ∈ failing)
   then Raise (Exn (lit "ClientError") (lit "AccessDeniedException"))
   else Ok (PyList (PyStr <$> questions))).

Definition run (failing inference_models : list pystr) :=
  ModelSweep.sweep variables PyNone PyNone PyNone PyNone tt tt
    create_inferencer_provider (rag_with_flotorch failing)
    inference_models [lit "q1"; lit "q2"]
    (ModelSweep.State 0 [] [] ∅).
End SweepSample.

(** A sample state: one model, one record with a non-ASCII answer; the
    file can be opened. *)
Definition sample_results : @ModelSweep.state nat pystr (list pystr) :=
  ModelSweep.State 0 []
    [(lit "nova-lite", PyList [PyDict [(lit "answer", PyStr (lit "caf" ++ [233%N]))]])] ∅.

Definition sample_open (path : pystr) (opened : nat) : nat * result () :=
  (S opened, Ok tt).

(** Two knowledge bases of the evaluation. *)
Definition kb_fixed : pystr := lit "kbFixedChunk".
Definition kb_semantic : pystr := lit "kbSemanticChunk".

(** * Lab 2, cell 5: a question answered end to end *)

Module SageMakerPipeline.
Import SageMakerRag.

(** The items of [" ".join(context)]: every one must be a str. *)
Fixpoint expect_strs (index : nat) (items : list pyval) : result (list pystr) :=
  match items with
  | [] => Ok []
  | PyStr s :: rest =>
      let? texts := expect_strs (S index) rest in
      Ok (s :: texts)
  | item :: _ =>
      Raise (TypeError (lit "sequence item " ++ lit (pretty index) ++
                        lit ": expected str instance, " ++ type_name item ++
                        lit " found"))
  end.

(** [format_prompt(query, context)] for the value [context] the retrieval
    returned: the join is the one step that can raise. *)
Definition format_prompt_value (query : pystr) (context : pyval) : result pystr :=
  match iter_items context with
  | Ok items =>
      let? texts := expect_strs 0 items in
      Ok (format_prompt query texts)
  | Raise _ => Raise (TypeError (lit "can only join an iterable"))
  end.

Section cell.
Context {World : Type}.
Variable KNOWLEDGE_BASE_ID : pyval.
Variable ENDPOINT_NAME : pyval.
Variable retrieve : pyval → World → World * result pyval.
Variable sagemaker_client : World → World * result unit.
Variable invoke_endpoint : pyval → World → World * result pystr.
Variable json_loads : pystr → result pyval.

(** Cell 5: retrieve the context, format the prompt, generate the response
    (the cell then prints the question and the answer). *)
Definition answer (query : pystr) : M (state World) pyval :=
  let* context := retrieve_from_bedrock KNOWLEDGE_BASE_ID retrieve (PyStr query) in
  let* prompt := lift (format_prompt_value query context) in
  let* response :=
    generate_response ENDPOINT_NAME sagemaker_client invoke_endpoint json_loads
      (PyStr prompt) in
  ret response.
End cell.
End SageMakerPipeline.

(** ** Sample environments of the SageMaker notebook *)

Module SageMakerSample.
Definition client_ok : unit → unit * result unit := λ w, (w, Ok tt).
Definition client_down : unit → unit * result unit :=
  λ w, (w, Raise (Exn (lit "NoRegionError") (lit "You must specify a region.")))  .
Definition endpoint_body (body : pystr) : pyval → unit → unit * result pystr :=
  λ _ w, (w, Ok body).
(** A parser that knows one body. *)
Definition loads_as (body : pystr) (parsed : pyval) : pystr → result pyval :=
  λ text, if decide (text = body) then Ok parsed
          else Raise (Exn (lit "JSONDecodeError") (lit "Expecting value")).
(** A retrieval whose one chunk is a number, not a text. *)
Definition number_chunk_service : pyval → unit → unit * result pyval :=
  λ _ w, (w, Ok (PyDict [(lit "retrievalResults",
                           PyList [PyDict [(lit "content",
                                            PyDict [(lit "text", PyInt 7)])]])])).
Definition start : SageMakerRag.state unit := SageMakerRag.State tt [].
End SageMakerSample.

(** * Lab 4.3: the sweep cell and the results cell, run in order *)

Module ModelSweepCells.
Section cells.
Context {World Inferencer VectorStorage Reranker Questions : Type}.
Variable variables : list (pystr * pyval).
Variable prompt : pyval.
Variable bedrock_kb gt_data aws_region : pyval.
Variable vector_storage : VectorStorage.
Variable reranker : Reranker.
Variable create_inferencer_provider : list pyval → World → World * result Inferencer.
Variable rag_with_flotorch :
  list (pystr * pyval) → VectorStorage → Reranker → Inferencer → Questions →
  World → World * result pyval.
Variable open_for_writing : pystr → World → World * result unit.

(** A cell that raises stops the run: the results cell runs when the sweep
    has completed. *)
Definition sweep_then_write (inference_models : list pystr) (questions : Questions)
  : M (@ModelSweep.state World Inferencer Questions) unit :=
  let* _ := ModelSweep.sweep variables prompt bedrock_kb gt_data aws_region
              vector_storage reranker create_inferencer_provider rag_with_flotorch
              inference_models questions in
  ModelSweep.write_results open_for_writing.
End cells.
End ModelSweepCells.

(** * Lab 4: evaluation of the responses (accuracy) *)

Module AccuracyEvaluation.
Section notebook.
Context {World Evaluator : Type}.

(** Cell 2: the evaluation configuration. *)
Variable evaluation_config_data : pyval.
(** [CustomEvaluator(evaluator_llm_info = ...)] *)
Variable CustomEvaluator : pyval → World → World * result Evaluator.
(** [evaluator.evaluate(inference_data)] *)
Variable evaluate : Evaluator → pyval → World → World * result pyval.

(** A call of the evaluator, with what [evaluate] returned or raised. *)
Inductive event :=
  | NewEvaluator (evaluator_llm_info : pyval)
  | Evaluate (inference_data : pyval) (outcome : result pyval).

(** The outside world, the calls so far, the global [evaluation_metrics]
    and the lines printed. *)
Record state := State {
  world : World;
  events : list event;
  evaluation_metrics : list (pystr * pyval);
  stdout : list pystr
}.

Definition call_CustomEvaluator : M state Evaluator :=
  λ s, let '(w', r) := CustomEvaluator evaluation_config_data (world s) in
       (State w' (events s ++ [NewEvaluator evaluation_config_data])
              (evaluation_metrics s) (stdout s), r).

Definition call_evaluate (evaluator : Evaluator) (inference_data : pyval) : M state pyval :=
  λ s, let '(w', r) := evaluate evaluator inference_data (world s) in
       (State w' (events s ++ [Evaluate inference_data r])
              (evaluation_metrics s) (stdout s), r).

Definition set_evaluation_metrics (d : list (pystr * pyval)) : M state unit :=
  λ s, (State (world s) (events s) d (stdout s), Ok tt).

Definition get_evaluation_metrics : M state (list (pystr * pyval)) :=
  λ s, (s, Ok (evaluation_metrics s)).

Definition print (line : pystr) : M state unit :=
  λ s, (State (world s) (events s) (evaluation_metrics s) (stdout s ++ [line]), Ok tt).

Definition completed_line (kb_id : pystr) : pystr :=
  lit "Evaluation completed for " ++ kb_id.

(** The body of the [for kb_id, inference_data in loaded_responses.items()]
    loop. *)
Definition evaluation_step (evaluator : Evaluator) (item : pystr * pyval) : M state unit :=
  let '(kb_id, inference_data) := item in
  let* results := call_evaluate evaluator inference_data in
  let* d := get_evaluation_metrics in
  let* _ := set_evaluation_metrics (dict_set kb_id results d) in
  print (completed_line kb_id).

Fixpoint evaluation_loop (evaluator : Evaluator) (items : list (pystr * pyval))
  : M state unit :=
  match items with
  | [] => ret tt
  | item :: rest =>
      let* _ := evaluation_step evaluator item in
      evaluation_loop evaluator rest
  end.

(** The cell: the evaluator, [evaluation_metrics = {}] and the loop. *)
Definition evaluate_all (loaded_responses : list (pystr * pyval)) : M state unit :=
  let* evaluator := call_CustomEvaluator in
  let* _ := set_evaluation_metrics [] in
  evaluation_loop evaluator loaded_responses.
End notebook.

Arguments state : clear implicits.
Arguments State {World} world events evaluation_metrics stdout.
End AccuracyEvaluation.

(** * Lab 4: the merge cell, with the helper as a call and the records as objects

    [Evaluation] takes the figures as a function of the data, and a record
    as a value.  In the notebook [calculate_cost_and_latency_metrics] is an
    imported helper, called outside any [try] and before the name [model] is
    read; and the records of [final_evaluation] are dict objects: [update]
    changes the object, and with it the record of every key that holds the
    same object, where an assignment to [final_evaluation[model]] puts a new
    object under that key only.  This module embeds the cell with both; when
    the helper returns and no other key shares the object of [model], its
    outcome and records are those of [Evaluation] (lemma
    [merge_cell_refines]).  The helper is taken to return a dict, and
    [final_evaluation] to be a dict of dicts. *)

Module MergeCell.

Abbreviation record := (gmap pystr pyval).
(** The identity of a dict object. *)
Abbreviation obj := positive.

Section notebook.
Context {World : Type}.

(** [variables['regionName']] *)
Variable aws_region : pyval.
(** [cost_compute_utils.calculate_cost_and_latency_metrics(inference_data,
    inference_model, aws_region)] *)
Variable calculate_cost_and_latency_metrics :
  pyval → pyval → pyval → World → World * result record.
(** What the kernel holds under the name [model], if anything. *)
Variable model : option pystr.
Variable loaded_responses : list (pystr * pyval).

(** The outside world, the data the helper was called with, the dict
    objects, and [final_evaluation]: the object under each key. *)
Record state := State {
  world : World;
  calls : list pyval;
  objects : gmap obj record;
  final_evaluation : gmap pystr obj
}.

(** The entries of an object. *)
Definition record_of (s : state) (l : obj) : record := default ∅ (objects s !! l).

Definition call_calculate (inference_data : pyval) : M state record :=
  λ s, let '(w', r) :=
         calculate_cost_and_latency_metrics inference_data Evaluation.inference_model
           aws_region (world s) in
       (State w' (calls s ++ [inference_data]) (objects s) (final_evaluation s), r).

Definition read_model : M state pystr :=
  match model with
  | Some m => ret m
  | None => raise (NameError (lit "model"))
  end.

(** [final_evaluation[k]]: the object under [k]. *)
Definition get_record (k : pystr) : M state obj :=
  λ s, match final_evaluation s !! k with
       | Some l => (s, Ok l)
       | None => (s, Raise (KeyError k))
       end.

(** [l.copy()]: the entries of the object, as a value. *)
Definition copy (l : obj) : M state record := λ s, (s, Ok (record_of s l)).

(** [final_evaluation[k] = {...}]: a new object, under [k]. *)
Definition set_record (k : pystr) (r : record) : M state unit :=
  λ s, let l := fresh (dom (objects s)) in
       (State (world s) (calls s) (<[l := r]> (objects s)) (<[k := l]> (final_evaluation s)),
        Ok tt).

(** [l.update(r)]: the object changes in place. *)
Definition update (l : obj) (r : record) : M state unit :=
  λ s, (State (world s) (calls s)
              (<[l := Evaluation.merged (record_of s l) r]> (objects s))
              (final_evaluation s),
        Ok tt).

(** [k in final_evaluation] *)
Definition has_record (k : pystr) : M state bool :=
  λ s, (s, Ok (bool_decide (is_Some (final_evaluation s !! k)))).

(** The body of the [for kb_type in loaded_responses] loop. *)
Definition merge_step (kb_type : pystr) : M state unit :=
  let* inference_data := lift (getitem_str (PyDict loaded_responses) kb_type) in
  let* cost_and_latency_metrics := call_calculate inference_data in
  let* m := read_model in
  let* current := get_record m in
  let* custom_eval_metrics := copy current in
  let* present := has_record kb_type in
  if negb present then
    (* Insert - key doesn't exist yet *)
    let* m := read_model in
    set_record m (Evaluation.merged custom_eval_metrics cost_and_latency_metrics)
  else
    (* Update - key already exists *)
    let merged := Evaluation.merged custom_eval_metrics cost_and_latency_metrics in
    let* m := read_model in
    let* current := get_record m in
    update current merged.

Fixpoint merge_loop (keys : list pystr) : M state unit :=
  match keys with
  | [] => ret tt
  | kb_type :: rest =>
      let* _ := merge_step kb_type in
      merge_loop rest
  end.

(** The cell: the loop over the keys of [loaded_responses], in insertion
    order. *)
Definition merge_pass : M state unit := merge_loop (dict_keys loaded_responses).

(** The helper returns [figures], one record for each entry of [data] in
    turn, and takes the world from [w] to [w']. *)
Fixpoint calculated (w : World) (data : list pyval) (figures : list record) (w' : World)
  : Prop :=
  match data, figures with
  | [], [] => w' = w
  | inference_data :: data', computed :: figures' =>
      ∃ w1, calculate_cost_and_latency_metrics inference_data Evaluation.inference_model
              aws_region w = (w1, Ok computed) ∧
            calculated w1 data' figures' w'
  | _, _ => False
  end.
End notebook.

Arguments state : clear implicits.
Arguments State {World} world calls objects final_evaluation.
End MergeCell.

(** ** The merge cell: objects and values *)

(** The records of [final_evaluation] as values, key by key. *)
Definition records_of {World} (s : MergeCell.state World) : gmap pystr (gmap pystr pyval) :=
  MergeCell.record_of s <$> MergeCell.final_evaluation s.

(** Every key holds an object of the store. *)
Definition allocated {World} (s : MergeCell.state World) : Prop :=
  ∀ k l, MergeCell.final_evaluation s !! k = Some l → is_Some (MergeCell.objects s !! l).

(** No other key holds the object that [m] holds. *)
Definition unshared {World} (s : MergeCell.state World) (m : pystr) : Prop :=
  ∀ k, k ≠ m → MergeCell.final_evaluation s !! k ≠ MergeCell.final_evaluation s !! m ∨
               MergeCell.final_evaluation s !! m = None.

(** One completed evaluation: the entry of [loaded_responses] and what
    [evaluate] returned for its data. *)
Definition evaluation_entry (done : (pystr * pyval) * pyval) : pystr * pyval :=
  (done.1.1, done.2).
Definition evaluation_event (done : (pystr * pyval) * pyval) : AccuracyEvaluation.event :=
  AccuracyEvaluation.Evaluate done.1.2 (Ok done.2).

(** ** Sample environment of the evaluation notebook *)
Module EvaluationSample.
(** A helper that prices a number of tokens, and counts its calls. *)
Definition calculate_cost_and_latency_metrics (inference_data model region : pyval)
    (calls : nat) : nat * result (gmap pystr pyval) :=
  (S calls,
   match inference_data with
   | PyInt tokens => Ok {[ lit "cost" := PyInt tokens ]}
   | _ => Raise (TypeError (lit "inference data must be a number"))
   end).
Definition record_fixed : gmap pystr pyval := {[ lit "accuracy" := PyInt 90 ]}.
(** One record, held under the key of the fixed-chunking knowledge base. *)
Definition start : MergeCell.state nat :=
  MergeCell.State 0 [] {[ 1%positive := record_fixed ]} {[ kb_fixed := 1%positive ]}.
(** An evaluator that counts the records of a knowledge base. *)
Definition CustomEvaluator (config : pyval) (calls : nat) : nat * result unit :=
  (S calls, Ok tt).
Definition evaluate (evaluator : unit) (inference_data : pyval) (calls : nat)
  : nat * result pyval :=
  (S calls,
   match inference_data with
   | PyList records => Ok (PyInt (Z.of_nat (length records)))
   | _ => Raise (TypeError (lit "inference data must be a list"))
   end).
End EvaluationSample.

(** * Properties *)

(** ** Dictionaries *)

Section dict_facts.
Context {V : Type}.
Implicit Types (d : list (pystr * V)) (k : pystr) (v : V).

Lemma dict_get_set_eq d k v : dict_get k (dict_set k v d) = Some v.
Proof.
  induction d as [|[k' v'] d IH]; simpl.
  - by rewrite decide_True.
  - destruct (decide (k' = k)) as [->|Hne]; simpl.
    + by rewrite decide_True.
    + by rewrite decide_False.
Qed.

Lemma dict_get_set_ne d k k' v : k ≠ k' → dict_get k' (dict_set k v d) = dict_get k' d.
Proof.
  intros Hne. induction d as [|[k0 v0] d IH]; simpl.
  - by rewrite decide_False.
  - destruct (decide (k0 = k)) as [->|Hne0]; simpl.
    + by rewrite !decide_False.
    + destruct (decide (k0 = k')); done.
Qed.

Lemma dict_keys_set_in d k v :
  is_Some (dict_get k d) → dict_keys (dict_set k v d) = dict_keys d.
Proof.
  unfold dict_keys. induction d as [|[k' v'] d IH]; csimpl.
  - by intros [? ?].
  - destruct (decide (k' = k)) as [->|Hne]; csimpl; [done|].
    intros H. f_equal. by apply IH.
Qed.

Lemma dict_keys_set_notin d k v :
  dict_get k d = None → dict_keys (dict_set k v d) = dict_keys d ++ [k].
Proof.
  unfold dict_keys. induction d as [|[k' v'] d IH]; csimpl; [done|].
  destruct (decide (k' = k)) as [->|Hne]; csimpl; [done|].
  intros H. f_equal. by apply IH.
Qed.

Lemma dict_get_Some_keys d k v : dict_get k d = Some v → k ∈ dict_keys d.
Proof.
  unfold dict_keys. induction d as [|[k' v'] d IH]; csimpl; [done|].
  destruct (decide (k' = k)) as [->|Hne]; [left|right; auto].
Qed.

Lemma dict_get_None_keys d k : dict_get k d = None ↔ k ∉ dict_keys d.
Proof.
  unfold dict_keys. induction d as [|[k' v'] d IH]; csimpl.
  - split; [intros _; apply not_elem_of_nil|done].
  - rewrite not_elem_of_cons. destruct (decide (k' = k)) as [->|Hne].
    + split; [done|]. by intros [? _].
    + rewrite IH. split; [by intros ?; split|by intros [_ ?]].
Qed.
End dict_facts.

(** ** The metadata filter (Lab 2) *)

Lemma clause_constraint_equals key value :
  clause_constraint (equals_clause key value) = Some (key, value).
Proof. reflexivity. Qed.

Lemma filter_constraints_spec_filter constraints :
  filter_constraints (spec_filter_of constraints) = Some constraints.
Proof.
  unfold spec_filter_of, and_all, filter_constraints.
  rewrite bool_decide_eq_true_2 by done.
  induction constraints as [|[k v] cs IH]; [done|].
  rewrite fmap_cons. cbn [mapM]. rewrite clause_constraint_equals. cbn.
  by rewrite IH.
Qed.

(** C7: the metadata filter the notebooks build from their constraint list
    (docType = '10K Report', year = 2023) is a single top-level [andAll] node
    whose clauses are exactly one [equals] clause per constraint, holding
    that constraint's key and value, with no other clause and no further
    nesting; and so is the filter built from any constraint list. *)
Theorem metadata_filter_one_clause_per_constraint :
  let constraints :=
    [(lit "docType", PyStr (lit "10K Report")); (lit "year", PyInt 2023)] in
  SageMakerRag.one_group_filter = spec_filter_of constraints ∧
  Guardrails.one_group_filter = spec_filter_of constraints ∧
  filter_constraints SageMakerRag.one_group_filter = Some constraints ∧
  ∀ cs : list (pystr * pyval),
    (∃ clauses,
        spec_filter_of cs = PyDict [(lit "andAll", PyList clauses)] ∧
        length clauses = length cs ∧
        Forall2 (λ clause kv, clause =
                   PyDict [(lit "equals",
                            PyDict [(lit "key", PyStr kv.1); (lit "value", kv.2)])])
                clauses cs) ∧
    filter_constraints (spec_filter_of cs) = Some cs.
Proof.
  cbv zeta. do 3 (split; [reflexivity|]). intros cs. split.
  - exists ((λ kv, equals_clause kv.1 kv.2) <$> cs). repeat split.
    + by rewrite length_fmap.
    + apply Forall2_fmap_l, Forall_Forall2_diag, Forall_forall. by intros [k v] _.
  - apply filter_constraints_spec_filter.
Qed.

(** ** Lab 2.3: the knowledge-base configuration *)

Module GuardrailsFacts.
Import Guardrails GuardrailsSpec.

Lemma kb_config_of_closed kb arn mf ug gid gv :
  kb_config_of kb arn mf ug gid gv =
  if truthy ug && negb (truthy gid) then Raise missing_guardrail_id
  else Ok (PyDict [(lit "knowledgeBaseId", kb);
                   (lit "modelArn", arn);
                   (lit "retrievalConfiguration",
                     PyDict [(lit "vectorSearchConfiguration",
                               vector_search_configuration mf)]);
                   (lit "generationConfiguration",
                     generation_configuration ug gid gv)]).
Proof.
  unfold kb_config_of, vector_search_configuration, generation_configuration,
    guardrail_configuration.
  destruct (truthy mf), (truthy ug), (truthy gid), (truthy gv); reflexivity.
Qed.
End GuardrailsFacts.

(** ** The monad *)

Lemma bind_ret_r {S A} (m : M S A) (s : S) : bind m (λ x, ret x) s = m s.
Proof. unfold bind, ret. by destruct (m s) as [s' [a|e]]. Qed.

Lemma bind_lift {S A B} (r : result A) (f : A → M S B) (s : S) :
  bind (lift r) f s = match r with Ok a => f a s | Raise e => (s, Raise e) end.
Proof. reflexivity. Qed.

Lemma retrieve_and_generate_run {World}
    (retrieve_and_generate : pyval → World → World * result pyval)
    (query kb arn mf ug gid gv : pyval) (s : Guardrails.state World) :
  Guardrails.retrieve_and_generate_with_conditional_guardrails
    retrieve_and_generate query kb arn mf ug gid gv s =
  match Guardrails.kb_config_of kb arn mf ug gid gv with
  | Ok kb_config =>
      let '(w', r) :=
        retrieve_and_generate (Guardrails.request_of query kb_config) (Guardrails.world s) in
      (Guardrails.State w' (Guardrails.requests s ++ [Guardrails.request_of query kb_config]), r)
  | Raise e => (s, Raise e)
  end.
Proof.
  unfold Guardrails.retrieve_and_generate_with_conditional_guardrails.
  rewrite bind_lift. destruct (Guardrails.kb_config_of _ _ _ _ _ _); [|done].
  by rewrite bind_ret_r.
Qed.

Lemma app_singleton_ne {A} (l : list A) (x : A) : l ++ [x] ≠ l.
Proof.
  intros H. apply (f_equal length) in H. rewrite length_app in H. simpl in H. lia.
Qed.

(** C9: [retrieve_and_generate_with_conditional_guardrails] raises its
    ValueError, with no request issued and nothing changed, exactly when
    [use_guardrails] holds and [guardrail_id] is absent (absent and provided are
    what the function tests with [if not guardrail_id] and
    [if guardrail_version]: None and the empty string count as absent).
    Otherwise it issues one request, the one the service is called with.  With
    [use_guardrails] and a guardrail id, that request holds, under
    [retrieveAndGenerateConfiguration], [knowledgeBaseConfiguration] and
    [generationConfiguration], a [guardrailConfiguration] with that
    [guardrailId], and with a [guardrailVersion] exactly when a version is
    provided.  Without [use_guardrails] the request holds a generation
    configuration with no [guardrailConfiguration], and the run is the same
    whatever the guardrail arguments are. *)
Theorem guardrails_validated_before_request {World}
    (retrieve_and_generate : pyval → World → World * result pyval)
    (query kb arn mf ug gid gv : pyval) (s : Guardrails.state World) :
  let call := Guardrails.retrieve_and_generate_with_conditional_guardrails
                retrieve_and_generate query kb arn mf ug in
  let run := call gid gv s in
  let issued request :=
    let answer := retrieve_and_generate request (Guardrails.world s) in
    run = (Guardrails.State answer.1 (Guardrails.requests s ++ [request]), answer.2) ∧
    getitem_path request [lit "input"; lit "text"] = Ok query in
  let generation :=
    [lit "retrieveAndGenerateConfiguration"; lit "knowledgeBaseConfiguration";
     lit "generationConfiguration"] in
  ((run.2 = Raise GuardrailsSpec.missing_guardrail_id ∧ run.1 = s) ↔
   (truthy ug = true ∧ truthy gid = false)) ∧
  match truthy ug, truthy gid with
  | true, false => run = (s, Raise GuardrailsSpec.missing_guardrail_id)
  | true, true =>
      ∃ request,
        issued request ∧
        getitem_path request (generation ++ [lit "guardrailConfiguration"]) =
          Ok (PyDict ((lit "guardrailId", gid) ::
                      if truthy gv then [(lit "guardrailVersion", gv)] else []))
  | false, _ =>
      ∃ request configuration,
        issued request ∧
        getitem_path request generation = Ok (PyDict configuration) ∧
        dict_get (lit "guardrailConfiguration") configuration = None ∧
        ∀ gid' gv', call gid' gv' s = run
  end.
Proof.
  cbv zeta. rewrite retrieve_and_generate_run.
  assert (Hne : ∀ w (r : result pyval) req,
    ¬ ((Guardrails.State w (Guardrails.requests s ++ [req]), r).2
         = Raise GuardrailsSpec.missing_guardrail_id ∧
       (Guardrails.State w (Guardrails.requests s ++ [req]), r).1 = s)).
  { intros w r req [_ Hs]. apply (f_equal Guardrails.requests) in Hs.
    simpl in Hs. by apply app_singleton_ne in Hs. }
  assert (Hany : truthy ug = false → ∀ gid' gv',
    Guardrails.retrieve_and_generate_with_conditional_guardrails
      retrieve_and_generate query kb arn mf ug gid' gv' s =
    Guardrails.retrieve_and_generate_with_conditional_guardrails
      retrieve_and_generate query kb arn mf ug gid gv s).
  { intros Hug gid' gv'. rewrite !retrieve_and_generate_run.
    rewrite !GuardrailsFacts.kb_config_of_closed.
    unfold GuardrailsSpec.generation_configuration. by rewrite Hug. }
  rewrite GuardrailsFacts.kb_config_of_closed.
  unfold GuardrailsSpec.generation_configuration.
  destruct (truthy ug) eqn:Hug, (truthy gid) eqn:Hgid; cbn [andb negb].
  - destruct (retrieve_and_generate _ _) as [w' r] eqn:Hcall. split.
    + split; [|by intros [_ ?]]. intros H. by apply Hne in H.
    + eexists. split; [split; [by rewrite Hcall|reflexivity]|reflexivity].
  - split; [done|done].
  - destruct (retrieve_and_generate _ _) as [w' r] eqn:Hcall. split.
    + split; [|by intros [? _]]. intros H. by apply Hne in H.
    + eexists _, _. split; [split; [by rewrite Hcall|reflexivity]|].
      split; [reflexivity|]. split; [reflexivity|].
      intros gid' gv'. rewrite Hany by done. rewrite retrieve_and_generate_run.
      rewrite GuardrailsFacts.kb_config_of_closed.
      unfold GuardrailsSpec.generation_configuration. rewrite Hug. cbn [andb].
      by rewrite Hcall.
  - destruct (retrieve_and_generate _ _) as [w' r] eqn:Hcall. split.
    + split; [|by intros [? _]]. intros H. by apply Hne in H.
    + eexists _, _. split; [split; [by rewrite Hcall|reflexivity]|].
      split; [reflexivity|]. split; [reflexivity|].
      intros gid' gv'. rewrite Hany by done. rewrite retrieve_and_generate_run.
      rewrite GuardrailsFacts.kb_config_of_closed.
      unfold GuardrailsSpec.generation_configuration. rewrite Hug. cbn [andb].
      by rewrite Hcall.
Qed.

(** C10: in the configuration built by
    [retrieve_and_generate_with_conditional_guardrails] the metadata filter
    decides the [filter] field of the vector search configuration and nothing
    else: two calls that differ in [metadata_filter] only build configurations
    that are equal once [filter] is removed (or raise the same error); the
    configuration holds the given [knowledgeBaseId] and [modelArn],
    [numberOfResults] 5 and the prompt template whatever the filter is; and
    [filter] is present, holding the given filter, exactly when a filter is
    provided (as the function tests it, [if metadata_filter]). *)
Theorem metadata_filter_changes_only_filter (kb arn mf mf' ug gid gv : pyval) :
  let vector_search := GuardrailsSpec.vector_search_path in
  let without_filter := GuardrailsSpec.without_key vector_search (lit "filter") in
  result_map without_filter (Guardrails.kb_config_of kb arn mf ug gid gv) =
  result_map without_filter (Guardrails.kb_config_of kb arn mf' ug gid gv) ∧
  match Guardrails.kb_config_of kb arn mf ug gid gv with
  | Ok kb_config =>
      getitem_str kb_config (lit "knowledgeBaseId") = Ok kb ∧
      getitem_str kb_config (lit "modelArn") = Ok arn ∧
      getitem_path kb_config (vector_search ++ [lit "numberOfResults"]) = Ok (PyInt 5) ∧
      getitem_path kb_config
        [lit "generationConfiguration"; lit "promptTemplate"; lit "textPromptTemplate"]
        = Ok (PyStr Guardrails.text_prompt_template) ∧
      getitem_path kb_config (vector_search ++ [lit "filter"]) =
        (if truthy mf then Ok mf else Raise (KeyError (lit "filter"))) ∧
      Ok (without_filter kb_config) = Guardrails.kb_config_of kb arn PyNone ug gid gv
  | Raise e => e = GuardrailsSpec.missing_guardrail_id
  end.
Proof.
  cbv zeta. rewrite !GuardrailsFacts.kb_config_of_closed.
  unfold GuardrailsSpec.vector_search_configuration.
  destruct (truthy ug && negb (truthy gid)); [done|].
  destruct (truthy mf), (truthy mf'); repeat split; reflexivity.
Qed.

(** ** Lab 2: the response-field resolver *)

Module ResolverFacts.
Import SageMakerRag ResolverShapes.

Lemma dict_in_Some {V} k (d : list (pystr * V)) v :
  dict_get k d = Some v → dict_in k d = true.
Proof. intros H. unfold dict_in. rewrite H. by apply bool_decide_eq_true_2. Qed.

Lemma dict_in_None {V} k (d : list (pystr * V)) :
  dict_get k d = None → dict_in k d = false.
Proof.
  intros H. unfold dict_in. rewrite H. apply bool_decide_eq_false_2.
  by intros [? ?].
Qed.

Lemma getitem_str_not_dict x k :
  (∀ d, x ≠ PyDict d) → ∃ e, getitem_str x k = Raise e.
Proof. destruct x; intros H; try (eexists; reflexivity). by destruct (H entries). Qed.

Lemma resolve_list first rest :
  resolve_generated_text (PyList (first :: rest)) =
  getitem_str first (lit "generated_text").
Proof. reflexivity. Qed.

Lemma resolve_dict d :
  resolve_generated_text (PyDict d) =
  match dict_get (lit "generated_text") d with
  | Some v => Ok v
  | None =>
      match dict_get (lit "generation") d with
      | Some v => Ok v
      | None => Raise (RuntimeError (lit "Unexpected response format"))
      end
  end.
Proof.
  unfold resolve_generated_text, contains_str, getitem_str, result_bind.
  destruct (dict_get (lit "generated_text") d) as [v|] eqn:Hgt.
  - by rewrite (dict_in_Some _ _ _ Hgt).
  - rewrite (dict_in_None _ _ Hgt).
    destruct (dict_get (lit "generation") d) as [v|] eqn:Hgen.
    + by rewrite (dict_in_Some _ _ _ Hgen).
    + by rewrite (dict_in_None _ _ Hgen).
Qed.

(** A value that is neither a list nor a dictionary never resolves. *)
Lemma resolve_scalar x :
  (∀ l, x ≠ PyList l) → (∀ d, x ≠ PyDict d) → ∃ e, resolve_generated_text x = Raise e.
Proof.
  intros Hl Hd. destruct x; try (eexists; reflexivity).
  - unfold resolve_generated_text, contains_str, result_bind.
    destruct (has_substring (lit "generated_text") s); [eexists; reflexivity|].
    destruct (has_substring (lit "generation") s); eexists; reflexivity.
  - by destruct (Hl items).
  - by destruct (Hd entries).
Qed.
End ResolverFacts.

(** C2, the claim as stated fails: a dictionary with both keys is a dictionary
    with key 'generation', and the resolver returns the value of
    'generated_text', which the [elif] chain tests first. *)
Lemma resolver_prefers_generated_text :
  let response :=
    PyDict [(lit "generated_text", PyStr (lit "a")); (lit "generation", PyStr (lit "b"))] in
  ResolverShapes.carries (lit "generation") (PyStr (lit "b")) response ∧
  SageMakerRag.resolve_generated_text response = Ok (PyStr (lit "a")) ∧
  SageMakerRag.resolve_generated_text response ≠ Ok (PyStr (lit "b")).
Proof.
  cbv zeta. split; [|split].
  - eexists. split; reflexivity.
  - reflexivity.
  - discriminate.
Qed.

(** C2, amended: a list whose first element carries 'generated_text' resolves
    to that text; a dictionary with key 'generated_text' resolves to its value;
    a dictionary with key 'generation' and without key 'generated_text'
    resolves to the value of 'generation'; every value of none of the three
    shapes raises.  In particular [{"generation": "X"}] gives ["X"],
    [[{"generated_text": "Y"}]] gives ["Y"] and [{}] raises. *)
Theorem response_field_resolver (response v : pyval) :
  let generated_text := lit "generated_text" in
  let generation := lit "generation" in
  (ResolverShapes.list_carries generated_text v response →
     SageMakerRag.resolve_generated_text response = Ok v) ∧
  (ResolverShapes.carries generated_text v response →
     SageMakerRag.resolve_generated_text response = Ok v) ∧
  (ResolverShapes.carries generation v response →
   (∀ v', ¬ ResolverShapes.carries generated_text v' response) →
     SageMakerRag.resolve_generated_text response = Ok v) ∧
  ((∀ v', ¬ ResolverShapes.list_carries generated_text v' response ∧
          ¬ ResolverShapes.carries generated_text v' response ∧
          ¬ ResolverShapes.carries generation v' response) →
     ∃ e, SageMakerRag.resolve_generated_text response = Raise e) ∧
  SageMakerRag.resolve_generated_text (PyDict [(generation, PyStr (lit "X"))])
    = Ok (PyStr (lit "X")) ∧
  SageMakerRag.resolve_generated_text (PyList [PyDict [(generated_text, PyStr (lit "Y"))]])
    = Ok (PyStr (lit "Y")) ∧
  SageMakerRag.resolve_generated_text (PyDict [])
    = Raise (RuntimeError (lit "Unexpected response format")).
Proof.
  cbv zeta. repeat split; try reflexivity.
  - intros (first & rest & -> & d & -> & Hd).
    rewrite ResolverFacts.resolve_list. simpl. by rewrite Hd.
  - intros (d & -> & Hd). rewrite ResolverFacts.resolve_dict. by rewrite Hd.
  - intros (d & -> & Hd) Hno. rewrite ResolverFacts.resolve_dict.
    destruct (dict_get (lit "generated_text") d) as [v'|] eqn:Hgt.
    + destruct (Hno v'). by exists d.
    + by rewrite Hd.
  - intros Hno. destruct response as [| | | | |items|d];
      try (apply ResolverFacts.resolve_scalar; intros; discriminate).
    + destruct items as [|first rest]; [eexists; reflexivity|].
      rewrite ResolverFacts.resolve_list.
      destruct first as [| | | | | |d]; try (eexists; reflexivity).
      simpl. destruct (dict_get (lit "generated_text") d) as [v'|] eqn:Hgt;
        [|eexists; reflexivity].
      destruct (Hno v') as [H _]. destruct H. exists (PyDict d), rest.
      split; [done|]. by exists d.
    + rewrite ResolverFacts.resolve_dict.
      destruct (dict_get (lit "generated_text") d) as [v'|] eqn:Hgt.
      { destruct (Hno v') as (_ & H & _). destruct H. by exists d. }
      destruct (dict_get (lit "generation") d) as [v'|] eqn:Hgen.
      { destruct (Hno v') as (_ & _ & H). destruct H. by exists d. }
      eexists; reflexivity.
Qed.

(** ** Lab 2: the prompt format *)

Module PromptFacts.
Import SageMakerRag PromptText.

Lemma str_lstrip_spaces w c r :
  forallb is_space w = true → is_space c = false → str_lstrip (w ++ c :: r) = c :: r.
Proof.
  intros Hw Hc. induction w as [|a w IH]; simpl in *.
  - by rewrite Hc.
  - apply andb_true_iff in Hw as [-> Hw]. auto.
Qed.

Lemma forallb_reverse {A} (f : A → bool) (l : list A) :
  forallb f l = true → forallb f (reverse l) = true.
Proof.
  rewrite !forallb_forall. intros H x Hx. apply H.
  by rewrite <- list_elem_of_In, <- elem_of_reverse, list_elem_of_In.
Qed.

(** Stripping a text framed by white space, whose first and last characters
    are not white space. *)
Lemma str_strip_framed w1 a m b w2 :
  forallb is_space w1 = true → forallb is_space w2 = true →
  is_space a = false → is_space b = false →
  str_strip (w1 ++ (a :: m ++ [b]) ++ w2) = a :: m ++ [b].
Proof.
  intros H1 H2 Ha Hb. unfold str_strip, str_rstrip.
  simpl. rewrite str_lstrip_spaces by done.
  replace (a :: (m ++ [b]) ++ w2) with ((a :: m) ++ b :: w2)
    by (by rewrite <- app_assoc).
  rewrite reverse_app, reverse_cons, <- app_assoc. simpl.
  rewrite str_lstrip_spaces by auto using forallb_reverse.
  by rewrite reverse_cons, reverse_involutive.
Qed.

Lemma format_prompt_closed query context :
  format_prompt query context =
  prompt_head ++ str_join (lit " ") context ++ prompt_middle ++ query ++ prompt_tail.
Proof.
  unfold format_prompt, system_prompt_of.
  set (j := str_join (lit " ") context).
  pose (w := newline :: replicate 8 32%N).
  pose (m := lit "|begin_of_text|>" ++ [newline] ++
    lit "        <|start_header_id|>system<|end_header_id|>" ++ [newline] ++
    lit "        Use the following context to answer the question. If you don't know the answer, say 'I don't know'."
    ++ [newline] ++ lit "        Context:" ++ [newline] ++ lit "        " ++ j ++
    prompt_middle ++ query ++ [newline] ++
    lit "        <|start_header_id|>assistant<|end_header_id|").
  transitivity (str_strip (w ++ (60%N :: m ++ [62%N]) ++ w)).
  - f_equal. unfold m, w, prompt_middle. flatten_app. reflexivity.
  - rewrite str_strip_framed by reflexivity. unfold m, prompt_head, prompt_tail.
    flatten_app. reflexivity.
Qed.
End PromptFacts.

(** C5, the claim as stated fails: the context enters the prompt through
    [" ".join(context)] only, so the contexts ['a b'] and ['a', 'b'] give the
    same prompt; and a query that contains the text between context and
    question can be confused with a longer context. *)
Lemma format_prompt_not_injective :
  let q := lit "q" in
  let m := PromptText.prompt_middle in
  [lit "a b"] ≠ [lit "a"; lit "b"] ∧
  SageMakerRag.format_prompt q [lit "a b"] = SageMakerRag.format_prompt q [lit "a"; lit "b"] ∧
  (lit "b" ++ m ++ lit "c" ≠ lit "c" ∧ [lit "a"] ≠ [lit "a" ++ m ++ lit "b"]) ∧
  SageMakerRag.format_prompt (lit "b" ++ m ++ lit "c") [lit "a"] =
  SageMakerRag.format_prompt (lit "c") [lit "a" ++ m ++ lit "b"].
Proof.
  cbv zeta. split; [discriminate|]. split; [by vm_compute|].
  split; [split; discriminate|]. by vm_compute.
Qed.

(** C5, amended: two (query, context) pairs give the same prompt exactly when
    the space-joined context, the fixed text between context and question, and
    the query concatenate to the same text.  So for contexts with the same
    join distinct queries give distinct prompts, and for one query contexts
    with distinct joins give distinct prompts. *)
Theorem format_prompt_injective_up_to_join (q1 q2 : pystr) (c1 c2 : list pystr) :
  let joined c := str_join (lit " ") c in
  (SageMakerRag.format_prompt q1 c1 = SageMakerRag.format_prompt q2 c2 ↔
   joined c1 ++ PromptText.prompt_middle ++ q1 =
   joined c2 ++ PromptText.prompt_middle ++ q2) ∧
  (joined c1 = joined c2 → q1 ≠ q2 →
   SageMakerRag.format_prompt q1 c1 ≠ SageMakerRag.format_prompt q2 c2) ∧
  (q1 = q2 → joined c1 ≠ joined c2 →
   SageMakerRag.format_prompt q1 c1 ≠ SageMakerRag.format_prompt q2 c2).
Proof.
  cbv zeta. rewrite !PromptFacts.format_prompt_closed.
  assert (Hiff :
    PromptText.prompt_head ++ str_join (lit " ") c1 ++ PromptText.prompt_middle
      ++ q1 ++ PromptText.prompt_tail =
    PromptText.prompt_head ++ str_join (lit " ") c2 ++ PromptText.prompt_middle
      ++ q2 ++ PromptText.prompt_tail ↔
    str_join (lit " ") c1 ++ PromptText.prompt_middle ++ q1 =
    str_join (lit " ") c2 ++ PromptText.prompt_middle ++ q2).
  { split.
    - intros H. apply app_inv_head in H. rewrite !(app_assoc _ _ (_ ++ PromptText.prompt_tail)),
        !(app_assoc _ q1), !(app_assoc _ q2) in H.
      apply app_inv_tail in H. by rewrite <- !app_assoc in H.
    - intros H. f_equal. rewrite !(app_assoc _ _ (_ ++ PromptText.prompt_tail)),
        !(app_assoc _ q1), !(app_assoc _ q2).
      f_equal. by rewrite <- !app_assoc. }
  split; [exact Hiff|]. split.
  - intros Hj Hq H. apply Hiff in H. rewrite Hj in H.
    by apply app_inv_head, app_inv_head in H.
  - intros -> Hj H. apply Hiff in H.
    rewrite !app_assoc in H. apply app_inv_tail in H. by apply app_inv_tail in H.
Qed.

(** ** The retrieval and generation invokers *)

Lemma retrieve_from_bedrock_run {World} (KNOWLEDGE_BASE_ID : pyval)
    (retrieve : pyval → World → World * result pyval)
    (query : pyval) (s : SageMakerRag.state World) :
  SageMakerRag.retrieve_from_bedrock KNOWLEDGE_BASE_ID retrieve query s =
  let kwargs := SageMakerRag.retrieve_request KNOWLEDGE_BASE_ID query in
  let '(w', r) := retrieve kwargs (SageMakerRag.world s) in
  (SageMakerRag.State w' (SageMakerRag.calls s ++ [SageMakerRag.Retrieve kwargs]),
   match r with
   | Ok response =>
       match SageMakerRag.context_texts response with
       | Ok texts => Ok texts
       | Raise e => Raise (SageMakerRag.retrieval_failed e)
       end
   | Raise e => Raise (SageMakerRag.retrieval_failed e)
   end).
Proof.
  unfold SageMakerRag.retrieve_from_bedrock, try_except, bind, lift, raise,
    SageMakerRag.call_service.
  cbv zeta. destruct (retrieve _ _) as [w' [response|e]]; [|done].
  by destruct (SageMakerRag.context_texts response).
Qed.

Lemma generate_response_run {World} (ENDPOINT_NAME : pyval)
    (sagemaker_client : World → World * result ())
    (invoke_endpoint : pyval → World → World * result pystr)
    (json_loads : pystr → result pyval)
    (prompt : pyval) (s : SageMakerRag.state World) :
  SageMakerRag.generate_response ENDPOINT_NAME sagemaker_client invoke_endpoint
    json_loads prompt s =
  let kwargs := SageMakerRag.invoke_request ENDPOINT_NAME prompt in
  match sagemaker_client (SageMakerRag.world s) with
  | (w1, Raise e) =>
      (SageMakerRag.State w1 (SageMakerRag.calls s ++ [SageMakerRag.SageMakerClient]),
       Raise e)
  | (w1, Ok _) =>
      let '(w2, r) := invoke_endpoint kwargs w1 in
      (SageMakerRag.State w2
         (SageMakerRag.calls s ++
          [SageMakerRag.SageMakerClient; SageMakerRag.InvokeEndpoint kwargs]),
       match result_bind (result_bind r json_loads) SageMakerRag.resolve_generated_text with
       | Ok text => Ok text
       | Raise e => Raise (SageMakerRag.generation_failed e)
       end)
  end.
Proof.
  unfold SageMakerRag.generate_response, try_except, bind, lift, raise,
    SageMakerRag.call_service.
  cbv zeta. destruct (sagemaker_client _) as [w1 [[]|e]]; [|done]. simpl.
  destruct (invoke_endpoint _ _) as [w2 [body|e]]; simpl;
    [|by rewrite <- app_assoc].
  rewrite <- app_assoc. destruct (json_loads body) as [parsed|e]; simpl; [|done].
  by destruct (SageMakerRag.resolve_generated_text parsed).
Qed.

(** C6, the claim as stated fails: the retrieve-and-generate invoker of Lab 2.3
    has no [try]: a throttled service surfaces as the service's own error, not
    as a RuntimeError; and [retrieve_from_bedrock] returns the texts it
    extracts from the response, not the response. *)
Lemma invokers_do_not_wrap_and_return_unchanged :
  let q := PyStr (lit "q") in
  let kb := PyStr (lit "kb") in
  let arn := PyStr (lit "arn") in
  (Guardrails.retrieve_and_generate_with_conditional_guardrails throttled_service
     q kb arn PyNone (PyBool false) PyNone PyNone (Guardrails.State tt [])).2
    = Raise throttled ∧
  exn_class throttled ≠ lit "RuntimeError" ∧
  (SageMakerRag.retrieve_from_bedrock kb one_chunk_service q (SageMakerRag.State tt [])).2
    = Ok (PyList [PyStr (lit "chunk")]) ∧
  PyList [PyStr (lit "chunk")] ≠ one_chunk_response.
Proof. cbv zeta. repeat split; (reflexivity || discriminate). Qed.

(** C6, amended: [retrieve_and_generate_with_conditional_guardrails] issues no
    request when the guardrail validation raises, and otherwise exactly one
    request, whose outcome it passes on as it is: the response unchanged, or
    the service's error unchanged (not wrapped).  [retrieve_from_bedrock] issues
    exactly one request; it returns the list of content texts of the
    response's retrieval results, and re-raises every error, of the call or of
    the extraction, as RuntimeError "Bedrock retrieval failed: " followed by
    the original message.  Neither retries, and neither returns a partial
    result. *)
Theorem invokers_one_call_and_outcome {World}
    (retrieve_and_generate retrieve : pyval → World → World * result pyval)
    (query kb arn mf ug gid gv : pyval)
    (s : Guardrails.state World) (s0 : SageMakerRag.state World) :
  (let run :=
     Guardrails.retrieve_and_generate_with_conditional_guardrails
       retrieve_and_generate query kb arn mf ug gid gv s in
   match Guardrails.kb_config_of kb arn mf ug gid gv with
   | Raise e => run = (s, Raise e) ∧ e = GuardrailsSpec.missing_guardrail_id
   | Ok kb_config =>
       let request := Guardrails.request_of query kb_config in
       let answer := retrieve_and_generate request (Guardrails.world s) in
       Guardrails.requests run.1 = Guardrails.requests s ++ [request] ∧
       Guardrails.world run.1 = answer.1 ∧
       run.2 = answer.2
   end) ∧
  (let run := SageMakerRag.retrieve_from_bedrock kb retrieve query s0 in
   let request := SageMakerRag.retrieve_request kb query in
   let answer := retrieve request (SageMakerRag.world s0) in
   SageMakerRag.calls run.1 = SageMakerRag.calls s0 ++ [SageMakerRag.Retrieve request] ∧
   SageMakerRag.world run.1 = answer.1 ∧
   run.2 =
     match answer.2 with
     | Ok response =>
         match SageMakerRag.context_texts response with
         | Ok texts => Ok texts
         | Raise e =>
             Raise (RuntimeError (lit "Bedrock retrieval failed: " ++ exn_str e))
         end
     | Raise e => Raise (RuntimeError (lit "Bedrock retrieval failed: " ++ exn_str e))
     end).
Proof.
  split.
  - cbv zeta. rewrite retrieve_and_generate_run.
    pose proof (GuardrailsFacts.kb_config_of_closed kb arn mf ug gid gv) as Hc.
    destruct (Guardrails.kb_config_of kb arn mf ug gid gv) as [kb_config|e].
    + by destruct (retrieve_and_generate _ _) as [w' r].
    + split; [done|]. destruct (truthy ug && negb (truthy gid)); congruence.
  - cbv zeta. rewrite retrieve_from_bedrock_run. cbv zeta.
    by destruct (retrieve _ _) as [w' r].
Qed.

(** ** Lab 4.3: the sweep over the models *)

Section keys_facts.
Context {V : Type}.
Implicit Types (d : list (pystr * V)) (k : pystr) (v : V).

Lemma dict_keys_set d k v :
  dict_keys (dict_set k v d) =
  if decide (k ∈ dict_keys d) then dict_keys d else dict_keys d ++ [k].
Proof.
  destruct (dict_get k d) as [v'|] eqn:Hget.
  - rewrite decide_True by eauto using dict_get_Some_keys.
    by apply dict_keys_set_in.
  - rewrite decide_False by by apply dict_get_None_keys.
    by apply dict_keys_set_notin.
Qed.

Lemma dict_keys_update d (kvs : list (pystr * V)) :
  dict_keys (dict_update d kvs) =
  foldl (λ acc k, if decide (k ∈ acc) then acc else acc ++ [k]) (dict_keys d) kvs.*1.
Proof.
  unfold dict_update. revert d. induction kvs as [|[k v] kvs IH]; intros d; [done|].
  csimpl. rewrite IH. by rewrite dict_keys_set.
Qed.

End keys_facts.

Lemma foldl_add_key_NoDup (acc keys : list pystr) :
  NoDup (acc ++ keys) →
  foldl (λ acc k, if decide (k ∈ acc) then acc else acc ++ [k]) acc keys = acc ++ keys.
Proof.
  revert acc. induction keys as [|k keys IH]; intros acc Hnd; simpl.
  - by rewrite app_nil_r.
  - rewrite decide_False.
    + rewrite IH; rewrite <- app_assoc; done.
    + apply NoDup_app in Hnd as (_ & Hnd & _). intros Hin.
      apply (Hnd k Hin). left.
Qed.

Lemma elem_of_foldl_add_key (acc keys : list pystr) k :
  k ∈ foldl (λ acc k, if decide (k ∈ acc) then acc else acc ++ [k]) acc keys ↔
  k ∈ acc ∨ k ∈ keys.
Proof.
  revert acc. induction keys as [|k' keys IH]; intros acc; simpl.
  - rewrite elem_of_nil. tauto.
  - rewrite IH, elem_of_cons. destruct (decide (k' ∈ acc)) as [Hin|Hnin].
    + split; [tauto|]. intros [?|[->|?]]; tauto.
    + rewrite elem_of_app, list_elem_of_singleton. tauto.
Qed.

Lemma elem_of_first_occurrences (keys : list pystr) k :
  k ∈ first_occurrences keys ↔ k ∈ keys.
Proof.
  unfold first_occurrences. rewrite elem_of_foldl_add_key, elem_of_nil. tauto.
Qed.

Lemma first_occurrences_NoDup (keys : list pystr) :
  NoDup keys → first_occurrences keys = keys.
Proof. intros H. by apply (foldl_add_key_NoDup []). Qed.

Section SweepFacts.
Context {World Inferencer VectorStorage Reranker Questions : Type}.
Context (variables : list (pystr * pyval))
        (prompt bedrock_kb gt_data aws_region : pyval)
        (vector_storage : VectorStorage) (reranker : Reranker)
        (create_inferencer_provider : list pyval → World → World * result Inferencer)
        (rag_with_flotorch :
           list (pystr * pyval) → VectorStorage → Reranker → Inferencer → Questions →
           World → World * result pyval).

Local Abbreviation state := (@ModelSweep.state World Inferencer Questions).
Local Abbreviation event := (@ModelSweep.event Inferencer Questions).
Local Abbreviation sweep_step :=
  (ModelSweep.sweep_step variables prompt bedrock_kb gt_data aws_region
     vector_storage reranker create_inferencer_provider rag_with_flotorch).
Local Abbreviation sweep_loop :=
  (ModelSweep.sweep_loop variables prompt bedrock_kb gt_data aws_region
     vector_storage reranker create_inferencer_provider rag_with_flotorch).
Local Abbreviation sweep :=
  (ModelSweep.sweep variables prompt bedrock_kb gt_data aws_region
     vector_storage reranker create_inferencer_provider rag_with_flotorch).
Local Abbreviation inferencer_args := (ModelSweep.inferencer_args variables prompt aws_region).
Local Abbreviation pass := (@pass Inferencer).
Local Abbreviation pass_ok' := (@pass_ok Inferencer variables prompt aws_region).
Local Abbreviation failed_events' :=
  (@failed_events Inferencer Questions variables prompt aws_region).

Lemma sweep_step_spec questions m (s : state) :
  let '(s', r) := sweep_step questions m s in
  ModelSweep.files s' = ModelSweep.files s ∧
  match r with
  | Ok _ =>
      ∃ p, pass_model p = m ∧ pass_ok' p ∧
        ModelSweep.events s' = ModelSweep.events s ++ pass_events questions p ∧
        ModelSweep.rag_response_dict s' =
          dict_set m (pass_responses p) (ModelSweep.rag_response_dict s)
  | Raise e =>
      ModelSweep.rag_response_dict s' = ModelSweep.rag_response_dict s ∧
      ∃ tail, ModelSweep.events s' = ModelSweep.events s ++ tail ∧
              failed_events' questions m e tail
  end.
Proof.
  unfold ModelSweep.sweep_step, bind, lift, ModelSweep.call_create_inferencer_provider,
    ModelSweep.call_rag_with_flotorch, ModelSweep.get_rag_response_dict,
    ModelSweep.set_rag_response_dict, failed_events.
  destruct (inferencer_args m) as [args|e] eqn:Hargs.
  2:{ repeat split; try done. exists []. rewrite app_nil_r. split; [done|]. by left. }
  destruct (create_inferencer_provider args (ModelSweep.world s)) as [w1 [i|e]] eqn:Hc; simpl.
  2:{ repeat split; try done. eexists. split; [done|]. right. exists args. split; [done|]. by left. }
  destruct (rag_with_flotorch _ _ _ i questions w1) as [w2 [r|e]] eqn:Hr; simpl.
  2:{ repeat split; try done. eexists. rewrite <- app_assoc. split; [done|].
      right. exists args. split; [done|]. right. by exists i. }
  repeat split; try done. exists (Pass m args i r). unfold pass_events, pass_ok. simpl.
  repeat split; try done. by rewrite <- app_assoc.
Qed.

Lemma sweep_loop_spec questions models (s : state) :
  let '(s', r) := sweep_loop questions models s in
  ∃ (passes : list pass) tail,
    Forall pass_ok' passes ∧
    ModelSweep.files s' = ModelSweep.files s ∧
    ModelSweep.events s' =
      ModelSweep.events s ++ concat (pass_events questions <$> passes) ++ tail ∧
    ModelSweep.rag_response_dict s' =
      dict_update (ModelSweep.rag_response_dict s) (pass_entry <$> passes) ∧
    match r with
    | Ok _ => pass_model <$> passes = models ∧ tail = []
    | Raise e =>
        ∃ m rest, models = (pass_model <$> passes) ++ m :: rest ∧
                  failed_events' questions m e tail
    end.
Proof.
  revert s. induction models as [|m rest IH]; intros s.
  - simpl. exists [], []. repeat split; try done. by rewrite app_nil_r.
  - cbn [ModelSweep.sweep_loop]. unfold bind at 1.
    pose proof (sweep_step_spec questions m s) as Hstep.
    destruct (sweep_step questions m s) as [s1 [[]|e]].
    + destruct Hstep as (Hf1 & p & Hm & Hok & He1 & Hd1).
      specialize (IH s1). destruct (sweep_loop questions rest s1) as [s2 r].
      destruct IH as (passes & tail & Hoks & Hf2 & He2 & Hd2 & Hr).
      exists (p :: passes), tail. split; [by constructor|].
      split; [congruence|]. split.
      { rewrite He2, He1. csimpl. by rewrite <- !app_assoc. }
      split.
      { rewrite Hd2, Hd1. unfold dict_update. csimpl. by rewrite Hm. }
      destruct r as [[]|e].
      * destruct Hr as [<- ->]. csimpl. by rewrite Hm.
      * destruct Hr as (m' & rest' & -> & Hfail). exists m', rest'.
        csimpl. by rewrite Hm.
    + destruct Hstep as (Hf1 & Hd1 & tail & He1 & Hfail).
      exists [], tail. repeat split; try done. by exists m, rest.
Qed.

Lemma sweep_spec inference_models questions (s : state) :
  let '(s', r) := sweep inference_models questions s in
  ∃ (passes : list pass) tail,
    Forall pass_ok' passes ∧
    ModelSweep.files s' = ModelSweep.files s ∧
    ModelSweep.events s' =
      ModelSweep.events s ++ concat (pass_events questions <$> passes) ++ tail ∧
    ModelSweep.rag_response_dict s' = dict_update [] (pass_entry <$> passes) ∧
    match r with
    | Ok _ => pass_model <$> passes = inference_models ∧ tail = []
    | Raise e =>
        ∃ m rest, inference_models = (pass_model <$> passes) ++ m :: rest ∧
                  failed_events' questions m e tail
    end.
Proof.
  unfold ModelSweep.sweep, bind, ModelSweep.set_rag_response_dict.
  exact (sweep_loop_spec questions inference_models _).
Qed.

Lemma dict_keys_passes (passes : list pass) :
  dict_keys (dict_update [] (pass_entry <$> passes)) =
  first_occurrences (pass_model <$> passes).
Proof.
  rewrite dict_keys_update. unfold first_occurrences.
  by rewrite <- list_fmap_compose.
Qed.

Lemma dict_update_NoDup {V} (kvs : list (pystr * V)) :
  NoDup kvs.*1 → dict_update [] kvs = kvs.
Proof.
  unfold dict_update.
  enough (∀ d, NoDup (d.*1 ++ kvs.*1) →
            foldl (λ d kv, dict_set kv.1 kv.2 d) d kvs = d ++ kvs) as H
    by (intros; by apply (H [])).
  induction kvs as [|[k v] kvs IH]; intros d Hnd; csimpl.
  - by rewrite app_nil_r.
  - assert (dict_set k v d = d ++ [(k, v)]) as ->.
    { apply NoDup_app in Hnd as (_ & Hnd & _).
      assert (k ∉ d.*1) as Hk by (intros Hin; apply (Hnd k Hin); left).
      clear -Hk. induction d as [|[k' v'] d IH]; csimpl in *; [done|].
      apply not_elem_of_cons in Hk as [Hne Hk].
      rewrite decide_False by done. by rewrite IH. }
    rewrite IH; rewrite ?fmap_app; csimpl; rewrite <- ?app_assoc; done.
Qed.

Local Abbreviation pass_run' :=
  (pass_run variables prompt bedrock_kb gt_data aws_region vector_storage reranker
     create_inferencer_provider rag_with_flotorch).
Local Abbreviation passes_run' :=
  (passes_run variables prompt bedrock_kb gt_data aws_region vector_storage reranker
     create_inferencer_provider rag_with_flotorch).
Local Abbreviation pass_fails' :=
  (pass_fails variables prompt bedrock_kb gt_data aws_region vector_storage reranker
     create_inferencer_provider rag_with_flotorch).

(** One pass of the loop, with the helpers and the world they run in. *)
Lemma sweep_step_run questions m (s : state) :
  let '(s', r) := sweep_step questions m s in
  ModelSweep.files s' = ModelSweep.files s ∧
  match r with
  | Ok _ =>
      ∃ p, pass_model p = m ∧
        pass_run' questions (ModelSweep.world s) p (ModelSweep.world s') ∧
        ModelSweep.events s' = ModelSweep.events s ++ pass_events questions p ∧
        ModelSweep.rag_response_dict s' =
          dict_set m (pass_responses p) (ModelSweep.rag_response_dict s)
  | Raise e =>
      ModelSweep.rag_response_dict s' = ModelSweep.rag_response_dict s ∧
      pass_fails' questions (ModelSweep.world s) m e (ModelSweep.world s') ∧
      ∃ tail, ModelSweep.events s' = ModelSweep.events s ++ tail ∧
              failed_events' questions m e tail
  end.
Proof.
  unfold ModelSweep.sweep_step, bind, lift, ModelSweep.call_create_inferencer_provider,
    ModelSweep.call_rag_with_flotorch, ModelSweep.get_rag_response_dict,
    ModelSweep.set_rag_response_dict, failed_events, pass_fails.
  destruct (inferencer_args m) as [args|e] eqn:Hargs.
  2:{ simpl. split; [done|]. split; [done|]. split; [by left|].
      exists []. rewrite app_nil_r. split; [done|]. by left. }
  destruct (create_inferencer_provider args (ModelSweep.world s)) as [w1 [i|e]] eqn:Hc; simpl.
  2:{ split; [done|]. split; [done|]. split.
      - right. exists args. split; [done|]. by left.
      - eexists. split; [done|]. right. exists args. split; [done|]. by left. }
  destruct (rag_with_flotorch _ _ _ i questions w1) as [w2 [r|e]] eqn:Hr; simpl.
  2:{ split; [done|]. split; [done|]. split.
      - right. exists args. split; [done|]. right. by exists w1, i.
      - eexists. rewrite <- app_assoc. split; [done|].
        right. exists args. split; [done|]. right. by exists i. }
  split; [done|]. exists (Pass m args i r). unfold pass_events, pass_run. simpl.
  split; [done|]. split; [|split; [by rewrite <- app_assoc|done]].
  split; [done|]. by exists w1.
Qed.

Lemma sweep_loop_run questions models (s : state) :
  let '(s', r) := sweep_loop questions models s in
  ∃ (passes : list pass) w1 tail,
    passes_run' questions (ModelSweep.world s) passes w1 ∧
    ModelSweep.files s' = ModelSweep.files s ∧
    ModelSweep.events s' =
      ModelSweep.events s ++ concat (pass_events questions <$> passes) ++ tail ∧
    ModelSweep.rag_response_dict s' =
      dict_update (ModelSweep.rag_response_dict s) (pass_entry <$> passes) ∧
    match r with
    | Ok _ => pass_model <$> passes = models ∧ ModelSweep.world s' = w1 ∧ tail = []
    | Raise e =>
        ∃ m rest, models = (pass_model <$> passes) ++ m :: rest ∧
                  pass_fails' questions w1 m e (ModelSweep.world s') ∧
                  failed_events' questions m e tail
    end.
Proof.
  revert s. induction models as [|m rest IH]; intros s.
  - simpl. exists [], (ModelSweep.world s), []. repeat split; try done.
    by rewrite app_nil_r.
  - cbn [ModelSweep.sweep_loop]. unfold bind at 1.
    pose proof (sweep_step_run questions m s) as Hstep.
    destruct (sweep_step questions m s) as [s1 [[]|e]].
    + destruct Hstep as (Hf1 & p & Hm & Hrun & He1 & Hd1).
      specialize (IH s1). destruct (sweep_loop questions rest s1) as [s2 r].
      destruct IH as (passes & w1 & tail & Hruns & Hf2 & He2 & Hd2 & Hr).
      exists (p :: passes), w1, tail.
      split; [by exists (ModelSweep.world s1)|].
      split; [congruence|]. split.
      { rewrite He2, He1. csimpl. by rewrite <- !app_assoc. }
      split.
      { rewrite Hd2, Hd1. unfold dict_update. csimpl. by rewrite Hm. }
      destruct r as [[]|e].
      * destruct Hr as (<- & <- & ->). csimpl. by rewrite Hm.
      * destruct Hr as (m' & rest' & -> & Hfail & Hev). exists m', rest'.
        csimpl. by rewrite Hm.
    + destruct Hstep as (Hf1 & Hd1 & Hfail & tail & He1 & Hev).
      exists [], (ModelSweep.world s), tail. repeat split; try done. by exists m, rest.
Qed.

Lemma sweep_run inference_models questions (s : state) :
  let '(s', r) := sweep inference_models questions s in
  ∃ (passes : list pass) w1 tail,
    passes_run' questions (ModelSweep.world s) passes w1 ∧
    ModelSweep.files s' = ModelSweep.files s ∧
    ModelSweep.events s' =
      ModelSweep.events s ++ concat (pass_events questions <$> passes) ++ tail ∧
    ModelSweep.rag_response_dict s' = dict_update [] (pass_entry <$> passes) ∧
    match r with
    | Ok _ => pass_model <$> passes = inference_models ∧ ModelSweep.world s' = w1 ∧ tail = []
    | Raise e =>
        ∃ m rest, inference_models = (pass_model <$> passes) ++ m :: rest ∧
                  pass_fails' questions w1 m e (ModelSweep.world s') ∧
                  failed_events' questions m e tail
    end.
Proof.
  unfold ModelSweep.sweep, bind, ModelSweep.set_rag_response_dict.
  exact (sweep_loop_run questions inference_models _).
Qed.

(** C4, amended: when the sweep completes (no lookup and no call raises), it
    goes through the model list once, in the order of the list: for each
    entry, from the state of the world the entry before left,
    [create_inferencer_provider] is called with the
    arguments of that model and [rag_with_flotorch] with the inferencer created
    and the question set; these are the only helper calls.  [rag_response_dict]
    then holds, for each model, the responses the helper returned (under one
    key those of its last entry, should the list name a model twice), and its
    keys are the models in the order of their first entry.  For a list without
    repetition that is one call per pair of model and question set, and the
    keys are the list. *)
Theorem sweep_maps_every_model_in_order inference_models questions (s : state) :
  (sweep inference_models questions s).2 = Ok tt →
  let s' := (sweep inference_models questions s).1 in
  ∃ passes : list pass,
    pass_model <$> passes = inference_models ∧
    passes_run' questions (ModelSweep.world s) passes (ModelSweep.world s') ∧
    ModelSweep.events s' =
      ModelSweep.events s ++ concat (pass_events questions <$> passes) ∧
    ModelSweep.rag_response_dict s' = dict_update [] (pass_entry <$> passes) ∧
    dict_keys (ModelSweep.rag_response_dict s') = first_occurrences inference_models ∧
    (NoDup inference_models →
       ModelSweep.rag_response_dict s' = pass_entry <$> passes ∧
       dict_keys (ModelSweep.rag_response_dict s') = inference_models).
Proof.
  intros Hok. pose proof (sweep_run inference_models questions s) as H.
  destruct (sweep inference_models questions s) as [s' r]. simpl in *. subst r.
  destruct H as (passes & w1 & tail & Hruns & _ & He & Hd & <- & <- & ->).
  exists passes. rewrite app_nil_r in He. rewrite Hd, dict_keys_passes.
  repeat split; try done.
  - apply dict_update_NoDup. by rewrite <- list_fmap_compose.
  - by apply first_occurrences_NoDup.
Qed.

End SweepFacts.

(** The sweep over two models in the sample environment, where no call
    raises. *)
Lemma sweep_maps_every_model_in_order_witness :
  let s' := (SweepSample.run [] [lit "nova-lite"; lit "nova-pro"]).1 in
  ∃ passes,
    pass_model <$> passes = [lit "nova-lite"; lit "nova-pro"] ∧
    passes_run SweepSample.variables PyNone PyNone PyNone PyNone tt tt
      SweepSample.create_inferencer_provider (SweepSample.rag_with_flotorch [])
      [lit "q1"; lit "q2"] 0 passes (ModelSweep.world s') ∧
    ModelSweep.events s' =
      [] ++ concat (pass_events [lit "q1"; lit "q2"] <$> passes) ∧
    ModelSweep.rag_response_dict s' = dict_update [] (pass_entry <$> passes) ∧
    dict_keys (ModelSweep.rag_response_dict s') =
      first_occurrences [lit "nova-lite"; lit "nova-pro"] ∧
    (NoDup [lit "nova-lite"; lit "nova-pro"] →
       ModelSweep.rag_response_dict s' = pass_entry <$> passes ∧
       dict_keys (ModelSweep.rag_response_dict s') = [lit "nova-lite"; lit "nova-pro"]).
Proof.
  exact (sweep_maps_every_model_in_order SweepSample.variables PyNone PyNone PyNone PyNone
           tt tt SweepSample.create_inferencer_provider (SweepSample.rag_with_flotorch [])
           [lit "nova-lite"; lit "nova-pro"] [lit "q1"; lit "q2"]
           (ModelSweep.State 0 [] [] ∅) eq_refl).
Defined.

(** C4, the claim as stated fails.  A list that names a model twice makes
    the helper run twice for the same pair of model and question set, and the
    mapping has one key for the two entries of the list; and a sweep whose
    helper raises produces no mapping for the list: here its only model has no
    entry. *)
Lemma sweep_repeats_a_repeated_model :
  let questions := [lit "q1"; lit "q2"] in
  let helper_calls events :=
    omap (λ ev, match ev with
                | ModelSweep.RagWithFlotorch inferencer asked _ => Some (inferencer, asked)
                | ModelSweep.CreateInferencer _ _ => None
                end) events in
  let twice := SweepSample.run [] [lit "a"; lit "a"] in
  let failing := SweepSample.run [lit "a"] [lit "a"] in
  twice.2 = Ok tt ∧
  helper_calls (ModelSweep.events twice.1) = [(lit "a", questions); (lit "a", questions)] ∧
  dict_keys (ModelSweep.rag_response_dict twice.1) = [lit "a"] ∧
  exn_class <$> (match failing.2 with Raise e => Some e | Ok _ => None end)
    = Some (lit "ClientError") ∧
  ModelSweep.rag_response_dict failing.1 = [].
Proof. cbv zeta. repeat split; reflexivity. Qed.


(** ** The JSON encoding *)

(** Induction on values, through the lists and dictionaries. *)
Lemma pyval_ind_nested (P : pyval → Prop) :
  P PyNone → (∀ b, P (PyBool b)) → (∀ z, P (PyInt z)) → (∀ r, P (PyFloat r)) →
  (∀ s, P (PyStr s)) →
  (∀ items, Forall P items → P (PyList items)) →
  (∀ entries, Forall (λ kv, P kv.2) entries → P (PyDict entries)) →
  ∀ v, P v.
Proof.
  intros HNone HBool HInt HFloat HStr HList HDict. fix IH 1. intros [| | | | |items|entries].
  - exact HNone.
  - apply HBool.
  - apply HInt.
  - apply HFloat.
  - apply HStr.
  - apply HList. induction items as [|x items IHitems]; constructor; [apply IH|exact IHitems].
  - apply HDict. induction entries as [|[k x] entries IHentries]; constructor;
      [apply IH|exact IHentries].
Qed.

Module JsonFacts.
Import Json JsonText.

Lemma filter_ascii_only s : ascii_only s → filter non_ascii s = [].
Proof.
  induction 1 as [|c s Hc _ IH]; [done|].
  rewrite filter_cons_False; [done|]. unfold non_ascii. lia.
Qed.

Lemma ascii_only_app s t : ascii_only s → ascii_only t → ascii_only (s ++ t).
Proof. apply Forall_app_2. Qed.

Lemma hex_digit_ascii n : (n < 16)%N → (hex_digit n < 128)%N.
Proof. unfold hex_digit. destruct (n <? 10)%N; lia. Qed.

Lemma u_escape_ascii n : ascii_only (u_escape n).
Proof.
  unfold u_escape. apply ascii_only_app; [by repeat constructor|].
  repeat constructor; apply hex_digit_ascii, N.mod_lt; done.
Qed.

Lemma escape_char_non_ascii c :
  filter non_ascii (escape_char false c) = filter non_ascii [c].
Proof.
  unfold escape_char, escape_dct. simpl.
  repeat (case_bool_decide; [subst; reflexivity|]).
  destruct (c <? 32)%N eqn:Hc; [|done].
  apply N.ltb_lt in Hc. rewrite filter_ascii_only by apply u_escape_ascii.
  rewrite filter_cons_False; [done|]. unfold non_ascii. lia.
Qed.

Lemma encode_basestring_non_ascii s :
  filter non_ascii (encode_basestring false s) = filter non_ascii s.
Proof.
  unfold encode_basestring. rewrite !filter_app. simpl.
  rewrite !filter_cons_False, filter_nil, app_nil_r by (unfold non_ascii, dquote; lia).
  induction s as [|c s IH]; [done|]. csimpl.
  rewrite filter_app, IH, escape_char_non_ascii. by rewrite <- filter_app.
Qed.

Lemma ascii_only_lit_char (a : ascii) :
  (N_of_ascii a < 128)%N → ∀ s, ascii_only (lit s) → ascii_only (lit (String a s)).
Proof. intros Ha s Hs. by constructor. Qed.

Lemma pretty_N_char_ascii x : (N_of_ascii (pretty_N_char x) < 128)%N.
Proof. unfold pretty_N_char. by repeat case_match. Qed.

Lemma pretty_N_go_ascii x s : ascii_only (lit s) → ascii_only (lit (pretty_N_go x s)).
Proof.
  revert s. induction (N.lt_wf_0 x) as [x _ IH]; intros s Hs.
  assert (x = 0 ∨ 0 < x)%N as [->|?] by lia.
  - by rewrite pretty_N_go_0.
  - rewrite pretty_N_go_step by done. apply IH; [by apply N.div_lt|].
    apply ascii_only_lit_char; [apply pretty_N_char_ascii|done].
Qed.

Lemma pretty_N_ascii (x : N) : ascii_only (lit (pretty x)).
Proof.
  unfold pretty, pretty_N. case_decide; [by repeat constructor|].
  apply pretty_N_go_ascii. constructor.
Qed.

Lemma intstr_ascii z : ascii_only (intstr z).
Proof.
  unfold intstr, pretty, pretty_Z. destruct z as [|p|p].
  - by repeat constructor.
  - apply pretty_N_ascii.
  - apply (ascii_only_lit_char "-"); [done|apply pretty_N_ascii].
Qed.

Section encoder_facts.
Variable indent : option nat.

Lemma newline_indent_ascii level : ascii_only (newline_indent indent level).
Proof.
  unfold newline_indent. destruct indent as [n|]; [|constructor].
  constructor; [done|]. apply Forall_replicate. done.
Qed.

Lemma separator_ascii level : ascii_only (separator indent level).
Proof.
  unfold separator, item_separator. apply ascii_only_app; [|apply newline_indent_ascii].
  destruct indent; by repeat constructor.
Qed.

Lemma filter_str_join (sep : pystr) (parts : list pystr) :
  ascii_only sep →
  filter non_ascii (str_join sep parts) = concat (filter non_ascii <$> parts).
Proof.
  intros Hsep. induction parts as [|p parts IH]; [done|].
  destruct parts as [|p' parts].
  - csimpl. by rewrite app_nil_r.
  - change (str_join sep (p :: p' :: parts)) with (p ++ sep ++ str_join sep (p' :: parts)).
    rewrite !filter_app, IH, (filter_ascii_only sep) by done. done.
Qed.

Lemma concat_filter_fmap {A} (f g : A → pystr) (l : list A) :
  Forall (λ x, filter non_ascii (f x) = filter non_ascii (g x)) l →
  concat (filter non_ascii <$> (f <$> l)) = filter non_ascii (concat (g <$> l)).
Proof.
  induction 1 as [|x l Hx _ IH]; [done|].
  rewrite !fmap_cons. cbn [concat]. by rewrite filter_app, Hx, IH.
Qed.

Lemma filter_bracketed (opening closing body : pystr) level :
  ascii_only opening → ascii_only closing →
  filter non_ascii
    (opening ++ newline_indent indent (S level) ++ body ++
     newline_indent indent level ++ closing) = filter non_ascii body.
Proof.
  intros Ho Hc. rewrite !filter_app.
  rewrite !(filter_ascii_only (newline_indent _ _)) by apply newline_indent_ascii.
  rewrite (filter_ascii_only opening), (filter_ascii_only closing) by done.
  by rewrite app_nil_r.
Qed.

(** The non-ASCII characters of the encoding are those of the value, in
    order: none is escaped and none is added. *)
Lemma iterencode_non_ascii v :
  ∀ level, filter non_ascii (iterencode indent false v level) = filter non_ascii (py_text v).
Proof.
  induction v as [|b|z|r|s|items IH|entries IH] using pyval_ind_nested; intros level.
  - done.
  - by destruct b.
  - simpl. by rewrite filter_ascii_only by apply intstr_ascii.
  - done.
  - apply encode_basestring_non_ascii.
  - destruct items as [|x items]; [done|].
    set (l := x :: items) in *.
    change (iterencode indent false (PyList l) level) with
      (lit "[" ++ newline_indent indent (S level) ++
       str_join (separator indent (S level))
         ((λ value, iterencode indent false value (S level)) <$> l) ++
       newline_indent indent level ++ lit "]").
    change (py_text (PyList l)) with (concat (py_text <$> l)).
    clearbody l. clear x items.
    rewrite filter_bracketed by (by repeat constructor).
    rewrite filter_str_join by apply separator_ascii.
    apply concat_filter_fmap. eapply Forall_impl; [exact IH|]. intros x Hx. apply Hx.
  - destruct entries as [|e entries]; [done|].
    set (l := e :: entries) in *.
    change (iterencode indent false (PyDict l) level) with
      (lit "{" ++ newline_indent indent (S level) ++
       str_join (separator indent (S level))
         ((λ item, match item with
                   | (key, value) =>
                       encode_basestring false key ++ key_separator ++
                       iterencode indent false value (S level)
                   end) <$> l) ++
       newline_indent indent level ++ lit "}").
    change (py_text (PyDict l)) with
      (concat ((λ item, match item with (key, value) => key ++ py_text value end) <$> l)).
    clearbody l. clear e entries.
    rewrite filter_bracketed by (by repeat constructor).
    rewrite filter_str_join by apply separator_ascii.
    apply concat_filter_fmap. eapply Forall_impl; [exact IH|]. intros [k x] Hx.
    simpl in Hx.
    rewrite !filter_app, encode_basestring_non_ascii, (Hx (S level)).
    by rewrite (filter_ascii_only key_separator) by (by repeat constructor).
Qed.
End encoder_facts.
End JsonFacts.

(** ** Lab 4.3: the results file *)

Lemma write_results_run {World Inferencer Questions}
    (open_for_writing : pystr → World → World * result ())
    (s : @ModelSweep.state World Inferencer Questions) :
  ModelSweep.write_results open_for_writing s =
  match open_for_writing ModelSweep.filename (ModelSweep.world s) with
  | (w', Ok _) =>
      (ModelSweep.State w' (ModelSweep.events s) (ModelSweep.rag_response_dict s)
         (<[ModelSweep.filename :=
              Json.dumps (Some 4) false (PyDict (ModelSweep.rag_response_dict s))]>
            (ModelSweep.files s)),
       Ok tt)
  | (w', Raise e) =>
      (ModelSweep.State w' (ModelSweep.events s) (ModelSweep.rag_response_dict s)
         (ModelSweep.files s),
       Raise e)
  end.
Proof.
  unfold ModelSweep.write_results, bind, ModelSweep.call_open_for_writing,
    ModelSweep.get_rag_response_dict, ModelSweep.file_write.
  destruct (open_for_writing _ _) as [w' [[]|e]]; [|done]. simpl.
  by rewrite lookup_insert_eq, insert_insert_eq.
Qed.

Lemma dumps_mapping_layout (mapping : list (pystr * pyval)) :
  Json.dumps (Some 4) false (PyDict mapping) =
  match mapping with
  | [] => lit "{}"
  | _ =>
      lit "{" ++ [newline] ++ lit "    " ++
      str_join (lit "," ++ [newline] ++ lit "    ") (entry_line <$> mapping) ++
      [newline] ++ lit "}"
  end.
Proof.
  destruct mapping as [|[m r] d]; [reflexivity|]. unfold Json.dumps.
  change (Json.iterencode (Some 4) false (PyDict ((m, r) :: d)) 0) with
    (lit "{" ++ Json.newline_indent (Some 4) 1 ++
     str_join (Json.separator (Some 4) 1)
       ((λ item, match item with
                 | (key, value) =>
                     Json.encode_basestring false key ++ Json.key_separator ++
                     Json.iterencode (Some 4) false value 1
                 end) <$> (m, r) :: d) ++
     Json.newline_indent (Some 4) 0 ++ lit "}").
  replace ((λ item : pystr * pyval, match item with
                 | (key, value) =>
                     Json.encode_basestring false key ++ Json.key_separator ++
                     Json.iterencode (Some 4) false value 1
                 end) <$> (m, r) :: d) with (entry_line <$> (m, r) :: d)
    by (apply list_fmap_ext; intros _ [k v] _; reflexivity).
  reflexivity.
Qed.

(** C8: when the results cell completes, the results file holds the JSON
    encoding of [rag_response_dict], the mapping from model identifier to the
    list of per-question records, and no other file changes.  The text is
    pretty-printed: one model per line, indented by four spaces, in the order
    of the mapping, and the records of a model one level deeper.  Non-ASCII
    characters are written as they are: those of the file are exactly those
    of the mapping, in order, and no such character is escaped. *)
Theorem results_file_is_indented_json {World Inferencer Questions}
    (open_for_writing : pystr → World → World * result ())
    (s : @ModelSweep.state World Inferencer Questions) :
  (ModelSweep.write_results open_for_writing s).2 = Ok tt →
  let s' := (ModelSweep.write_results open_for_writing s).1 in
  let mapping := ModelSweep.rag_response_dict s in
  let text := Json.dumps (Some 4) false (PyDict mapping) in
  ModelSweep.files s' !! ModelSweep.filename = Some text ∧
  (∀ path, path ≠ ModelSweep.filename →
     ModelSweep.files s' !! path = ModelSweep.files s !! path) ∧
  ModelSweep.rag_response_dict s' = mapping ∧
  text =
    match mapping with
    | [] => lit "{}"
    | _ =>
        lit "{" ++ [newline] ++ lit "    " ++
        str_join (lit "," ++ [newline] ++ lit "    ") (entry_line <$> mapping) ++
        [newline] ++ lit "}"
    end ∧
  (∀ record records,
     Json.iterencode (Some 4) false (PyList (record :: records)) 1 =
     lit "[" ++ [newline] ++ lit "        " ++
     str_join (lit "," ++ [newline] ++ lit "        ")
       ((λ r, Json.iterencode (Some 4) false r 2) <$> record :: records) ++
     [newline] ++ lit "    " ++ lit "]") ∧
  filter JsonText.non_ascii text = filter JsonText.non_ascii (JsonText.py_text (PyDict mapping)) ∧
  (∀ c, JsonText.non_ascii c → Json.escape_char false c = [c]).
Proof.
  intros Hok. cbv zeta. rewrite write_results_run in *.
  destruct (open_for_writing _ _) as [w' [[]|e]]; [|done]. simpl.
  split; [by rewrite lookup_insert_eq|].
  split; [by intros path Hne; rewrite lookup_insert_ne|].
  split; [done|]. split; [apply dumps_mapping_layout|].
  split; [reflexivity|].
  split; [apply JsonFacts.iterencode_non_ascii|].
  intros c Hc. unfold JsonText.non_ascii in Hc.
  unfold Json.escape_char, Json.escape_dct.
  repeat (case_bool_decide; [lia|]).
  destruct (c <? 32)%N eqn:Hlt; [apply N.ltb_lt in Hlt; lia|done].
Qed.

(** The results file of the sample state, character by character. *)
Lemma results_file_is_indented_json_witness :
  (ModelSweep.write_results sample_open sample_results).2 = Ok tt ∧
  ModelSweep.files (ModelSweep.write_results sample_open sample_results).1
    !! ModelSweep.filename =
  Some (lit "{" ++ [newline] ++
        lit "    " ++ [dquote] ++ lit "nova-lite" ++ [dquote] ++ lit ": [" ++ [newline] ++
        lit "        {" ++ [newline] ++
        lit "            " ++ [dquote] ++ lit "answer" ++ [dquote] ++ lit ": " ++
          [dquote] ++ lit "caf" ++ [233%N] ++ [dquote] ++ [newline] ++
        lit "        }" ++ [newline] ++
        lit "    ]" ++ [newline] ++
        lit "}").
Proof.
  split; [reflexivity|].
  destruct (results_file_is_indented_json sample_open sample_results eq_refl) as [H _].
  rewrite H. reflexivity.
Defined.

(** ** Lab 4: the cost and latency merge *)

Section MergeFacts.
Context (aws_region : pyval)
        (calculate_cost_and_latency_metrics : pyval → pyval → pyval → gmap pystr pyval).

(** One iteration with [model] bound to [m], which has a record: the figures
    computed from the data of [kb_type] go to the record of [m]. *)
Lemma merge_step_bound (m : pystr) (loaded : list (pystr * pyval)) (kb_type : pystr) (data : pyval)
    (final_evaluation : gmap pystr (gmap pystr pyval)) (current : gmap pystr pyval) :
  dict_get kb_type loaded = Some data →
  final_evaluation !! m = Some current →
  Evaluation.merge_step aws_region calculate_cost_and_latency_metrics (Some m) loaded
    kb_type final_evaluation =
  let figures :=
    calculate_cost_and_latency_metrics data Evaluation.inference_model aws_region in
  (<[m := if bool_decide (is_Some (final_evaluation !! kb_type))
          then Evaluation.merged current (Evaluation.merged current figures)
          else Evaluation.merged current figures]> final_evaluation,
   Ok tt).
Proof.
  intros Hdata Hrec.
  unfold Evaluation.merge_step, bind, lift, Evaluation.read_model, ret,
    Evaluation.get_record, Evaluation.has_record, Evaluation.set_record.
  simpl. rewrite Hdata, Hrec.
  destruct (bool_decide (is_Some (final_evaluation !! kb_type))); simpl; by rewrite ?Hrec.
Qed.
End MergeFacts.

(** C1, the code at a failing input: with two knowledge bases loaded and the
    name [model] bound to the first, the merge pass writes the figures computed
    from the data of the second into the record of the first, and leaves the
    record of the second as it was; no record is merged with the figures of
    its own key only.  With [model] unbound, as in the notebook itself, the
    first iteration raises NameError and nothing is merged. *)
Theorem merge_writes_every_figure_to_one_record
    (aws_region : pyval)
    (calculate_cost_and_latency_metrics : pyval → pyval → pyval → gmap pystr pyval)
    (data_fixed data_semantic : pyval)
    (record_fixed record_semantic : gmap pystr pyval) :
  let figures data :=
    calculate_cost_and_latency_metrics data Evaluation.inference_model aws_region in
  let loaded_responses := [(kb_fixed, data_fixed); (kb_semantic, data_semantic)] in
  let final_evaluation : gmap pystr (gmap pystr pyval) :=
    <[kb_semantic := record_semantic]> {[kb_fixed := record_fixed]} in
  let merge model :=
    Evaluation.merge_pass aws_region calculate_cost_and_latency_metrics model
      loaded_responses final_evaluation in
  (∃ merged_fixed,
     merge (Some kb_fixed) = (<[kb_fixed := merged_fixed]> final_evaluation, Ok tt) ∧
     (∀ k v, figures data_semantic !! k = Some v → merged_fixed !! k = Some v) ∧
     (merge (Some kb_fixed)).1 !! kb_semantic = Some record_semantic) ∧
  merge None = (final_evaluation, Raise (NameError (lit "model"))).
Proof.
  cbv zeta. split; [|reflexivity].
  assert (Hne : kb_semantic ≠ kb_fixed) by discriminate.
  set (fe := <[kb_semantic := record_semantic]> {[kb_fixed := record_fixed]}
          : gmap pystr (gmap pystr pyval)).
  assert (Hfixed : fe !! kb_fixed = Some record_fixed).
  { unfold fe. by rewrite lookup_insert_ne, lookup_singleton_eq. }
  assert (Hsem : fe !! kb_semantic = Some record_semantic).
  { unfold fe. by rewrite lookup_insert_eq. }
  set (r1 := Evaluation.merged record_fixed (Evaluation.merged record_fixed
               (calculate_cost_and_latency_metrics data_fixed
                  Evaluation.inference_model aws_region))).
  set (r2 := Evaluation.merged r1 (Evaluation.merged r1
               (calculate_cost_and_latency_metrics data_semantic
                  Evaluation.inference_model aws_region))).
  assert (Hrun :
    Evaluation.merge_pass aws_region calculate_cost_and_latency_metrics (Some kb_fixed)
      [(kb_fixed, data_fixed); (kb_semantic, data_semantic)] fe
    = (<[kb_fixed := r2]> fe, Ok tt)).
  { unfold Evaluation.merge_pass.
    change (dict_keys _) with [kb_fixed; kb_semantic].
    cbn [Evaluation.merge_loop]. unfold bind at 1.
    rewrite (merge_step_bound _ _ kb_fixed _ kb_fixed data_fixed fe record_fixed)
      by (reflexivity || done).
    cbv zeta. rewrite Hfixed, bool_decide_eq_true_2 by eauto.
    unfold bind at 1.
    rewrite (merge_step_bound _ _ kb_fixed _ kb_semantic data_semantic _ r1);
      [|reflexivity|by rewrite lookup_insert_eq].
    cbv zeta. rewrite lookup_insert_ne, Hsem, bool_decide_eq_true_2 by eauto.
    by rewrite insert_insert_eq. }
  rewrite Hrun. exists r2. split; [done|]. split.
  - intros k v Hk. unfold r2, Evaluation.merged.
    by apply lookup_union_Some_l, lookup_union_Some_l.
  - simpl. by rewrite lookup_insert_ne.
Qed.

(** * Further properties of the notebooks *)

(** ** Lab 2: [generate_response] *)

(** X1: once the runtime client exists, [generate_response] calls the endpoint
    exactly once, and whatever fails from there on (the call, the parsing of
    the body, the resolver) surfaces as a RuntimeError whose message is
    "Generation failed: " followed by the message of that cause: of the
    endpoint's error, of the error of [json.loads], or of the error of the
    resolver, be it the IndexError of an empty list, the KeyError of a first
    element without 'generated_text' or the RuntimeError the function raises
    itself for an unrecognised shape, which the same [except] clause
    catches. *)
Theorem generate_response_wraps_failures {World} (ENDPOINT_NAME : pyval)
    (sagemaker_client : World → World * result ())
    (invoke_endpoint : pyval → World → World * result pystr)
    (json_loads : pystr → result pyval)
    (prompt : pyval) (s : SageMakerRag.state World) :
  (sagemaker_client (SageMakerRag.world s)).2 = Ok tt →
  let run :=
    SageMakerRag.generate_response ENDPOINT_NAME sagemaker_client invoke_endpoint
      json_loads prompt s in
  let kwargs := SageMakerRag.invoke_request ENDPOINT_NAME prompt in
  let answer := invoke_endpoint kwargs (sagemaker_client (SageMakerRag.world s)).1 in
  let failed cause := Raise (RuntimeError (lit "Generation failed: " ++ exn_str cause)) in
  SageMakerRag.calls run.1 =
    SageMakerRag.calls s ++ [SageMakerRag.SageMakerClient; SageMakerRag.InvokeEndpoint kwargs] ∧
  SageMakerRag.world run.1 = answer.1 ∧
  run.2 =
    match answer.2 with
    | Raise cause => failed cause
    | Ok body =>
        match json_loads body with
        | Raise cause => failed cause
        | Ok parsed =>
            match SageMakerRag.resolve_generated_text parsed with
            | Ok text => Ok text
            | Raise cause => failed cause
            end
        end
    end ∧
  (∀ e, run.2 = Raise e → exn_class e = lit "RuntimeError") ∧
  (∀ body, answer.2 = Ok body → json_loads body = Ok (PyList []) →
     run.2 = Raise (RuntimeError (lit "Generation failed: list index out of range"))) ∧
  (∀ body d rest, answer.2 = Ok body → json_loads body = Ok (PyList (PyDict d :: rest)) →
     dict_get (lit "generated_text") d = None →
     run.2 = Raise (RuntimeError (lit "Generation failed: 'generated_text'"))) ∧
  (∀ body d, answer.2 = Ok body → json_loads body = Ok (PyDict d) →
     dict_get (lit "generated_text") d = None → dict_get (lit "generation") d = None →
     run.2 = Raise (RuntimeError (lit "Generation failed: Unexpected response format"))).
Proof.
  intros Hclient. cbv zeta. rewrite generate_response_run. cbv zeta.
  destruct (sagemaker_client _) as [w1 c]. simpl in *. subst c.
  destruct (invoke_endpoint _ w1) as [w2 r]. simpl.
  split; [done|]. split; [done|].
  assert (Hrun :
    match result_bind (result_bind r json_loads) SageMakerRag.resolve_generated_text with
    | Ok text => Ok text
    | Raise e => Raise (SageMakerRag.generation_failed e)
    end =
    match r with
    | Raise cause => Raise (RuntimeError (lit "Generation failed: " ++ exn_str cause))
    | Ok body =>
        match json_loads body with
        | Raise cause => Raise (RuntimeError (lit "Generation failed: " ++ exn_str cause))
        | Ok parsed =>
            match SageMakerRag.resolve_generated_text parsed with
            | Ok text => Ok text
            | Raise cause => Raise (RuntimeError (lit "Generation failed: " ++ exn_str cause))
            end
        end
    end).
  { destruct r as [body|cause]; [|done]. cbn [result_bind].
    destruct (json_loads body) as [parsed|cause]; [|done]. cbn [result_bind].
    by destruct (SageMakerRag.resolve_generated_text parsed). }
  rewrite Hrun. clear Hrun. split; [done|]. split; [|split; [|split]].
  - intros e He. destruct r as [body|cause]; [|by injection He as <-].
    destruct (json_loads body) as [parsed|cause]; [|by injection He as <-].
    destruct (SageMakerRag.resolve_generated_text parsed) as [text|cause]; [done|].
    by injection He as <-.
  - by intros body -> ->.
  - intros body d rest -> -> Hgt. cbn [SageMakerRag.resolve_generated_text list_first result_bind].
    unfold getitem_str. by rewrite Hgt.
  - intros body d -> -> Hgt Hgen.
    by rewrite ResolverFacts.resolve_dict, Hgt, Hgen.
Qed.

(** The endpoint answers [{}]: the caller sees the wrapped message. *)
Lemma generate_response_wraps_failures_witness :
  (SageMakerRag.generate_response PyNone SageMakerSample.client_ok
     (SageMakerSample.endpoint_body (lit "{}"))
     (SageMakerSample.loads_as (lit "{}") (PyDict []))
     (PyStr (lit "hello")) SageMakerSample.start).2
  = Raise (RuntimeError (lit "Generation failed: Unexpected response format")).
Proof.
  refine (proj2 (proj2 (proj2 (proj2 (proj2 (proj2
    (generate_response_wraps_failures PyNone SageMakerSample.client_ok
       (SageMakerSample.endpoint_body (lit "{}"))
       (SageMakerSample.loads_as (lit "{}") (PyDict []))
       (PyStr (lit "hello")) SageMakerSample.start eq_refl)))))) (lit "{}") [] _ _ _ _);
    reflexivity.
Defined.

(** X2: the runtime client is created outside the [try]: when its creation
    fails, the error reaches the caller as it is, not as a RuntimeError, and
    the endpoint is never called. *)
Theorem generate_response_client_failure {World} (ENDPOINT_NAME : pyval)
    (sagemaker_client : World → World * result ())
    (invoke_endpoint : pyval → World → World * result pystr)
    (json_loads : pystr → result pyval)
    (prompt : pyval) (s : SageMakerRag.state World) (e : exn) :
  (sagemaker_client (SageMakerRag.world s)).2 = Raise e →
  let run :=
    SageMakerRag.generate_response ENDPOINT_NAME sagemaker_client invoke_endpoint
      json_loads prompt s in
  run.2 = Raise e ∧
  SageMakerRag.calls run.1 = SageMakerRag.calls s ++ [SageMakerRag.SageMakerClient] ∧
  SageMakerRag.world run.1 = (sagemaker_client (SageMakerRag.world s)).1.
Proof.
  intros Hclient. cbv zeta. rewrite generate_response_run. cbv zeta.
  destruct (sagemaker_client _) as [w1 c]. simpl in *. by subst c.
Qed.

Lemma generate_response_client_failure_witness :
  exn_class <$> (match (SageMakerRag.generate_response PyNone SageMakerSample.client_down
                          (SageMakerSample.endpoint_body (lit "{}"))
                          (SageMakerSample.loads_as (lit "{}") (PyDict []))
                          (PyStr (lit "hello")) SageMakerSample.start).2 with
                 | Raise e => Some e
                 | Ok _ => None
                 end) = Some (lit "NoRegionError").
Proof.
  rewrite (proj1 (generate_response_client_failure PyNone SageMakerSample.client_down
             (SageMakerSample.endpoint_body (lit "{}"))
             (SageMakerSample.loads_as (lit "{}") (PyDict []))
             (PyStr (lit "hello")) SageMakerSample.start _ eq_refl)).
  reflexivity.
Defined.

(** ** Lab 2: the body of the endpoint request *)

Module JsonAsciiFacts.
Import Json JsonText.

Lemma escape_char_ascii c : ascii_only (escape_char true c).
Proof.
  unfold escape_char, escape_dct.
  repeat (case_bool_decide; [by repeat constructor|]).
  destruct (c <? 32)%N eqn:Hlow; [apply JsonFacts.u_escape_ascii|].
  cbn [andb]. destruct (126 <? c)%N eqn:Hhigh.
  - destruct (c <? 65536)%N; [apply JsonFacts.u_escape_ascii|].
    apply JsonFacts.ascii_only_app; apply JsonFacts.u_escape_ascii.
  - apply N.ltb_ge in Hhigh. constructor; [lia|constructor].
Qed.

Lemma encode_basestring_ascii s : ascii_only (encode_basestring true s).
Proof.
  unfold encode_basestring. apply JsonFacts.ascii_only_app; [by repeat constructor|].
  apply JsonFacts.ascii_only_app; [|by repeat constructor].
  induction s as [|c s IH]; [constructor|]. csimpl.
  apply JsonFacts.ascii_only_app; [apply escape_char_ascii|exact IH].
Qed.
End JsonAsciiFacts.

(** X3: the body [generate_response] sends is the default [json.dumps] of the
    payload: the prompt between the fixed keys and generation parameters, and
    pure ASCII whatever the prompt is: a character outside ASCII is sent as
    its escape. *)
Theorem invoke_request_body_is_ascii (ENDPOINT_NAME : pyval) (prompt : pystr) :
  let body :=
    [123%N; dquote] ++ lit "inputs" ++ [dquote] ++ lit ": " ++
    Json.encode_basestring true prompt ++ lit ", " ++
    [dquote] ++ lit "parameters" ++ [dquote] ++ lit ": {" ++
    [dquote] ++ lit "temperature" ++ [dquote] ++ lit ": 0, " ++
    [dquote] ++ lit "top_k" ++ [dquote] ++ lit ": 10, " ++
    [dquote] ++ lit "max_new_tokens" ++ [dquote] ++ lit ": 5000, " ++
    [dquote] ++ lit "stop" ++ [dquote] ++ lit ": " ++
    [dquote] ++ lit "<|eot_id|>" ++ [dquote] ++ lit "}}" in
  getitem_str (SageMakerRag.invoke_request ENDPOINT_NAME (PyStr prompt)) (lit "Body")
    = Ok (PyStr body) ∧
  JsonText.ascii_only body ∧
  filter JsonText.non_ascii body = [].
Proof.
  cbv zeta. split; [|split].
  - unfold SageMakerRag.invoke_request. cbv zeta.
    change (getitem_str _ _) with
      (Ok (A:=pyval) (PyStr (Json.dumps None true
         (PyDict [(lit "inputs", PyStr prompt);
                  (lit "parameters", SageMakerRag.generation_configuration)])))).
    do 2 f_equal. unfold Json.dumps.
    change (Json.iterencode None true (PyDict _) 0) with
      (lit "{" ++ ((Json.encode_basestring true (lit "inputs") ++ lit ": " ++
                    Json.encode_basestring true prompt) ++ lit ", " ++
       (Json.encode_basestring true (lit "parameters") ++ lit ": " ++
        Json.iterencode None true SageMakerRag.generation_configuration 1)) ++ lit "}").
    flatten_app. reflexivity.
  - repeat (apply JsonFacts.ascii_only_app;
            [first [apply JsonAsciiFacts.encode_basestring_ascii|by repeat constructor]|]).
    by repeat constructor.
  - apply JsonFacts.filter_ascii_only.
    repeat (apply JsonFacts.ascii_only_app;
            [first [apply JsonAsciiFacts.encode_basestring_ascii|by repeat constructor]|]).
    by repeat constructor.
Qed.

(** ** Lab 2: [retrieve_from_bedrock] *)

Lemma result_mapM_Ok {A B} (f : A → result B) (l : list A) (bs : list B) :
  result_mapM f l = Ok bs ↔ Forall2 (λ a b, f a = Ok b) l bs.
Proof.
  revert bs. induction l as [|a l IH]; intros bs; simpl.
  - split; [intros [= <-]; constructor|by inversion 1].
  - destruct (f a) as [b|e] eqn:Hfa; simpl.
    + destruct (result_mapM f l) as [bs'|e] eqn:Hl; simpl.
      * split.
        -- intros [= <-]. constructor; [done|]. by apply IH.
        -- inversion 1 as [|? b' ? bs'' Hb Hbs]; subst.
           apply IH in Hbs. congruence.
      * split; [done|]. inversion 1 as [|? b' ? bs'' Hb Hbs]; subst.
        apply IH in Hbs. congruence.
    + split; [done|]. inversion 1; congruence.
Qed.

Lemma result_mapM_Raise {A B} (f : A → result B) (l : list A) (e : exn) :
  result_mapM f l = Raise e → ∃ a, a ∈ l ∧ f a = Raise e.
Proof.
  induction l as [|a l IH]; simpl; [done|].
  destruct (f a) as [b|e'] eqn:Hfa; simpl.
  - destruct (result_mapM f l) as [bs'|e'']; simpl; [done|].
    intros [= ->]. destruct IH as (a' & Hin & Ha'); [done|].
    exists a'. split; [by right|done].
  - intros [= ->]. exists a. split; [left|done].
Qed.

Lemma item_text_path (item : pyval) :
  (let? content := getitem_str item (lit "content") in
   getitem_str content (lit "text")) =
  getitem_path item [lit "content"; lit "text"].
Proof.
  simpl. destruct (getitem_str item _) as [content|e]; [|done]. simpl.
  by destruct (getitem_str content _).
Qed.

Lemma context_texts_Ok (response out : pyval) :
  SageMakerRag.context_texts response = Ok out ↔
  ∃ results items texts,
    getitem_str response (lit "retrievalResults") = Ok results ∧
    iter_items results = Ok items ∧
    Forall2 (λ item text, getitem_path item [lit "content"; lit "text"] = Ok text)
      items texts ∧
    out = PyList texts.
Proof.
  unfold SageMakerRag.context_texts. split.
  - destruct (getitem_str response _) as [results|e] eqn:Hr; [|done]. cbn [result_bind].
    destruct (iter_items results) as [items|e] eqn:Hi; [|done]. cbn [result_bind].
    destruct (result_mapM _ items) as [texts|e] eqn:Hm; [|done]. cbn [result_bind].
    intros [= <-]. exists results, items, texts.
    split; [done|]. split; [done|]. split; [|done].
    apply result_mapM_Ok in Hm. eapply Forall2_impl; [exact Hm|].
    intros item text H. by rewrite <- item_text_path.
  - intros (results & items & texts & Hr & Hi & H & ->).
    rewrite Hr. cbn [result_bind]. rewrite Hi. cbn [result_bind].
    assert (result_mapM (λ item, let? content := getitem_str item (lit "content") in
                                 getitem_str content (lit "text")) items = Ok texts) as ->.
    { apply result_mapM_Ok. eapply Forall2_impl; [exact H|].
      intros item text Hit. by rewrite item_text_path. }
    done.
Qed.

(** X4: [retrieve_from_bedrock] returns normally exactly when the service
    answers and every retrieval result of the response carries a content
    text; it then returns these texts, one per result, in the order of the
    results.  A response with one result that lacks its text gives no
    shorter list: the call raises. *)
Theorem retrieve_from_bedrock_returns_texts {World} (KNOWLEDGE_BASE_ID : pyval)
    (retrieve : pyval → World → World * result pyval)
    (query out : pyval) (s : SageMakerRag.state World) :
  let run := SageMakerRag.retrieve_from_bedrock KNOWLEDGE_BASE_ID retrieve query s in
  let answer :=
    retrieve (SageMakerRag.retrieve_request KNOWLEDGE_BASE_ID query) (SageMakerRag.world s) in
  run.2 = Ok out ↔
  ∃ response results items texts,
    answer.2 = Ok response ∧
    getitem_str response (lit "retrievalResults") = Ok results ∧
    iter_items results = Ok items ∧
    Forall2 (λ item text, getitem_path item [lit "content"; lit "text"] = Ok text)
      items texts ∧
    length texts = length items ∧
    out = PyList texts.
Proof.
  cbv zeta. rewrite retrieve_from_bedrock_run. cbv zeta.
  destruct (retrieve _ _) as [w' [response|e]]; simpl.
  - destruct (SageMakerRag.context_texts response) as [texts|e] eqn:Hc.
    + split.
      * intros [= <-]. apply context_texts_Ok in Hc as (results & items & ts & ? & ? & H & ->).
        exists response, results, items, ts. repeat split; try done.
        symmetry. by eapply Forall2_length.
      * intros (? & results & items & ts & [= <-] & ? & ? & H & _ & ->).
        assert (SageMakerRag.context_texts response = Ok (PyList ts)) as Hc'
          by (apply context_texts_Ok; eauto 10).
        congruence.
    + split; [done|]. intros (? & results & items & ts & [= <-] & ? & ? & H & _ & ->).
      assert (SageMakerRag.context_texts response = Ok (PyList ts)) as Hc'
        by (apply context_texts_Ok; eauto 10).
      congruence.
  - split; [done|]. by intros (? & ? & ? & ? & [=] & _).
Qed.

Lemma result_mapM_first_failure {A B} (f : A → result B) (before : list A) (a : A)
    (after : list A) (e : exn) :
  Forall (λ x, ∃ b, f x = Ok b) before → f a = Raise e →
  result_mapM f (before ++ a :: after) = Raise e.
Proof.
  intros Hbefore Ha. induction Hbefore as [|x before [b Hx] _ IH]; simpl.
  - by rewrite Ha.
  - by rewrite Hx, IH.
Qed.

(** X5: every Exception raised inside [retrieve_from_bedrock], by the
    [retrieve] call or by the extraction of the texts, reaches the caller as a
    RuntimeError whose message is "Bedrock retrieval failed: " followed by the
    message of that cause, and the function raises nothing else.  In the
    extraction the first result that fails decides: a response without
    'retrievalResults' gives "Bedrock retrieval failed: 'retrievalResults'", and
    a result without 'content', after results that have their text, gives
    "Bedrock retrieval failed: 'content'". *)
Theorem retrieve_from_bedrock_failures {World} (KNOWLEDGE_BASE_ID : pyval)
    (retrieve : pyval → World → World * result pyval)
    (query : pyval) (s : SageMakerRag.state World) :
  let run := SageMakerRag.retrieve_from_bedrock KNOWLEDGE_BASE_ID retrieve query s in
  let answer :=
    retrieve (SageMakerRag.retrieve_request KNOWLEDGE_BASE_ID query) (SageMakerRag.world s) in
  let failed cause :=
    Raise (RuntimeError (lit "Bedrock retrieval failed: " ++ exn_str cause)) in
  let has_text item := ∃ text, getitem_path item [lit "content"; lit "text"] = Ok text in
  (∀ cause, answer.2 = Raise cause → run.2 = failed cause) ∧
  (∀ response cause, answer.2 = Ok response →
        SageMakerRag.context_texts response = Raise cause → run.2 = failed cause) ∧
  (∀ e, run.2 = Raise e →
        ∃ cause, Raise e = failed cause ∧
          (answer.2 = Raise cause ∨
           ∃ response, answer.2 = Ok response ∧
                       SageMakerRag.context_texts response = Raise cause)) ∧
  (∀ d, answer.2 = Ok (PyDict d) → dict_get (lit "retrievalResults") d = None →
        run.2 = Raise (RuntimeError (lit "Bedrock retrieval failed: 'retrievalResults'"))) ∧
  (∀ d before item after cause,
        answer.2 = Ok (PyDict d) →
        dict_get (lit "retrievalResults") d = Some (PyList (before ++ item :: after)) →
        Forall has_text before →
        getitem_path item [lit "content"; lit "text"] = Raise cause →
        run.2 = failed cause) ∧
  (∀ d before first after,
        answer.2 = Ok (PyDict d) →
        dict_get (lit "retrievalResults") d =
          Some (PyList (before ++ PyDict first :: after)) →
        Forall has_text before →
        dict_get (lit "content") first = None →
        run.2 = Raise (RuntimeError (lit "Bedrock retrieval failed: 'content'"))).
Proof.
  cbv zeta. rewrite retrieve_from_bedrock_run. cbv zeta.
  destruct (retrieve _ _) as [w' r]. simpl.
  assert (Hitem : ∀ d before item after cause,
    dict_get (lit "retrievalResults") d = Some (PyList (before ++ item :: after)) →
    Forall (λ item, ∃ text, getitem_path item [lit "content"; lit "text"] = Ok text) before →
    getitem_path item [lit "content"; lit "text"] = Raise cause →
    SageMakerRag.context_texts (PyDict d) = Raise cause).
  { intros d before item after cause Hd Hbefore Hitem.
    unfold SageMakerRag.context_texts. simpl getitem_str. rewrite Hd. cbn [result_bind iter_items].
    rewrite (result_mapM_first_failure _ before item after cause); [done| |].
    - eapply Forall_impl; [exact Hbefore|]. intros x [text Hx]. exists text.
      by rewrite item_text_path.
    - by rewrite item_text_path. }
  split; [by intros cause ->|]. split; [by intros response cause -> ->|].
  split; [|split; [|split]].
  - intros e He. destruct r as [response|cause].
    + destruct (SageMakerRag.context_texts response) as [texts|cause] eqn:Hc; [done|].
      exists cause. split; [done|]. right. by exists response.
    + exists cause. split; [done|]. by left.
  - intros d -> Hd. unfold SageMakerRag.context_texts. simpl. by rewrite Hd.
  - intros d before item after cause -> Hd Hbefore Hcause.
    by rewrite (Hitem d before item after cause).
  - intros d before first after -> Hd Hbefore Hc.
    rewrite (Hitem d before (PyDict first) after (KeyError (lit "content"))); [done..|].
    simpl. by rewrite Hc.
Qed.

(** ** Lab 2, cell 5: retrieval, prompt and generation together *)

Section PipelineFacts.
Context {World : Type}.
Context (KNOWLEDGE_BASE_ID ENDPOINT_NAME : pyval)
        (retrieve : pyval → World → World * result pyval)
        (sagemaker_client : World → World * result ())
        (invoke_endpoint : pyval → World → World * result pystr)
        (json_loads : pystr → result pyval).

Local Abbreviation answer :=
  (SageMakerPipeline.answer KNOWLEDGE_BASE_ID ENDPOINT_NAME retrieve sagemaker_client
     invoke_endpoint json_loads).
Local Abbreviation retrieve_from_bedrock :=
  (SageMakerRag.retrieve_from_bedrock KNOWLEDGE_BASE_ID retrieve).
Local Abbreviation generate_response :=
  (SageMakerRag.generate_response ENDPOINT_NAME sagemaker_client invoke_endpoint json_loads).

Lemma answer_run (query : pystr) (s : SageMakerRag.state World) :
  answer query s =
  match retrieve_from_bedrock (PyStr query) s with
  | (s1, Raise e) => (s1, Raise e)
  | (s1, Ok context) =>
      match SageMakerPipeline.format_prompt_value query context with
      | Raise e => (s1, Raise e)
      | Ok prompt => generate_response (PyStr prompt) s1
      end
  end.
Proof.
  unfold SageMakerPipeline.answer. unfold bind at 1.
  destruct (retrieve_from_bedrock _ s) as [s1 [context|e]]; [|done].
  rewrite bind_lift.
  destruct (SageMakerPipeline.format_prompt_value query context); [|done].
  by rewrite bind_ret_r.
Qed.

Lemma expect_strs_texts (index : nat) (texts : list pystr) :
  SageMakerPipeline.expect_strs index (PyStr <$> texts) = Ok texts.
Proof.
  revert index. induction texts as [|t texts IH]; intros index; [done|].
  csimpl. by rewrite IH.
Qed.

Lemma expect_strs_not_text (index : nat) (items : list pyval) :
  (∃ item, item ∈ items ∧ ∀ t, item ≠ PyStr t) →
  ∃ e, SageMakerPipeline.expect_strs index items = Raise e ∧
       exn_class e = lit "TypeError".
Proof.
  revert index. induction items as [|item items IH]; intros index (bad & Hin & Hbad).
  - by apply elem_of_nil in Hin.
  - destruct item as [| | | |t| |]; try (eexists; split; reflexivity).
    apply elem_of_cons in Hin as [->|Hin]; [by destruct (Hbad t)|].
    destruct (IH (S index)) as (e & He & Hc); [by exists bad|].
    exists e. simpl. by rewrite He.
Qed.

(** X6: when the retrieval fails, the cell stops there: the caller sees the
    retrieval's RuntimeError, one request was made, and neither the SageMaker
    client is created nor the endpoint called. *)
Theorem answer_stops_at_failed_retrieval (query : pystr) (s : SageMakerRag.state World)
    (e : exn) :
  (retrieve (SageMakerRag.retrieve_request KNOWLEDGE_BASE_ID (PyStr query))
     (SageMakerRag.world s)).2 = Raise e →
  let run := answer query s in
  run.2 = Raise (RuntimeError (lit "Bedrock retrieval failed: " ++ exn_str e)) ∧
  SageMakerRag.calls run.1 =
    SageMakerRag.calls s ++
    [SageMakerRag.Retrieve (SageMakerRag.retrieve_request KNOWLEDGE_BASE_ID (PyStr query))].
Proof.
  intros Hfail. cbv zeta. rewrite answer_run, retrieve_from_bedrock_run. cbv zeta.
  destruct (retrieve _ _) as [w' r]. simpl in *. by subst r.
Qed.

(** X7: when the retrieval returns texts, the prompt sent to the endpoint is
    [format_prompt] of the query and exactly these texts, and the calls are,
    in this order, the retrieval, the creation of the client and the endpoint
    invocation; the answer is what [generate_response] gives for that
    prompt. *)
Theorem answer_sends_formatted_prompt (query : pystr) (texts : list pystr)
    (s : SageMakerRag.state World) :
  (retrieve_from_bedrock (PyStr query) s).2 = Ok (PyList (PyStr <$> texts)) →
  let retrieved := (retrieve_from_bedrock (PyStr query) s).1 in
  (sagemaker_client (SageMakerRag.world retrieved)).2 = Ok tt →
  let run := answer query s in
  let prompt := PyStr (SageMakerRag.format_prompt query texts) in
  run = generate_response prompt retrieved ∧
  SageMakerRag.calls run.1 =
    SageMakerRag.calls s ++
    [SageMakerRag.Retrieve (SageMakerRag.retrieve_request KNOWLEDGE_BASE_ID (PyStr query));
     SageMakerRag.SageMakerClient;
     SageMakerRag.InvokeEndpoint (SageMakerRag.invoke_request ENDPOINT_NAME prompt)].
Proof.
  intros Hret retrieved Hclient. cbv zeta. rewrite answer_run.
  pose proof (retrieve_from_bedrock_run KNOWLEDGE_BASE_ID retrieve (PyStr query) s) as Hrun.
  cbv zeta in Hrun. subst retrieved.
  destruct (retrieve_from_bedrock (PyStr query) s) as [s1 r]. simpl in *. subst r.
  unfold SageMakerPipeline.format_prompt_value. simpl.
  rewrite expect_strs_texts. simpl. split; [done|].
  rewrite generate_response_run. cbv zeta.
  destruct (sagemaker_client _) as [w1 c]. simpl in *. subst c.
  destruct (invoke_endpoint _ w1) as [w2 r2]. simpl.
  destruct (retrieve _ _) as [w' r']. injection Hrun as -> _. simpl.
  by rewrite <- app_assoc.
Qed.

(** X8: [format_prompt] joins the context outside any [try]: when a retrieved
    chunk is not a text, the cell raises the TypeError of the join as it is, and
    SageMaker is never reached. *)
Theorem answer_rejects_non_text_chunk (query : pystr) (items : list pyval)
    (s : SageMakerRag.state World) :
  (retrieve_from_bedrock (PyStr query) s).2 = Ok (PyList items) →
  (∃ item, item ∈ items ∧ ∀ t, item ≠ PyStr t) →
  let run := answer query s in
  (∃ e, run.2 = Raise e ∧ exn_class e = lit "TypeError") ∧
  SageMakerRag.calls run.1 =
    SageMakerRag.calls s ++
    [SageMakerRag.Retrieve (SageMakerRag.retrieve_request KNOWLEDGE_BASE_ID (PyStr query))].
Proof.
  intros Hret Hbad. cbv zeta. rewrite answer_run.
  pose proof (retrieve_from_bedrock_run KNOWLEDGE_BASE_ID retrieve (PyStr query) s) as Hrun.
  cbv zeta in Hrun.
  destruct (retrieve_from_bedrock (PyStr query) s) as [s1 r]. simpl in *. subst r.
  unfold SageMakerPipeline.format_prompt_value. simpl.
  destruct (expect_strs_not_text 0 items Hbad) as (e & -> & Hc). simpl.
  split; [by exists e|].
  destruct (retrieve _ _) as [w' r']. by injection Hrun as -> _.
Qed.
End PipelineFacts.

Lemma answer_stops_at_failed_retrieval_witness :
  let run := SageMakerPipeline.answer (PyStr (lit "KB1")) (PyStr (lit "llama"))
               throttled_service SageMakerSample.client_ok
               (SageMakerSample.endpoint_body (lit "[]")) (SageMakerSample.loads_as (lit "[]") (PyList []))
               (lit "q") SageMakerSample.start in
  (∃ e, exn_class e = lit "RuntimeError" ∧ run.2 = Raise e) ∧
  length (SageMakerRag.calls run.1) = 1.
Proof.
  destruct (throttled_service
              (SageMakerRag.retrieve_request (PyStr (lit "KB1")) (PyStr (lit "q"))) tt).2
    as [v|e] eqn:Hservice; [discriminate Hservice|].
  pose proof (answer_stops_at_failed_retrieval (PyStr (lit "KB1")) (PyStr (lit "llama"))
                throttled_service SageMakerSample.client_ok
                (SageMakerSample.endpoint_body (lit "[]"))
                (SageMakerSample.loads_as (lit "[]") (PyList []))
                (lit "q") SageMakerSample.start e Hservice) as [Hraise Hcalls].
  cbv zeta. split.
  - eexists. split; [|exact Hraise]. reflexivity.
  - rewrite Hcalls. reflexivity.
Defined.

Lemma answer_sends_formatted_prompt_witness :
  let generated := PyList [PyDict [(lit "generated_text", PyStr (lit "12%"))]] in
  let run := SageMakerPipeline.answer (PyStr (lit "KB1")) (PyStr (lit "llama"))
               one_chunk_service SageMakerSample.client_ok
               (SageMakerSample.endpoint_body (lit "[..]"))
               (SageMakerSample.loads_as (lit "[..]") generated)
               (lit "q") SageMakerSample.start in
  run.2 = Ok (PyStr (lit "12%")) ∧ length (SageMakerRag.calls run.1) = 3.
Proof.
  pose proof (answer_sends_formatted_prompt (PyStr (lit "KB1")) (PyStr (lit "llama"))
                one_chunk_service SageMakerSample.client_ok
                (SageMakerSample.endpoint_body (lit "[..]"))
                (SageMakerSample.loads_as (lit "[..]")
                   (PyList [PyDict [(lit "generated_text", PyStr (lit "12%"))]]))
                (lit "q") [lit "chunk"] SageMakerSample.start eq_refl eq_refl) as [Hrun Hcalls].
  cbv zeta in *. split.
  - rewrite Hrun. reflexivity.
  - rewrite Hcalls. reflexivity.
Defined.

Lemma answer_rejects_non_text_chunk_witness :
  let run := SageMakerPipeline.answer (PyStr (lit "KB1")) (PyStr (lit "llama"))
               SageMakerSample.number_chunk_service SageMakerSample.client_ok
               (SageMakerSample.endpoint_body (lit "[]"))
               (SageMakerSample.loads_as (lit "[]") (PyList []))
               (lit "q") SageMakerSample.start in
  (∃ e, run.2 = Raise e ∧ exn_class e = lit "TypeError") ∧
  length (SageMakerRag.calls run.1) = 1.
Proof.
  assert (∃ item, item ∈ [PyInt 7] ∧ ∀ t, item ≠ PyStr t) as Hbad.
  { exists (PyInt 7). split; [constructor|discriminate]. }
  pose proof (answer_rejects_non_text_chunk (PyStr (lit "KB1")) (PyStr (lit "llama"))
                SageMakerSample.number_chunk_service SageMakerSample.client_ok
                (SageMakerSample.endpoint_body (lit "[]"))
                (SageMakerSample.loads_as (lit "[]") (PyList []))
                (lit "q") [PyInt 7] SageMakerSample.start eq_refl Hbad) as [Hraise Hcalls].
  cbv zeta in *. split; [exact Hraise|]. rewrite Hcalls. reflexivity.
Defined.

(** ** Lab 2: what the prompt holds *)

Lemma starts_with_app (p s : pystr) : starts_with p (p ++ s) = true.
Proof. induction p as [|c p IH]; [done|]. simpl. by rewrite bool_decide_eq_true_2, IH. Qed.

Lemma has_substring_app (a p b : pystr) : has_substring p (a ++ p ++ b) = true.
Proof.
  induction a as [|c a IH].
  - destruct (p ++ b) eqn:E; simpl; rewrite <- ?E, starts_with_app; done.
  - simpl. rewrite IH. apply orb_true_r.
Qed.

Lemma str_join_elem (sep : pystr) (parts : list pystr) (chunk : pystr) :
  chunk ∈ parts → ∃ a b, str_join sep parts = a ++ chunk ++ b.
Proof.
  induction parts as [|p parts IH]; intros Hin; [by apply elem_of_nil in Hin|].
  apply elem_of_cons in Hin as [->|Hin].
  - destruct parts as [|p' parts].
    + exists [], []. simpl. by rewrite app_nil_r.
    + exists [], (sep ++ str_join sep (p' :: parts)). reflexivity.
  - destruct (IH Hin) as (a & b & Hj). destruct parts as [|p' parts].
    + by apply elem_of_nil in Hin.
    + exists (p ++ sep ++ a), b.
      change (str_join sep (p :: p' :: parts)) with (p ++ sep ++ str_join sep (p' :: parts)).
      rewrite Hj. by rewrite <- !app_assoc.
Qed.

(** X9: [format_prompt] strips the frame of the template only.  Whatever the
    query and the chunks are (empty, or with white space at either end), the
    prompt starts with the begin-of-text token and ends with the header of the
    assistant turn, it holds the query as it is on the [Question:] line and
    every chunk of the context as it is, and its length is that of the empty
    prompt plus those of the joined context and of the query. *)
Theorem format_prompt_embeds_query_and_context (query : pystr) (context : list pystr) :
  let prompt := SageMakerRag.format_prompt query context in
  starts_with (lit "<|begin_of_text|>") prompt = true ∧
  (∃ before, prompt = before ++ lit "<|start_header_id|>assistant<|end_header_id|>") ∧
  has_substring (lit "Question: " ++ query ++ [newline]) prompt = true ∧
  (∀ chunk, chunk ∈ context → has_substring chunk prompt = true) ∧
  length prompt =
    (length (SageMakerRag.format_prompt [] []) +
     length (str_join (lit " ") context) + length query)%nat.
Proof.
  cbv zeta. rewrite !PromptFacts.format_prompt_closed.
  set (j := str_join (lit " ") context).
  split; [|split; [|split; [|split]]].
  - unfold PromptText.prompt_head. flatten_app. apply starts_with_app.
  - exists (PromptText.prompt_head ++ j ++ PromptText.prompt_middle ++ query ++
            [newline] ++ lit "        ").
    unfold PromptText.prompt_tail.
    change (lit "        <|start_header_id|>assistant<|end_header_id|>")
      with (lit "        " ++ lit "<|start_header_id|>assistant<|end_header_id|>").
    by flatten_app.
  - unfold PromptText.prompt_middle, PromptText.prompt_tail.
    change (lit "        Question: ") with (lit "        " ++ lit "Question: ").
    set (tail := lit "        <|start_header_id|>assistant<|end_header_id|>").
    replace (PromptText.prompt_head ++ j ++
             ([dquote] ++ [newline] ++ lit "    " ++ [newline] ++
              lit "        <|start_header_id|>user<|end_header_id|>" ++ [newline] ++
              lit "        " ++ lit "Question: ") ++ query ++ [newline] ++ tail)
      with ((PromptText.prompt_head ++ j ++
             [dquote] ++ [newline] ++ lit "    " ++ [newline] ++
             lit "        <|start_header_id|>user<|end_header_id|>" ++ [newline] ++
             lit "        ") ++ (lit "Question: " ++ query ++ [newline]) ++ tail)
      by (by flatten_app).
    apply has_substring_app.
  - intros chunk Hin. destruct (str_join_elem (lit " ") context chunk Hin) as (a & b & Hj).
    fold j in Hj. rewrite Hj.
    replace (PromptText.prompt_head ++ (a ++ chunk ++ b) ++
             PromptText.prompt_middle ++ query ++ PromptText.prompt_tail)
      with ((PromptText.prompt_head ++ a) ++ chunk ++
            (b ++ PromptText.prompt_middle ++ query ++ PromptText.prompt_tail))
      by (by rewrite <- !app_assoc).
    apply has_substring_app.
  - change (str_join (lit " ") []) with (@nil N).
    rewrite !length_app. simpl (length []). lia.
Qed.

(** ** Lab 2.3: what the guardrail arguments change *)

(** X10: the guardrail arguments decide the [guardrailConfiguration] field of
    the generation configuration and nothing else: whenever the configuration
    is built, removing that field gives the configuration of the same call
    without guardrails. *)
Theorem guardrail_arguments_change_only_guardrail_configuration
    (kb arn mf ug gid gv : pyval) :
  let without_guardrail :=
    GuardrailsSpec.without_key [lit "generationConfiguration"] (lit "guardrailConfiguration") in
  result_map without_guardrail (Guardrails.kb_config_of kb arn mf ug gid gv) =
  if truthy ug && negb (truthy gid) then Raise GuardrailsSpec.missing_guardrail_id
  else Guardrails.kb_config_of kb arn mf (PyBool false) PyNone PyNone.
Proof.
  cbv zeta. rewrite !GuardrailsFacts.kb_config_of_closed.
  unfold GuardrailsSpec.generation_configuration, GuardrailsSpec.vector_search_configuration.
  destruct (truthy ug), (truthy gid), (truthy mf); reflexivity.
Qed.

(** ** Lab 4.3: more on the sweep and the results file *)

Section dict_update_facts.
Context {V : Type}.
Implicit Types (d kvs : list (pystr * V)) (k : pystr).

Lemma last_cons_default {A} (x : A) (l : list A) :
  last (x :: l) = Some (default x (last l)).
Proof. revert x. induction l as [|y l IH]; intros x; [done|]. by rewrite last_cons_cons, IH. Qed.

(** After [d.update(kvs)], a key holds the value of its last entry in [kvs],
    or else what it held in [d]. *)
Lemma dict_get_update d kvs k :
  dict_get k (dict_update d kvs) =
  match last (filter (λ kv, kv.1 = k) kvs) with
  | Some kv => Some kv.2
  | None => dict_get k d
  end.
Proof.
  unfold dict_update. revert d. induction kvs as [|[k' v] kvs IH]; intros d; [done|].
  simpl foldl. rewrite IH. destruct (decide (k' = k)) as [->|Hne].
  - rewrite filter_cons_True by done. rewrite last_cons_default.
    destruct (last (filter _ kvs)); simpl; [done|]. apply dict_get_set_eq.
  - rewrite filter_cons_False by done.
    destruct (last (filter _ kvs)); [done|]. by apply dict_get_set_ne.
Qed.
End dict_update_facts.

Section SweepMoreFacts.
Context {World Inferencer VectorStorage Reranker Questions : Type}.
Context (variables : list (pystr * pyval))
        (prompt bedrock_kb gt_data aws_region : pyval)
        (vector_storage : VectorStorage) (reranker : Reranker)
        (create_inferencer_provider : list pyval → World → World * result Inferencer)
        (rag_with_flotorch :
           list (pystr * pyval) → VectorStorage → Reranker → Inferencer → Questions →
           World → World * result pyval)
        (open_for_writing : pystr → World → World * result ()).

Local Abbreviation state := (@ModelSweep.state World Inferencer Questions).
Local Abbreviation sweep :=
  (ModelSweep.sweep variables prompt bedrock_kb gt_data aws_region
     vector_storage reranker create_inferencer_provider rag_with_flotorch).
Local Abbreviation sweep_then_write :=
  (ModelSweepCells.sweep_then_write variables prompt bedrock_kb gt_data aws_region
     vector_storage reranker create_inferencer_provider rag_with_flotorch open_for_writing).
Local Abbreviation write_results := (ModelSweep.write_results open_for_writing).
Local Abbreviation pass := (@pass Inferencer).
Local Abbreviation pass_ok' := (@pass_ok Inferencer variables prompt aws_region).
Local Abbreviation failed_events' :=
  (@failed_events Inferencer Questions variables prompt aws_region).

(** X11: a sweep that raises has stopped at the failing call: the helper calls
    made are those of the passes completed before, in the order of the list,
    followed by the calls of the failing pass up to the one that raised; the
    exception is the one of that lookup or call, as it is; no call is made for
    a later model. *)
Theorem sweep_failure_stops_the_loop inference_models questions (s : state) (e : exn) :
  (sweep inference_models questions s).2 = Raise e →
  let s' := (sweep inference_models questions s).1 in
  ∃ (passes : list pass) m rest tail,
    inference_models = (pass_model <$> passes) ++ m :: rest ∧
    Forall pass_ok' passes ∧
    ModelSweep.events s' =
      ModelSweep.events s ++ concat (pass_events questions <$> passes) ++ tail ∧
    failed_events' questions m e tail ∧
    length tail ≤ 2 ∧
    length (ModelSweep.events s') ≤ length (ModelSweep.events s) + 2 * length passes + 2.
Proof.
  intros Hraise. pose proof (sweep_spec variables prompt bedrock_kb gt_data aws_region
    vector_storage reranker create_inferencer_provider rag_with_flotorch
    inference_models questions s) as H.
  destruct (sweep inference_models questions s) as [s' r]. simpl in *. subst r.
  destruct H as (passes & tail & Hoks & _ & He & _ & m & rest & Hm & Hfail).
  assert (length tail ≤ 2) as Htail.
  { destruct Hfail as [[_ ->]|(args & _ & [->|[i ->]])]; simpl; lia. }
  exists passes, m, rest, tail. repeat split; try done.
  rewrite He, !length_app.
  assert (length (concat (pass_events questions <$> passes)) = 2 * length passes) as ->.
  { clear. induction passes as [|p passes IH]; [done|]. csimpl. rewrite IH. lia. }
  lia.
Qed.

(** X12: each entry of the mapping holds what the helper returned in the last
    completed pass of its model: when the list names a model twice, the later
    responses replace the earlier ones; a model with no completed pass has no
    entry.  The completed passes are those the helpers ran, one from the state
    of the world the other left, for the models of the list up to its end or
    up to the pass that raised. *)
Theorem sweep_last_pass_of_a_model_wins inference_models questions (s : state) :
  let run := sweep inference_models questions s in
  ∃ (passes : list pass) w1,
    passes_run variables prompt bedrock_kb gt_data aws_region vector_storage reranker
      create_inferencer_provider rag_with_flotorch questions (ModelSweep.world s) passes w1 ∧
    match run.2 with
    | Ok _ => pass_model <$> passes = inference_models ∧ ModelSweep.world run.1 = w1
    | Raise e =>
        ∃ m rest, inference_models = (pass_model <$> passes) ++ m :: rest ∧
          pass_fails variables prompt bedrock_kb gt_data aws_region vector_storage reranker
            create_inferencer_provider rag_with_flotorch questions w1 m e
            (ModelSweep.world run.1)
    end ∧
    ∀ m, dict_get m (ModelSweep.rag_response_dict run.1) =
         pass_responses <$> last (filter (λ p, pass_model p = m) passes).
Proof.
  cbv zeta. pose proof (sweep_run variables prompt bedrock_kb gt_data aws_region
    vector_storage reranker create_inferencer_provider rag_with_flotorch
    inference_models questions s) as H.
  destruct (sweep inference_models questions s) as [s' r]. simpl.
  destruct H as (passes & w1 & tail & Hruns & _ & He & Hd & Hr).
  exists passes, w1. split; [done|]. split.
  { destruct r as [[]|e].
    - by destruct Hr as (? & ? & _).
    - destruct Hr as (m & rest & ? & ? & _). by exists m, rest. }
  intros m. rewrite Hd, dict_get_update. clear.
  induction passes as [|p passes IH]; [done|]. csimpl.
  destruct (decide (pass_model p = m)) as [Hm|Hm].
  - rewrite !filter_cons_True by done. rewrite !last_cons_default.
    destruct (last (filter _ (pass_entry <$> passes))) as [kv|] eqn:E1;
      destruct (last (filter _ passes)) as [q|] eqn:E2; simpl in *; congruence.
  - by rewrite !filter_cons_False by done.
Qed.

(** X13: the sweep cell starts from an empty mapping and writes no file:
    what it leaves does not depend on the mapping of an earlier run, and the
    files are those of before. *)
Theorem sweep_starts_afresh inference_models questions (s : state)
    (earlier : list (pystr * pyval)) :
  let rerun :=
    sweep inference_models questions
      (ModelSweep.State (ModelSweep.world s) (ModelSweep.events s) earlier (ModelSweep.files s)) in
  let run := sweep inference_models questions s in
  rerun = run ∧
  ModelSweep.files run.1 = ModelSweep.files s ∧
  (∀ m, m ∈ dict_keys (ModelSweep.rag_response_dict run.1) → m ∈ inference_models).
Proof.
  cbv zeta. split; [reflexivity|].
  pose proof (sweep_spec variables prompt bedrock_kb gt_data aws_region
    vector_storage reranker create_inferencer_provider rag_with_flotorch
    inference_models questions s) as H.
  destruct (sweep inference_models questions s) as [s' r]. simpl.
  destruct H as (passes & tail & _ & Hf & _ & Hd & Hr). split; [done|].
  intros m. rewrite Hd, dict_keys_passes, elem_of_first_occurrences.
  destruct r as [[]|e].
  - by destruct Hr as [<- _].
  - destruct Hr as (m' & rest & -> & _). rewrite elem_of_app. by left.
Qed.

(** X14: the sweep reads [variables['bedrockExecutionRoleArn']] in every
    pass: without that key a sweep over at least one model raises the KeyError
    of the lookup before any helper is called, and leaves the mapping
    empty. *)
Theorem sweep_needs_execution_role m rest questions (s : state) :
  dict_get (lit "bedrockExecutionRoleArn") variables = None →
  sweep (m :: rest) questions s =
  (ModelSweep.State (ModelSweep.world s) (ModelSweep.events s) [] (ModelSweep.files s),
   Raise (KeyError (lit "bedrockExecutionRoleArn"))).
Proof.
  intros Hrole. unfold ModelSweep.sweep, bind, ModelSweep.set_rag_response_dict. simpl.
  unfold bind, ModelSweep.sweep_step, bind, lift, ModelSweep.inferencer_args. simpl.
  by rewrite Hrole.
Qed.

(** X15: the results cell opens the file with mode ['w']: running it again
    replaces the text, it does not append to it; after two runs the files are
    those after one run. *)
Theorem write_results_overwrites (s : state) :
  let first := write_results s in
  let second := write_results first.1 in
  first.2 = Ok tt → second.2 = Ok tt →
  ModelSweep.files second.1 = ModelSweep.files first.1 ∧
  ModelSweep.files second.1 !! ModelSweep.filename =
    Some (Json.dumps (Some 4) false (PyDict (ModelSweep.rag_response_dict s))) ∧
  ModelSweep.rag_response_dict second.1 = ModelSweep.rag_response_dict s ∧
  ModelSweep.events second.1 = ModelSweep.events s.
Proof.
  cbv zeta. rewrite (write_results_run open_for_writing s).
  destruct (open_for_writing _ (ModelSweep.world s)) as [w1 [[]|e1]]; [|done]. simpl.
  rewrite write_results_run. simpl.
  destruct (open_for_writing _ w1) as [w2 [[]|e2]]; [|done]. simpl. intros _ _.
  rewrite insert_insert_eq. split; [done|]. split; [by rewrite lookup_insert_eq|done].
Qed.

Lemma sweep_then_write_run inference_models questions (s : state) :
  sweep_then_write inference_models questions s =
  match sweep inference_models questions s with
  | (s1, Ok _) => write_results s1
  | (s1, Raise e) => (s1, Raise e)
  end.
Proof.
  unfold ModelSweepCells.sweep_then_write, bind.
  by destruct (sweep inference_models questions s) as [s1 [[]|e]].
Qed.

(** X16: the two cells in order.  When the sweep raises, the results cell does
    not run and no file changes.  When both complete, the results file holds
    the encoding of the mapping of the completed passes; for a list without
    repetition it has one line per model, in the order of the list, and for
    the empty list it is the text of the empty object. *)
Theorem sweep_then_write_file inference_models questions (s : state) :
  let swept := sweep inference_models questions s in
  let run := sweep_then_write inference_models questions s in
  match swept.2 with
  | Raise e => run = (swept.1, Raise e) ∧ ModelSweep.files run.1 = ModelSweep.files s
  | Ok _ =>
      run = write_results swept.1 ∧
      (run.2 = Ok tt →
       ∃ passes : list pass,
         pass_model <$> passes = inference_models ∧
         ModelSweep.events run.1 =
           ModelSweep.events s ++ concat (pass_events questions <$> passes) ∧
         ModelSweep.files run.1 !! ModelSweep.filename =
           Some (Json.dumps (Some 4) false
                   (PyDict (dict_update [] (pass_entry <$> passes)))) ∧
         (NoDup inference_models →
          ModelSweep.files run.1 !! ModelSweep.filename =
            Some (match passes with
                  | [] => lit "{}"
                  | _ =>
                      lit "{" ++ [newline] ++ lit "    " ++
                      str_join (lit "," ++ [newline] ++ lit "    ")
                        (entry_line <$> (pass_entry <$> passes)) ++
                      [newline] ++ lit "}"
                  end)))
  end.
Proof.
  cbv zeta. rewrite sweep_then_write_run.
  pose proof (sweep_spec variables prompt bedrock_kb gt_data aws_region
    vector_storage reranker create_inferencer_provider rag_with_flotorch
    inference_models questions s) as H.
  destruct (sweep inference_models questions s) as [s1 [[]|e]]; simpl.
  2:{ split; [done|]. by destruct H as (? & ? & _ & Hf & _). }
  split; [done|].
  destruct H as (passes & tail & _ & Hf & He & Hd & <- & ->).
  rewrite write_results_run.
  destruct (open_for_writing _ _) as [w' [[]|e]]; [|done]. simpl. intros _.
  exists passes. split; [done|]. rewrite app_nil_r in He.
  split; [done|]. rewrite lookup_insert_eq, Hd. split; [done|].
  intros Hnd. rewrite dict_update_NoDup by by rewrite <- list_fmap_compose.
  rewrite dumps_mapping_layout. by destruct passes.
Qed.
End SweepMoreFacts.

(** The sweep of the sample environment over three models, the helper
    failing for the second. *)
Lemma sweep_failure_stops_the_loop_witness :
  let e := Exn (lit "ClientError") (lit "AccessDeniedException") in
  let run := SweepSample.run [lit "b"] [lit "a"; lit "b"; lit "c"] in
  run.2 = Raise e ∧
  ∃ passes m rest tail,
    [lit "a"; lit "b"; lit "c"] = (pass_model <$> passes) ++ m :: rest ∧
    Forall (pass_ok SweepSample.variables PyNone PyNone) passes ∧
    ModelSweep.events run.1 =
      [] ++ concat (pass_events [lit "q1"; lit "q2"] <$> passes) ++ tail ∧
    failed_events SweepSample.variables PyNone PyNone [lit "q1"; lit "q2"] m e tail ∧
    length tail ≤ 2 ∧
    length (ModelSweep.events run.1) ≤ 0 + 2 * length passes + 2.
Proof.
  split; [reflexivity|].
  exact (sweep_failure_stops_the_loop SweepSample.variables PyNone PyNone PyNone PyNone
           tt tt SweepSample.create_inferencer_provider
           (SweepSample.rag_with_flotorch [lit "b"])
           [lit "a"; lit "b"; lit "c"] [lit "q1"; lit "q2"]
           (ModelSweep.State 0 [] [] ∅)
           (Exn (lit "ClientError") (lit "AccessDeniedException")) eq_refl).
Defined.

(** The sweep without the role in [variables]. *)
Lemma sweep_needs_execution_role_witness :
  ModelSweep.sweep [] PyNone PyNone PyNone PyNone tt tt
    SweepSample.create_inferencer_provider (SweepSample.rag_with_flotorch [])
    [lit "nova-lite"; lit "nova-pro"] [lit "q1"] (ModelSweep.State 7 [] [] ∅) =
  (ModelSweep.State 7 [] [] ∅, Raise (KeyError (lit "bedrockExecutionRoleArn"))).
Proof.
  exact (sweep_needs_execution_role [] PyNone PyNone PyNone PyNone tt tt
           SweepSample.create_inferencer_provider (SweepSample.rag_with_flotorch [])
           (lit "nova-lite") [lit "nova-pro"] [lit "q1"]
           (ModelSweep.State 7 [] [] ∅) eq_refl).
Defined.

(** The results cell run twice on the sample state. *)
Lemma write_results_overwrites_witness :
  let first := ModelSweep.write_results sample_open sample_results in
  let second := ModelSweep.write_results sample_open first.1 in
  ModelSweep.files second.1 = ModelSweep.files first.1 ∧
  ModelSweep.files second.1 !! ModelSweep.filename =
    Some (Json.dumps (Some 4) false (PyDict (ModelSweep.rag_response_dict sample_results))) ∧
  ModelSweep.rag_response_dict second.1 = ModelSweep.rag_response_dict sample_results ∧
  ModelSweep.events second.1 = ModelSweep.events sample_results.
Proof.
  exact (write_results_overwrites sample_open sample_results eq_refl eq_refl).
Defined.

(** ** Lab 4: more on the cost and latency merge *)

Lemma merged_again (a b : gmap pystr pyval) :
  Evaluation.merged a (Evaluation.merged a b) = Evaluation.merged a b.
Proof.
  unfold Evaluation.merged. by rewrite <- (assoc_L (∪)), (idemp_L (∪)).
Qed.

Lemma dict_get_keys_is_Some {V} (d : list (pystr * V)) (k : pystr) :
  k ∈ dict_keys d → is_Some (dict_get k d).
Proof.
  intros Hin. destruct (dict_get k d) eqn:E; [by eexists|].
  by apply dict_get_None_keys in E.
Qed.

Lemma dict_get_NoDup_entry {V} (d : list (pystr * V)) (entry : pystr * V) :
  NoDup (dict_keys d) → entry ∈ d → dict_get entry.1 d = Some entry.2.
Proof.
  unfold dict_keys. induction d as [|[k v] d IH]; csimpl; intros Hnd Hin.
  - by apply elem_of_nil in Hin.
  - apply NoDup_cons in Hnd as [Hk Hnd]. apply elem_of_cons in Hin as [->|Hin].
    + simpl. by rewrite decide_True.
    + rewrite decide_False; [by apply IH|].
      intros ->. apply Hk. apply list_elem_of_fmap. by exists entry.
Qed.

Section MergeMoreFacts.
Context (aws_region : pyval)
        (calculate_cost_and_latency_metrics : pyval → pyval → pyval → gmap pystr pyval).

Local Abbreviation merge_step := (Evaluation.merge_step aws_region calculate_cost_and_latency_metrics).
Local Abbreviation merge_loop := (Evaluation.merge_loop aws_region calculate_cost_and_latency_metrics).
Local Abbreviation merge_pass := (Evaluation.merge_pass aws_region calculate_cost_and_latency_metrics).
Local Abbreviation figures :=
  (λ data, calculate_cost_and_latency_metrics data Evaluation.inference_model aws_region).

(** One iteration, whatever the kernel holds: both branches assign to
    [final_evaluation[model]], and both assign the same record. *)
Lemma merge_step_cases (model : option pystr) (loaded : list (pystr * pyval))
    (kb_type : pystr) (final_evaluation : gmap pystr (gmap pystr pyval)) :
  merge_step model loaded kb_type final_evaluation =
  match dict_get kb_type loaded with
  | None => (final_evaluation, Raise (KeyError kb_type))
  | Some data =>
      match model with
      | None => (final_evaluation, Raise (NameError (lit "model")))
      | Some m =>
          match final_evaluation !! m with
          | None => (final_evaluation, Raise (KeyError m))
          | Some current =>
              (<[m := Evaluation.merged current (figures data)]> final_evaluation, Ok tt)
          end
      end
  end.
Proof.
  destruct (dict_get kb_type loaded) as [data|] eqn:Hdata.
  2:{ unfold Evaluation.merge_step, bind, lift. simpl. by rewrite Hdata. }
  destruct model as [m|].
  2:{ unfold Evaluation.merge_step, bind, lift. simpl. by rewrite Hdata. }
  destruct (final_evaluation !! m) as [current|] eqn:Hrec.
  - rewrite (merge_step_bound _ _ m loaded kb_type data final_evaluation current) by done.
    cbv zeta. destruct (bool_decide _); by rewrite ?merged_again.
  - unfold Evaluation.merge_step, bind, lift, Evaluation.read_model, ret,
      Evaluation.get_record. simpl. by rewrite Hdata, Hrec.
Qed.

Lemma merge_loop_cons (model : option pystr) (loaded : list (pystr * pyval))
    (kb_type : pystr) (rest : list pystr) (fe : gmap pystr (gmap pystr pyval)) :
  merge_loop model loaded (kb_type :: rest) fe =
  match merge_step model loaded kb_type fe with
  | (fe', Ok _) => merge_loop model loaded rest fe'
  | (fe', Raise e) => (fe', Raise e)
  end.
Proof. reflexivity. Qed.

Lemma merge_loop_records (model : option pystr) (loaded : list (pystr * pyval))
    (keys : list pystr) (fe : gmap pystr (gmap pystr pyval)) (k : pystr) :
  is_Some ((merge_loop model loaded keys fe).1 !! k) ↔ is_Some (fe !! k).
Proof.
  revert fe. induction keys as [|kb keys IH]; intros fe; [done|].
  rewrite merge_loop_cons, merge_step_cases.
  destruct (dict_get kb loaded) as [data|]; [|done].
  destruct model as [m|]; [|done].
  destruct (fe !! m) as [current|] eqn:Hrec; [|done].
  rewrite IH. destruct (decide (m = k)) as [->|Hne].
  - rewrite lookup_insert_eq, Hrec. split; eauto.
  - by rewrite lookup_insert_ne.
Qed.

(** X17: the merge cell never adds a record to [final_evaluation] and never
    removes one, whatever [model] is bound to and whatever was loaded: its
    branch for a key that does not exist yet assigns to
    [final_evaluation[model]], which was read just before. *)
Theorem merge_pass_keeps_the_records (model : option pystr)
    (loaded_responses : list (pystr * pyval)) (final_evaluation : gmap pystr (gmap pystr pyval)) :
  let run := merge_pass model loaded_responses final_evaluation in
  (∀ k, is_Some (run.1 !! k) ↔ is_Some (final_evaluation !! k)) ∧
  (∀ kb_type, kb_type ∈ dict_keys loaded_responses → final_evaluation !! kb_type = None →
              run.1 !! kb_type = None).
Proof.
  cbv zeta. unfold Evaluation.merge_pass. split.
  - intros k. apply merge_loop_records.
  - intros kb _ Hnone. apply eq_None_not_Some. rewrite merge_loop_records.
    by apply eq_None_not_Some.
Qed.

End MergeMoreFacts.

(** ** Lab 4: the merge cell with its helper call and its record objects *)

Section MergeCellFacts.
Context {World : Type}.
Context (aws_region : pyval)
        (calculate_cost_and_latency_metrics :
           pyval → pyval → pyval → World → World * result (gmap pystr pyval)).

Local Abbreviation cell_step :=
  (MergeCell.merge_step aws_region calculate_cost_and_latency_metrics).
Local Abbreviation cell_loop :=
  (MergeCell.merge_loop aws_region calculate_cost_and_latency_metrics).
Local Abbreviation cell_pass :=
  (MergeCell.merge_pass aws_region calculate_cost_and_latency_metrics).
Local Abbreviation calculated :=
  (MergeCell.calculated aws_region calculate_cost_and_latency_metrics).
Local Abbreviation calculate :=
  (λ data, calculate_cost_and_latency_metrics data Evaluation.inference_model aws_region).

(** One iteration: the helper is called first; then [model] and its record
    are read; both branches leave the merged record under [model], the one in
    a new object, the other in the object that was there. *)
Lemma cell_step_cases (model : option pystr) (loaded : list (pystr * pyval))
    (kb_type : pystr) (s : MergeCell.state World) :
  cell_step model loaded kb_type s =
  match dict_get kb_type loaded with
  | None => (s, Raise (KeyError kb_type))
  | Some data =>
      let '(w', r) := calculate data (MergeCell.world s) in
      let called :=
        MergeCell.State w' (MergeCell.calls s ++ [data]) (MergeCell.objects s)
          (MergeCell.final_evaluation s) in
      match r with
      | Raise e => (called, Raise e)
      | Ok computed =>
          match model with
          | None => (called, Raise (NameError (lit "model")))
          | Some m =>
              match MergeCell.final_evaluation s !! m with
              | None => (called, Raise (KeyError m))
              | Some l =>
                  let merged := Evaluation.merged (MergeCell.record_of s l) computed in
                  if bool_decide (is_Some (MergeCell.final_evaluation s !! kb_type))
                  then (MergeCell.State w' (MergeCell.calls s ++ [data])
                          (<[l := merged]> (MergeCell.objects s))
                          (MergeCell.final_evaluation s), Ok tt)
                  else (MergeCell.State w' (MergeCell.calls s ++ [data])
                          (<[fresh (dom (MergeCell.objects s)) := merged]> (MergeCell.objects s))
                          (<[m := fresh (dom (MergeCell.objects s))]>
                             (MergeCell.final_evaluation s)), Ok tt)
              end
          end
      end
  end.
Proof.
  unfold MergeCell.merge_step, bind, lift, MergeCell.call_calculate. simpl.
  destruct (dict_get kb_type loaded) as [data|]; [|done].
  destruct (calculate_cost_and_latency_metrics _ _ _ _) as [w' [computed|e]]; [|done].
  destruct model as [m|]; [|done]. simpl. unfold MergeCell.get_record at 1. simpl.
  destruct (MergeCell.final_evaluation s !! m) as [l|] eqn:Hrec; [|done]. simpl.
  destruct (bool_decide (is_Some (MergeCell.final_evaluation s !! kb_type))); simpl.
  - unfold MergeCell.get_record. simpl. rewrite Hrec. unfold MergeCell.update. simpl.
    by rewrite merged_again.
  - done.
Qed.

Lemma cell_loop_cons (model : option pystr) (loaded : list (pystr * pyval))
    (kb_type : pystr) (rest : list pystr) (s : MergeCell.state World) :
  cell_loop model loaded (kb_type :: rest) s =
  match cell_step model loaded kb_type s with
  | (s', Ok _) => cell_loop model loaded rest s'
  | (s', Raise e) => (s', Raise e)
  end.
Proof. reflexivity. Qed.

(** The loop reads [loaded_responses] at the keys it visits only. *)
Lemma cell_loop_ext (model : option pystr) (loaded loaded' : list (pystr * pyval))
    (keys : list pystr) (s : MergeCell.state World) :
  (∀ k, k ∈ keys → dict_get k loaded = dict_get k loaded') →
  cell_loop model loaded keys s = cell_loop model loaded' keys s.
Proof.
  revert s. induction keys as [|k keys IH]; intros s Hkeys; [done|].
  rewrite !cell_loop_cons, !cell_step_cases. rewrite <- (Hkeys k) by left.
  destruct (dict_get k loaded) as [data|]; [|done].
  destruct (calculate data (MergeCell.world s)) as [w' [computed|e]]; [|done].
  destruct model as [m|]; [|done].
  destruct (MergeCell.final_evaluation s !! m) as [l|]; [|done].
  destruct (bool_decide _); apply IH; intros k' Hk'; apply Hkeys; by right.
Qed.

(** The keys of [final_evaluation] stay what they are. *)
Lemma cell_loop_records (model : option pystr) (loaded : list (pystr * pyval))
    (keys : list pystr) (s : MergeCell.state World) (k : pystr) :
  is_Some (MergeCell.final_evaluation (cell_loop model loaded keys s).1 !! k) ↔
  is_Some (MergeCell.final_evaluation s !! k).
Proof.
  revert s. induction keys as [|kb keys IH]; intros s; [done|].
  rewrite cell_loop_cons, cell_step_cases.
  destruct (dict_get kb loaded) as [data|]; [|done].
  destruct (calculate data (MergeCell.world s)) as [w' [computed|e]]; [|done].
  destruct model as [m|]; [|done].
  destruct (MergeCell.final_evaluation s !! m) as [l|] eqn:Hrec; [|done].
  destruct (bool_decide _); rewrite IH; simpl; [done|].
  destruct (decide (m = k)) as [->|Hne].
  - rewrite lookup_insert_eq, Hrec. split; eauto.
  - by rewrite lookup_insert_ne.
Qed.

Lemma cell_loop_returns (m : pystr) (loaded entries : list (pystr * pyval))
    (figures : list (gmap pystr pyval)) (s : MergeCell.state World) (l : positive)
    (w' : World) :
  (∀ entry, entry ∈ entries → dict_get entry.1 loaded = Some entry.2) →
  MergeCell.final_evaluation s !! m = Some l →
  calculated (MergeCell.world s) entries.*2 figures w' →
  let run := cell_loop (Some m) loaded (dict_keys entries) s in
  let final := foldl Evaluation.merged (MergeCell.record_of s l) figures in
  run.2 = Ok tt ∧
  MergeCell.world run.1 = w' ∧
  MergeCell.calls run.1 = MergeCell.calls s ++ entries.*2 ∧
  ∃ l', MergeCell.final_evaluation run.1 = <[m := l']> (MergeCell.final_evaluation s) ∧
        MergeCell.record_of run.1 l' = final ∧
        (∀ l0, l0 ≠ l → is_Some (MergeCell.objects s !! l0) →
               MergeCell.objects run.1 !! l0 = MergeCell.objects s !! l0) ∧
        (Forall (λ kb, is_Some (MergeCell.final_evaluation s !! kb)) (dict_keys entries) →
         l' = l).
Proof.
  revert figures s l. induction entries as [|[kb data] entries IH];
    intros figures s l Hin Hrec Hcalc.
  - destruct figures as [|? ?]; [|done]. simpl in Hcalc. subst w'. simpl.
    rewrite app_nil_r. repeat split; try done. exists l.
    rewrite insert_id by done. repeat split; done.
  - destruct figures as [|computed figures]; [done|].
    destruct Hcalc as (w1 & Hcall & Hcalc). cbv zeta.
    change (dict_keys ((kb, data) :: entries)) with (kb :: dict_keys entries).
    rewrite cell_loop_cons, cell_step_cases.
    assert (dict_get kb loaded = Some data) as -> by (apply (Hin (kb, data)); left).
    csimpl in Hcall. rewrite Hcall, Hrec. cbv zeta.
    assert (Hin' : ∀ entry, entry ∈ entries → dict_get entry.1 loaded = Some entry.2)
      by (intros entry He; apply Hin; by right).
    destruct (bool_decide (is_Some (MergeCell.final_evaluation s !! kb))) eqn:Hkb.
    + match goal with |- context [cell_loop _ _ _ ?s1] =>
        destruct (IH figures s1 l Hin' Hrec Hcalc) as (Hok & Hw & Hc & l' & Hfe & Hfinal & Hframe & Hsame)
      end. simpl in *.
      split; [done|]. split; [done|]. split; [by rewrite Hc, <- app_assoc|].
      exists l'. split; [done|]. split.
      { rewrite Hfinal. unfold MergeCell.record_of at 1. simpl.
        by rewrite lookup_insert_eq. }
      split.
      { intros l0 Hne Hl0. rewrite Hframe; [by rewrite lookup_insert_ne| done |].
        by rewrite lookup_insert_ne. }
      intros Hall. apply Hsame. by apply Forall_cons in Hall as [_ ?].
    + match goal with |- context [cell_loop _ _ _ ?s1] =>
        destruct (IH figures s1 (fresh (dom (MergeCell.objects s))) Hin')
          as (Hok & Hw & Hc & l' & Hfe & Hfinal & Hframe & Hsame);
          [by simpl; rewrite lookup_insert_eq|done|]
      end. simpl in *.
      split; [done|]. split; [done|]. split; [by rewrite Hc, <- app_assoc|].
      exists l'. split; [by rewrite Hfe, insert_insert_eq|]. split.
      { rewrite Hfinal. unfold MergeCell.record_of at 1. simpl.
        by rewrite lookup_insert_eq. }
      split.
      { intros l0 Hne Hl0.
        assert (l0 ≠ fresh (dom (MergeCell.objects s))) as Hfresh.
        { intros ->. apply elem_of_dom in Hl0. by apply is_fresh in Hl0. }
        rewrite Hframe; [by rewrite lookup_insert_ne| done |].
        by rewrite lookup_insert_ne. }
      intros Hall. apply Forall_cons in Hall as [Hthis _].
      apply bool_decide_eq_false in Hkb. done.
Qed.

(** X18: with [model] bound to a key that has a record, and the helper
    returning for the data of every loaded knowledge base, the merge cell
    completes after one helper call per knowledge base, in the order of
    [loaded_responses], and is one accumulation: the record under [model]
    holds the figures of every knowledge base, merged one after the other over
    what it held; on a field that several carry the figure of the knowledge
    base loaded last stays, and a field that no figure carries keeps its
    value.  The keys keep their objects, except [model], which may hold a new
    one; an object other than the one [model] held is not changed.  When
    every loaded key has a record, the update is in place: every key keeps its
    object, and the object [model] holds carries the merged record for every
    key that holds it. *)
Theorem merge_pass_accumulates_in_one_record (m : pystr)
    (loaded_responses : list (pystr * pyval)) (figures : list (gmap pystr pyval))
    (s : MergeCell.state World) (l : positive) (w' : World) :
  NoDup (dict_keys loaded_responses) →
  MergeCell.final_evaluation s !! m = Some l →
  calculated (MergeCell.world s) loaded_responses.*2 figures w' →
  let run := cell_pass (Some m) loaded_responses s in
  let current := MergeCell.record_of s l in
  let final := foldl Evaluation.merged current figures in
  run.2 = Ok tt ∧
  MergeCell.world run.1 = w' ∧
  MergeCell.calls run.1 = MergeCell.calls s ++ loaded_responses.*2 ∧
  (∃ l', MergeCell.final_evaluation run.1 = <[m := l']> (MergeCell.final_evaluation s) ∧
         MergeCell.record_of run.1 l' = final) ∧
  (∀ l0, l0 ≠ l → is_Some (MergeCell.objects s !! l0) →
         MergeCell.objects run.1 !! l0 = MergeCell.objects s !! l0) ∧
  (Forall (λ kb, is_Some (MergeCell.final_evaluation s !! kb)) (dict_keys loaded_responses) →
   MergeCell.final_evaluation run.1 = MergeCell.final_evaluation s ∧
   MergeCell.record_of run.1 l = final) ∧
  (∀ earlier last field v,
     figures = earlier ++ [last] → last !! field = Some v → final !! field = Some v) ∧
  (∀ field, Forall (λ computed, computed !! field = None) figures →
            final !! field = current !! field).
Proof.
  intros Hnd Hrec Hcalc. cbv zeta. unfold MergeCell.merge_pass.
  destruct (cell_loop_returns m loaded_responses loaded_responses figures s l w')
    as (Hok & Hw & Hc & l' & Hfe & Hfinal & Hframe & Hsame); [|done|done|].
  { intros entry He. by apply dict_get_NoDup_entry. }
  split; [done|]. split; [done|]. split; [done|].
  split; [by exists l'|]. split; [done|]. split; [|split].
  - intros Hall. specialize (Hsame Hall). subst l'.
    split; [|done]. rewrite Hfe. by apply insert_id.
  - intros earlier last field v -> Hv. rewrite foldl_app. simpl.
    unfold Evaluation.merged at 1. by apply lookup_union_Some_l.
  - intros field. generalize (MergeCell.record_of s l). clear.
    induction figures as [|computed figures IH]; intros current Hnone; [done|].
    apply Forall_cons in Hnone as [Hthis Hnone]. simpl. rewrite IH by done.
    unfold Evaluation.merged. by rewrite lookup_union_r.
Qed.

Lemma cell_loop_fails (model : option pystr) (loaded entries : list (pystr * pyval))
    (s : MergeCell.state World) (e : exn) :
  (∀ entry, entry ∈ entries → dict_get entry.1 loaded = Some entry.2) →
  (cell_loop model loaded (dict_keys entries) s).2 = Raise e →
  ∃ done kb_type data rest before,
    entries = done ++ (kb_type, data) :: rest ∧
    cell_loop model loaded (dict_keys done) s = (before, Ok tt) ∧
    (cell_loop model loaded (dict_keys entries) s).1 =
      MergeCell.State (calculate data (MergeCell.world before)).1
        (MergeCell.calls before ++ [data])
        (MergeCell.objects before) (MergeCell.final_evaluation before) ∧
    match (calculate data (MergeCell.world before)).2 with
    | Raise cause => e = cause
    | Ok _ =>
        match model with
        | None => e = NameError (lit "model")
        | Some m => MergeCell.final_evaluation before !! m = None ∧ e = KeyError m
        end
    end.
Proof.
  revert s. induction entries as [|[kb data] entries IH]; intros s Hin Hraise; [done|].
  change (dict_keys ((kb, data) :: entries)) with (kb :: dict_keys entries) in *.
  assert (dict_get kb loaded = Some data) as Hdata by (apply (Hin (kb, data)); left).
  assert (Hin' : ∀ entry, entry ∈ entries → dict_get entry.1 loaded = Some entry.2)
    by (intros entry He; apply Hin; by right).
  pose proof (cell_step_cases model loaded kb s) as Hstep.
  rewrite Hdata in Hstep. cbv zeta in Hstep.
  rewrite cell_loop_cons in Hraise. rewrite cell_loop_cons.
  destruct (calculate_cost_and_latency_metrics data Evaluation.inference_model aws_region
              (MergeCell.world s)) as [w1 r] eqn:Hcall.
  assert (Hstop : ∀ e1,
    cell_step model loaded kb s =
      (MergeCell.State w1 (MergeCell.calls s ++ [data]) (MergeCell.objects s)
         (MergeCell.final_evaluation s), Raise e1) →
    match r with
    | Raise cause => e1 = cause
    | Ok _ =>
        match model with
        | None => e1 = NameError (lit "model")
        | Some m => MergeCell.final_evaluation s !! m = None ∧ e1 = KeyError m
        end
    end →
    ∃ done kb_type data0 rest before,
      (kb, data) :: entries = done ++ (kb_type, data0) :: rest ∧
      cell_loop model loaded (dict_keys done) s = (before, Ok tt) ∧
      (match cell_step model loaded kb s with
       | (s', Ok _) => cell_loop model loaded (dict_keys entries) s'
       | (s', Raise e0) => (s', Raise e0)
       end).1 =
        MergeCell.State (calculate data0 (MergeCell.world before)).1
          (MergeCell.calls before ++ [data0])
          (MergeCell.objects before) (MergeCell.final_evaluation before) ∧
      match (calculate data0 (MergeCell.world before)).2 with
      | Raise cause => e1 = cause
      | Ok _ =>
          match model with
          | None => e1 = NameError (lit "model")
          | Some m => MergeCell.final_evaluation before !! m = None ∧ e1 = KeyError m
          end
      end).
  { intros e1 Hs Hcase. exists [], kb, data, entries, s. rewrite Hs. simpl.
    rewrite Hcall. simpl. by repeat split. }
  assert (Hnext : ∀ s1, cell_step model loaded kb s = (s1, Ok tt) →
    ∃ done kb_type data0 rest before,
      (kb, data) :: entries = done ++ (kb_type, data0) :: rest ∧
      cell_loop model loaded (dict_keys done) s = (before, Ok tt) ∧
      (match cell_step model loaded kb s with
       | (s', Ok _) => cell_loop model loaded (dict_keys entries) s'
       | (s', Raise e0) => (s', Raise e0)
       end).1 =
        MergeCell.State (calculate data0 (MergeCell.world before)).1
          (MergeCell.calls before ++ [data0])
          (MergeCell.objects before) (MergeCell.final_evaluation before) ∧
      match (calculate data0 (MergeCell.world before)).2 with
      | Raise cause => e = cause
      | Ok _ =>
          match model with
          | None => e = NameError (lit "model")
          | Some m => MergeCell.final_evaluation before !! m = None ∧ e = KeyError m
          end
      end).
  { intros s1 Hs. rewrite Hs in Hraise. rewrite Hs.
    destruct (IH s1 Hin' Hraise)
      as (prior & kb' & data' & rest & before & -> & Hbefore & Hrun & He).
    exists ((kb, data) :: prior), kb', data', rest, before.
    change (dict_keys ((kb, data) :: prior)) with (kb :: dict_keys prior).
    rewrite cell_loop_cons, Hs. by repeat split. }
  destruct r as [computed|cause].
  2:{ rewrite Hstep in Hraise. injection Hraise as <-. by apply Hstop. }
  destruct model as [m|].
  2:{ rewrite Hstep in Hraise. injection Hraise as <-. by apply Hstop. }
  destruct (MergeCell.final_evaluation s !! m) as [l|] eqn:Hrec.
  2:{ rewrite Hstep in Hraise. injection Hraise as <-. by apply Hstop. }
  destruct (bool_decide (is_Some (MergeCell.final_evaluation s !! kb)));
    by eapply Hnext.
Qed.

(** X19: how the merge cell fails.  It stops at the first entry whose
    iteration raises, after one helper call for that entry.  The merges of the
    entries before stay: [final_evaluation] and the objects are left as the
    cell run on those entries alone leaves them.  The exception is the
    helper's own, when the helper raises for that entry; when the helper
    returns, the entry is the first, nothing was merged, and the exception is
    the NameError of an unbound [model] or the KeyError of
    [final_evaluation[model]]. *)
Theorem merge_pass_failures (model : option pystr)
    (loaded_responses : list (pystr * pyval)) (s : MergeCell.state World) (e : exn) :
  NoDup (dict_keys loaded_responses) →
  (cell_pass model loaded_responses s).2 = Raise e →
  ∃ done kb_type data rest,
    loaded_responses = done ++ (kb_type, data) :: rest ∧
    let run := cell_pass model loaded_responses s in
    let before := cell_pass model done s in
    let answer := calculate data (MergeCell.world before.1) in
    before.2 = Ok tt ∧
    MergeCell.world run.1 = answer.1 ∧
    MergeCell.calls run.1 = MergeCell.calls before.1 ++ [data] ∧
    MergeCell.objects run.1 = MergeCell.objects before.1 ∧
    MergeCell.final_evaluation run.1 = MergeCell.final_evaluation before.1 ∧
    match answer.2 with
    | Raise cause => e = cause
    | Ok _ =>
        done = [] ∧
        match model with
        | None => e = NameError (lit "model")
        | Some m => MergeCell.final_evaluation s !! m = None ∧ e = KeyError m
        end
    end.
Proof.
  intros Hnd Hraise. unfold MergeCell.merge_pass in *.
  destruct (cell_loop_fails model loaded_responses loaded_responses s e)
    as (prior & kb & data & rest & before & Hsplit & Hbefore & Hrun & He); [|done|].
  { intros entry Hentry. by apply dict_get_NoDup_entry. }
  exists prior, kb, data, rest. split; [done|]. cbv zeta.
  assert (cell_loop model prior (dict_keys prior) s = (before, Ok tt)) as ->.
  { rewrite <- Hbefore. apply cell_loop_ext. intros k Hk. unfold dict_keys in Hk.
    apply list_elem_of_fmap in Hk as (entry & -> & Hentry).
    rewrite (dict_get_NoDup_entry loaded_responses entry); [| done |].
    - apply dict_get_NoDup_entry; [|done]. rewrite Hsplit in Hnd.
      unfold dict_keys in *. rewrite fmap_app in Hnd. by apply NoDup_app in Hnd as [? _].
    - rewrite Hsplit. apply elem_of_app. by left. }
  rewrite Hrun. simpl.
  split; [done|]. split; [done|]. split; [done|]. split; [done|]. split; [done|].
  destruct (calculate_cost_and_latency_metrics data Evaluation.inference_model aws_region
              (MergeCell.world before)).2 as [computed|cause]; [|done].
  destruct prior as [|[kb0 data0] prior].
  { injection Hbefore as <-. split; [done|]. by destruct model. }
  exfalso.
  change (dict_keys ((kb0, data0) :: prior)) with (kb0 :: dict_keys prior) in *.
  pose proof (cell_loop_records model loaded_responses (kb0 :: dict_keys prior) s) as Hkeys.
  rewrite Hbefore in Hkeys. simpl in Hkeys.
  rewrite cell_loop_cons, cell_step_cases in Hbefore.
  destruct (dict_get kb0 loaded_responses) as [d|]; [|done].
  destruct (calculate d (MergeCell.world s)) as [w1 [c|cause]]; [|done].
  destruct model as [m|]; [|done].
  destruct He as [Hnone _].
  destruct (MergeCell.final_evaluation s !! m) as [l|] eqn:Hrec; [|done].
  assert (is_Some (MergeCell.final_evaluation before !! m)) as [? Hsome]
    by (apply Hkeys; rewrite Hrec; by eexists).
  congruence.
Qed.
End MergeCellFacts.

(** The merge over two knowledge bases, [model] bound to the first, the only
    one with a record: the first iteration updates the object in place, the
    second puts a new object under [model]. *)
Lemma merge_pass_accumulates_in_one_record_witness :
  let loaded := [(kb_fixed, PyInt 1); (kb_semantic, PyInt 2)] in
  let run :=
    MergeCell.merge_pass PyNone EvaluationSample.calculate_cost_and_latency_metrics
      (Some kb_fixed) loaded EvaluationSample.start in
  run.2 = Ok tt ∧
  MergeCell.world run.1 = 2 ∧
  MergeCell.calls run.1 = [PyInt 1; PyInt 2] ∧
  ∃ l', MergeCell.final_evaluation run.1 = <[kb_fixed := l']> {[ kb_fixed := 1%positive ]} ∧
        MergeCell.record_of run.1 l' =
          foldl Evaluation.merged (MergeCell.record_of EvaluationSample.start 1%positive)
            [{[ lit "cost" := PyInt 1 ]}; {[ lit "cost" := PyInt 2 ]}].
Proof.
  assert (NoDup (dict_keys [(kb_fixed, PyInt 1); (kb_semantic, PyInt 2)])) as Hnd.
  { repeat constructor; [|apply not_elem_of_nil].
    intros Hin. apply list_elem_of_singleton in Hin. discriminate Hin. }
  assert (MergeCell.final_evaluation EvaluationSample.start !! kb_fixed = Some 1%positive)
    as Hrec by apply lookup_singleton_eq.
  assert (MergeCell.calculated PyNone EvaluationSample.calculate_cost_and_latency_metrics
            (MergeCell.world EvaluationSample.start)
            [(kb_fixed, PyInt 1); (kb_semantic, PyInt 2)].*2
            [{[ lit "cost" := PyInt 1 ]}; {[ lit "cost" := PyInt 2 ]}] 2) as Hcalc.
  { exists 1. split; [reflexivity|]. exists 2. split; reflexivity. }
  destruct (merge_pass_accumulates_in_one_record PyNone
              EvaluationSample.calculate_cost_and_latency_metrics kb_fixed
              [(kb_fixed, PyInt 1); (kb_semantic, PyInt 2)]
              [{[ lit "cost" := PyInt 1 ]}; {[ lit "cost" := PyInt 2 ]}]
              EvaluationSample.start 1%positive 2 Hnd Hrec Hcalc)
    as (Hok & Hw & Hc & Hl & _).
  cbv zeta. split; [exact Hok|]. split; [exact Hw|]. split; [exact Hc|]. exact Hl.
Defined.

(** The merge over two knowledge bases, the helper raising for the second:
    the merge of the first stays. *)
Lemma merge_pass_failures_witness :
  let loaded := [(kb_fixed, PyInt 1); (kb_semantic, PyNone)] in
  let cell := MergeCell.merge_pass PyNone EvaluationSample.calculate_cost_and_latency_metrics
                (Some kb_fixed) in
  (cell loaded EvaluationSample.start).2 =
    Raise (TypeError (lit "inference data must be a number")) ∧
  ∃ before kb_type data rest,
    loaded = before ++ (kb_type, data) :: rest ∧
    (cell before EvaluationSample.start).2 = Ok tt ∧
    MergeCell.final_evaluation (cell loaded EvaluationSample.start).1 =
      MergeCell.final_evaluation (cell before EvaluationSample.start).1.
Proof.
  assert (NoDup (dict_keys [(kb_fixed, PyInt 1); (kb_semantic, PyNone)])) as Hnd.
  { repeat constructor; [|apply not_elem_of_nil].
    intros Hin. apply list_elem_of_singleton in Hin. discriminate Hin. }
  assert ((MergeCell.merge_pass PyNone EvaluationSample.calculate_cost_and_latency_metrics
             (Some kb_fixed) [(kb_fixed, PyInt 1); (kb_semantic, PyNone)]
             EvaluationSample.start).2 =
          Raise (TypeError (lit "inference data must be a number"))) as Hraise.
  { vm_compute. reflexivity. }
  cbv zeta. split; [exact Hraise|].
  destruct (merge_pass_failures PyNone EvaluationSample.calculate_cost_and_latency_metrics
              (Some kb_fixed) [(kb_fixed, PyInt 1); (kb_semantic, PyNone)]
              EvaluationSample.start _ Hnd Hraise)
    as (before & kb & data & rest & Hsplit & Hok & _ & _ & _ & Hfe & _).
  exists before, kb, data, rest. split; [exact Hsplit|]. split; [exact Hok|exact Hfe].
Defined.

(** ** The merge cell: objects and values agree when nothing is shared *)

Section MergeCellRefines.
Context {World : Type}.
Context (aws_region : pyval)
        (calculate_cost_and_latency_metrics :
           pyval → pyval → pyval → World → World * result (gmap pystr pyval))
        (figures : pyval → pyval → pyval → gmap pystr pyval).

(** The helper returns, and what it returns depends on its arguments
    only. *)
Hypothesis helper_returns : ∀ data w,
  (calculate_cost_and_latency_metrics data Evaluation.inference_model aws_region w).2 =
  Ok (figures data Evaluation.inference_model aws_region).

Lemma merge_cell_step_refines (model : option pystr) (loaded : list (pystr * pyval))
    (kb_type : pystr) (s : MergeCell.state World) :
  allocated s → (∀ m, model = Some m → unshared s m) →
  let run := MergeCell.merge_step aws_region calculate_cost_and_latency_metrics model
               loaded kb_type s in
  let abstract := Evaluation.merge_step aws_region figures model loaded kb_type
                    (records_of s) in
  run.2 = abstract.2 ∧ records_of run.1 = abstract.1 ∧
  allocated run.1 ∧ (∀ m, model = Some m → unshared run.1 m).
Proof.
  intros Halloc Hunshared. cbv zeta.
  rewrite cell_step_cases, merge_step_cases.
  destruct (dict_get kb_type loaded) as [data|]; [|done].
  pose proof (helper_returns data (MergeCell.world s)) as Hcall.
  destruct (calculate_cost_and_latency_metrics _ _ _ _) as [w' r]. simpl in Hcall. subst r.
  destruct model as [m|]; [|done].
  assert (records_of s !! m = MergeCell.record_of s <$> MergeCell.final_evaluation s !! m)
    as -> by apply lookup_fmap.
  destruct (MergeCell.final_evaluation s !! m) as [l|] eqn:Hrec; [|done]. simpl.
  specialize (Hunshared m eq_refl).
  assert (Hother : ∀ k l0, k ≠ m → MergeCell.final_evaluation s !! k = Some l0 → l0 ≠ l).
  { intros k l0 Hne Hk ->. destruct (Hunshared k Hne) as [H|H]; congruence. }
  set (merged := Evaluation.merged (MergeCell.record_of s l)
                   (figures data Evaluation.inference_model aws_region)).
  destruct (bool_decide (is_Some (MergeCell.final_evaluation s !! kb_type))); simpl.
  - split; [done|]. split; [|split].
    + apply map_eq. intros k. unfold records_of. rewrite lookup_fmap. simpl.
      destruct (decide (k = m)) as [->|Hne].
      * rewrite lookup_insert_eq, Hrec. simpl. unfold MergeCell.record_of. simpl.
        by rewrite lookup_insert_eq.
      * rewrite lookup_insert_ne, lookup_fmap by done.
        destruct (MergeCell.final_evaluation s !! k) as [l0|] eqn:Hk; [|done]. simpl.
        unfold MergeCell.record_of. simpl.
        by rewrite lookup_insert_ne by (apply not_eq_sym; eauto).
    + intros k l0 Hk. simpl in *. destruct (decide (l0 = l)) as [->|Hne].
      * rewrite lookup_insert_eq. by eexists.
      * rewrite lookup_insert_ne by done. eauto.
    + intros m' [= <-]. exact Hunshared.
  - set (l1 := fresh (dom (MergeCell.objects s))).
    assert (Hfresh : ∀ k l0, MergeCell.final_evaluation s !! k = Some l0 → l0 ≠ l1).
    { intros k l0 Hk ->. apply Halloc in Hk. apply elem_of_dom in Hk.
      by apply is_fresh in Hk. }
    split; [done|]. split; [|split].
    + apply map_eq. intros k. unfold records_of. rewrite lookup_fmap. simpl.
      destruct (decide (k = m)) as [->|Hne].
      * rewrite !lookup_insert_eq. simpl. unfold MergeCell.record_of. simpl.
        by rewrite lookup_insert_eq.
      * rewrite !lookup_insert_ne, lookup_fmap by done.
        destruct (MergeCell.final_evaluation s !! k) as [l0|] eqn:Hk; [|done]. simpl.
        unfold MergeCell.record_of. simpl.
        by rewrite lookup_insert_ne by (apply not_eq_sym; eauto).
    + intros k l0 Hk. simpl in *. destruct (decide (k = m)) as [->|Hne].
      * rewrite lookup_insert_eq in Hk. injection Hk as <-.
        rewrite lookup_insert_eq. by eexists.
      * rewrite lookup_insert_ne in Hk by done.
        rewrite lookup_insert_ne by (apply not_eq_sym; eauto). eauto.
    + intros m' [= <-] k Hne. left. simpl.
      rewrite lookup_insert_eq, lookup_insert_ne by done.
      destruct (MergeCell.final_evaluation s !! k) as [l0|] eqn:Hk; [|done].
      intros [= ->]. by eapply Hfresh.
Qed.

(** When the helper returns and no other key shares the object of [model],
    the cell with its objects and its helper call comes to the cell on
    values: same outcome, same records. *)
Lemma merge_cell_refines (model : option pystr) (loaded_responses : list (pystr * pyval))
    (s : MergeCell.state World) :
  allocated s → (∀ m, model = Some m → unshared s m) →
  let run := MergeCell.merge_pass aws_region calculate_cost_and_latency_metrics model
               loaded_responses s in
  let abstract := Evaluation.merge_pass aws_region figures model loaded_responses
                    (records_of s) in
  run.2 = abstract.2 ∧ records_of run.1 = abstract.1.
Proof.
  unfold MergeCell.merge_pass, Evaluation.merge_pass. cbv zeta.
  generalize (dict_keys loaded_responses). intros keys. revert s.
  induction keys as [|kb keys IH]; intros s Halloc Hunshared; [done|].
  rewrite cell_loop_cons, merge_loop_cons.
  destruct (merge_cell_step_refines model loaded_responses kb s Halloc Hunshared)
    as (Hr & Hrec & Halloc' & Hunshared').
  destruct (MergeCell.merge_step _ _ _ _ kb s) as [s1 r1].
  destruct (Evaluation.merge_step _ _ _ _ kb _) as [a1 r2]. simpl in *. subst r2 a1.
  destruct r1 as [[]|e]; [|done]. by apply IH.
Qed.
End MergeCellRefines.

(** ** Lab 4: the accuracy evaluation loop *)

Section AccuracyFacts.
Context {World Evaluator : Type}.
Context (evaluation_config_data : pyval)
        (CustomEvaluator : pyval → World → World * result Evaluator)
        (evaluate : Evaluator → pyval → World → World * result pyval).

Local Abbreviation evaluation_loop := (AccuracyEvaluation.evaluation_loop evaluate).
Local Abbreviation evaluate_all :=
  (AccuracyEvaluation.evaluate_all evaluation_config_data CustomEvaluator evaluate).

Lemma evaluation_loop_spec (evaluator : Evaluator) (items : list (pystr * pyval))
    (s : AccuracyEvaluation.state World) :
  let '(s', r) := evaluation_loop evaluator items s in
  ∃ (done : list ((pystr * pyval) * pyval)) tail,
    AccuracyEvaluation.evaluation_metrics s' =
      dict_update (AccuracyEvaluation.evaluation_metrics s) (evaluation_entry <$> done) ∧
    AccuracyEvaluation.events s' =
      AccuracyEvaluation.events s ++ (evaluation_event <$> done) ++ tail ∧
    AccuracyEvaluation.stdout s' =
      AccuracyEvaluation.stdout s ++ (AccuracyEvaluation.completed_line <$> done.*1.*1) ∧
    match r with
    | Ok _ => done.*1 = items ∧ tail = []
    | Raise e =>
        ∃ kb_id inference_data rest,
          items = done.*1 ++ (kb_id, inference_data) :: rest ∧
          tail = [AccuracyEvaluation.Evaluate inference_data (Raise e)]
    end.
Proof.
  revert s. induction items as [|[kb_id inference_data] rest IH]; intros s.
  - simpl. exists [], []. by rewrite !app_nil_r.
  - cbn [AccuracyEvaluation.evaluation_loop]. unfold bind at 1.
    unfold AccuracyEvaluation.evaluation_step, bind, AccuracyEvaluation.call_evaluate,
      AccuracyEvaluation.get_evaluation_metrics, AccuracyEvaluation.set_evaluation_metrics,
      AccuracyEvaluation.print.
    destruct (evaluate evaluator inference_data (AccuracyEvaluation.world s))
      as [w1 [results|e]]; simpl.
    + match goal with |- context [evaluation_loop evaluator rest ?s1] =>
        specialize (IH s1); destruct (evaluation_loop evaluator rest s1) as [s2 r] end.
      destruct IH as (done & tail & Hm & He & Hout & Hr). simpl in *.
      exists (((kb_id, inference_data), results) :: done), tail.
      split; [by rewrite Hm|]. split; [by rewrite He, <- !app_assoc|].
      split; [by rewrite Hout, <- !app_assoc|].
      destruct r as [[]|e].
      * destruct Hr as [<- ->]. done.
      * destruct Hr as (kb' & data' & rest' & -> & ->). by exists kb', data', rest'.
    + exists [], [AccuracyEvaluation.Evaluate inference_data (Raise e)].
      rewrite app_nil_r. repeat split; try done. by exists kb_id, inference_data, rest.
Qed.

Lemma evaluate_all_run (loaded_responses : list (pystr * pyval))
    (s : AccuracyEvaluation.state World) :
  evaluate_all loaded_responses s =
  let created :=
    AccuracyEvaluation.events s ++ [AccuracyEvaluation.NewEvaluator evaluation_config_data] in
  match CustomEvaluator evaluation_config_data (AccuracyEvaluation.world s) with
  | (w', Ok evaluator) =>
      evaluation_loop evaluator loaded_responses
        (AccuracyEvaluation.State w' created [] (AccuracyEvaluation.stdout s))
  | (w', Raise e) =>
      (AccuracyEvaluation.State w' created (AccuracyEvaluation.evaluation_metrics s)
         (AccuracyEvaluation.stdout s), Raise e)
  end.
Proof.
  unfold AccuracyEvaluation.evaluate_all, bind, AccuracyEvaluation.call_CustomEvaluator,
    AccuracyEvaluation.set_evaluation_metrics.
  by destruct (CustomEvaluator _ _) as [w' [evaluator|e]].
Qed.

(** X20: the accuracy loop keeps every knowledge base apart.  Once the
    evaluator is created, [evaluate] is called on the data of each loaded
    knowledge base, in the order of [loaded_responses], and what it returns is
    stored under the key of that same knowledge base, followed by one printed
    line; a call that raises stops the loop, [evaluation_metrics] then holds
    the results of the knowledge bases before it.  When the evaluator cannot be
    created, nothing is evaluated and [evaluation_metrics] is not reset. *)
Theorem evaluate_all_keys_each_result (loaded_responses : list (pystr * pyval))
    (s : AccuracyEvaluation.state World) :
  NoDup (dict_keys loaded_responses) →
  let run := evaluate_all loaded_responses s in
  let created :=
    AccuracyEvaluation.events s ++ [AccuracyEvaluation.NewEvaluator evaluation_config_data] in
  match (CustomEvaluator evaluation_config_data (AccuracyEvaluation.world s)).2 with
  | Raise e =>
      run.2 = Raise e ∧
      AccuracyEvaluation.events run.1 = created ∧
      AccuracyEvaluation.evaluation_metrics run.1 = AccuracyEvaluation.evaluation_metrics s ∧
      AccuracyEvaluation.stdout run.1 = AccuracyEvaluation.stdout s
  | Ok _ =>
      ∃ (done : list ((pystr * pyval) * pyval)) tail,
        AccuracyEvaluation.evaluation_metrics run.1 = evaluation_entry <$> done ∧
        AccuracyEvaluation.events run.1 = created ++ (evaluation_event <$> done) ++ tail ∧
        AccuracyEvaluation.stdout run.1 =
          AccuracyEvaluation.stdout s ++
          (AccuracyEvaluation.completed_line <$> done.*1.*1) ∧
        match run.2 with
        | Ok _ => done.*1 = loaded_responses ∧ tail = []
        | Raise e =>
            ∃ kb_id inference_data rest,
              loaded_responses = done.*1 ++ (kb_id, inference_data) :: rest ∧
              tail = [AccuracyEvaluation.Evaluate inference_data (Raise e)]
        end
  end.
Proof.
  intros Hnd. cbv zeta.
  rewrite evaluate_all_run. cbv zeta.
  destruct (CustomEvaluator _ _) as [w1 [evaluator|e]]; simpl; [|done].
  match goal with |- context [evaluation_loop evaluator loaded_responses ?s1] =>
    pose proof (evaluation_loop_spec evaluator loaded_responses s1) as H;
    destruct (evaluation_loop evaluator loaded_responses s1) as [s2 r] end.
  destruct H as (done & tail & Hm & He & Hout & Hr). simpl in *.
  exists done, tail. split; [|done].
  rewrite Hm. apply dict_update_NoDup.
  assert ((evaluation_entry <$> done).*1 = done.*1.*1) as ->.
  { rewrite <- !list_fmap_compose. by apply list_fmap_ext. }
  unfold dict_keys in Hnd. destruct r as [[]|e].
  - destruct Hr as [<- _]. done.
  - destruct Hr as (kb & data & rest & -> & _). rewrite fmap_app in Hnd.
    by apply NoDup_app in Hnd as [? _].
Qed.
End AccuracyFacts.

(** The accuracy loop over two knowledge bases, the second of which the
    sample evaluator rejects. *)
Lemma evaluate_all_keys_each_result_witness :
  let loaded := [(kb_fixed, PyList [PyNone; PyNone]); (kb_semantic, PyNone)] in
  let run :=
    AccuracyEvaluation.evaluate_all PyNone EvaluationSample.CustomEvaluator
      EvaluationSample.evaluate loaded (AccuracyEvaluation.State 0 [] [] []) in
  AccuracyEvaluation.evaluation_metrics run.1 = [(kb_fixed, PyInt 2)] ∧
  ∃ done tail,
    AccuracyEvaluation.evaluation_metrics run.1 = evaluation_entry <$> done ∧
    AccuracyEvaluation.events run.1 =
      ([] ++ [AccuracyEvaluation.NewEvaluator PyNone]) ++ (evaluation_event <$> done) ++ tail ∧
    AccuracyEvaluation.stdout run.1 =
      [] ++ (AccuracyEvaluation.completed_line <$> done.*1.*1) ∧
    match run.2 with
    | Ok _ => done.*1 = loaded ∧ tail = []
    | Raise e =>
        ∃ kb_id inference_data rest,
          loaded = done.*1 ++ (kb_id, inference_data) :: rest ∧
          tail = [AccuracyEvaluation.Evaluate inference_data (Raise e)]
    end.
Proof.
  split; [reflexivity|].
  assert (NoDup (dict_keys [(kb_fixed, PyList [PyNone; PyNone]); (kb_semantic, PyNone)]))
    as Hnd.
  { repeat constructor; [|apply not_elem_of_nil].
    intros Hin. apply list_elem_of_singleton in Hin. discriminate Hin. }
  exact (evaluate_all_keys_each_result PyNone EvaluationSample.CustomEvaluator
           EvaluationSample.evaluate
           [(kb_fixed, PyList [PyNone; PyNone]); (kb_semantic, PyNone)]
           (AccuracyEvaluation.State 0 [] [] []) Hnd).
Defined.
